(** * Task management system: entities, services and their properties

    A shallow embedding of the Python sources under [models/],
    [repositories/] and [services/].

    Conventions of the embedding.
    - A Python object is a record; a method that mutates [self] is a
      function from the object's state to an outcome and the state left
      behind, so that what an exception leaves in the object is visible.
    - [datetime.utcnow()] and [uuid.uuid4()] are inputs of the method that
      calls them, one argument per call.
    - A naive [datetime] is its number of microseconds on the proleptic
      timeline, so that [timedelta.days] is a floor division.
    - Text is ASCII: [str.lower] and [str.strip] are modelled on the ASCII
      range. *)

From Stdlib Require Import ZArith List Bool Ascii String DecimalString DecimalNat Lia.
From Stdlib Require Import Floats.SpecFloat.
From stdpp Require Import base decidable list strings.

Local Open Scope string_scope.

(** ** Exceptions and outcomes *)

(** The exception classes the sources raise.  [ValidationError] is the class
    declared in [models/user.py]; the others are Python built-ins. *)
Inductive exn : Type :=
| ValueError (msg : string)
| PermissionError (msg : string)
| ValidationError (msg : string)
| KeyError (key : string)
| AttributeError (msg : string)
| TypeError (msg : string).

Inductive result (A : Type) : Type :=
| Ok (a : A)
| Raise (e : exn).
Arguments Ok {A} a.
Arguments Raise {A} e.

Definition is_ok {A} (r : result A) : bool :=
  match r with Ok _ => true | Raise _ => false end.

(** ** Time *)

Definition datetime : Type := Z.
Definition microseconds_per_day : Z := 86400000000.

(** [(a - b).days]: a [timedelta] is normalised with
    [0 <= seconds < 86400], so [days] is the floor of the quotient. *)
Definition timedelta_days (a b : datetime) : Z :=
  (a - b) / microseconds_per_day.

(** ** Python text operations on the ASCII range *)

Module Str.

(** Characters [str.strip] removes: TAB, LF, VT, FF, CR, the separators
    FS, GS, RS, US and the space. *)
Definition is_space (c : ascii) : bool :=
  let n := nat_of_ascii c in
  ((9 <=? n)%nat && (n <=? 13)%nat) || ((28 <=? n)%nat && (n <=? 32)%nat).

Definition lower_ascii (c : ascii) : ascii :=
  let n := nat_of_ascii c in
  if ((65 <=? n)%nat && (n <=? 90)%nat) then ascii_of_nat (n + 32) else c.

Fixpoint lower (s : string) : string :=
  match s with
  | EmptyString => EmptyString
  | String c s' => String (lower_ascii c) (lower s')
  end.

Fixpoint lstrip_list (l : list ascii) : list ascii :=
  match l with
  | [] => []
  | c :: l' => if is_space c then lstrip_list l' else l
  end.

Definition strip_list (l : list ascii) : list ascii :=
  rev (lstrip_list (rev (lstrip_list l))).

Definition strip (s : string) : string :=
  string_of_list_ascii (strip_list (list_ascii_of_string s)).

(** Truth value of a string: empty is false. *)
Definition truthy (s : string) : bool :=
  match s with EmptyString => false | _ => true end.

Definition len (s : string) : nat := String.length s.

(** [x in l] for a list of strings. *)
Definition mem (x : string) (l : list string) : bool :=
  existsb (fun y => bool_decide (y = x)) l.

(** [l.remove(x)] when [x in l]: the first occurrence goes. *)
Fixpoint remove_first (x : string) (l : list string) : list string :=
  match l with
  | [] => []
  | y :: l' => if bool_decide (y = x) then l' else y :: remove_first x l'
  end.

End Str.

(** ** Python floats: IEEE 754 binary64, round to nearest even *)

Module PyFloat.

Definition prec : Z := 53.
Definition emax : Z := 1024.

(** [float(n)]: exact for [|n| < 2^53], which covers every list length. *)
Definition of_int (n : Z) : spec_float := binary_normalize prec emax n 0 false.

(** [a / b] on integers, [b] non-zero: both operands convert exactly and
    the quotient is rounded once. *)
Definition truediv (a b : Z) : spec_float :=
  SFdiv prec emax (of_int a) (of_int b).

(** [x * n] for a float [x] and an integer [n]. *)
Definition mul_int (x : spec_float) (n : Z) : spec_float :=
  SFmul prec emax x (of_int n).

(** [int(x)]: truncation toward zero; not defined on infinities and NaN. *)
Definition to_int (x : spec_float) : option Z :=
  match x with
  | S754_zero _ => Some 0%Z
  | S754_finite s m e =>
      let v := match e with
               | Z0 => Zpos m
               | Zpos p => Z.shiftl (Zpos m) (Zpos p)
               | Zneg p => Z.shiftr (Zpos m) (Zpos p)
               end in
      Some (if s then Z.opp v else v)
  | S754_infinity _ | S754_nan => None
  end.

End PyFloat.

(** ** models/task.py *)

Inductive TaskStatus : Type := TODO | IN_PROGRESS | REVIEW | DONE | CANCELLED.
Inductive TaskPriority : Type := LOW | MEDIUM | HIGH | URGENT.

#[global] Instance TaskStatus_eq_dec : EqDecision TaskStatus.
Proof. solve_decision. Defined.
#[global] Instance TaskPriority_eq_dec : EqDecision TaskPriority.
Proof. solve_decision. Defined.

Record TaskComment : Type := mkTaskComment {
  comment_id : string;
  comment_author_id : string;
  comment_content : string;
  comment_created_at : datetime
}.

Module Task.

Record t : Type := mk {
  _id : string;
  _title : string;
  _description : string;
  _status : TaskStatus;
  _priority : TaskPriority;
  _assignee_id : option string;
  _due_date : option datetime;
  _created_at : datetime;
  _updated_at : datetime;
  _comments : list TaskComment;
  _tags : list string
}.

Definition set_status (s : TaskStatus) (x : t) : t :=
  mk (_id x) (_title x) (_description x) s (_priority x) (_assignee_id x)
     (_due_date x) (_created_at x) (_updated_at x) (_comments x) (_tags x).

Definition set_updated_at (d : datetime) (x : t) : t :=
  mk (_id x) (_title x) (_description x) (_status x) (_priority x)
     (_assignee_id x) (_due_date x) (_created_at x) d (_comments x) (_tags x).

Definition set_assignee_id (a : option string) (x : t) : t :=
  mk (_id x) (_title x) (_description x) (_status x) (_priority x) a
     (_due_date x) (_created_at x) (_updated_at x) (_comments x) (_tags x).

Definition set_comments (c : list TaskComment) (x : t) : t :=
  mk (_id x) (_title x) (_description x) (_status x) (_priority x)
     (_assignee_id x) (_due_date x) (_created_at x) (_updated_at x) c (_tags x).

(** [Task.update_status]: the guard raises before any field is written. *)
Definition update_status (new_status : TaskStatus) (now : datetime) (self : t)
  : result unit * t :=
  if bool_decide (_status self = DONE) && negb (bool_decide (new_status = DONE))
  then (Raise (ValueError "Cannot change status of completed task"), self)
  else (Ok tt, set_updated_at now (set_status new_status self)).

(** [Task.is_urgent], evaluated at clock reading [now]. *)
Definition is_urgent (now : datetime) (self : t) : bool :=
  if bool_decide (_priority self = URGENT) then true
  else match _due_date self with
       | Some due =>
           let days_until_due := timedelta_days due now in
           (days_until_due <=? 1)%Z
           && (bool_decide (_priority self = HIGH)
               || bool_decide (_priority self = URGENT))
       | None => false
       end.

Definition _validate_title (title : string) : result string :=
  if negb (Str.truthy title) || negb (Str.truthy (Str.strip title))
  then Raise (ValueError "Task title cannot be empty")
  else Ok (Str.strip title).

(** [Task.__init__]: [uuid] is the fresh identifier, [now1] and [now2] the
    two clock readings. *)
Definition __init__ (title description : string) (assignee_id : option string)
    (priority : TaskPriority) (due_date : option datetime)
    (uuid : string) (now1 now2 : datetime) : result t :=
  match _validate_title title with
  | Raise e => Raise e
  | Ok title' =>
      Ok (mk uuid title' description TODO priority assignee_id due_date
             now1 now2 [] [])
  end.

(** The [assignee_id] setter. *)
Definition assign_assignee_id (value : option string) (now : datetime)
  (self : t) : t :=
  set_updated_at now (set_assignee_id value self).

Definition add_comment (author_id content : string) (uuid : string)
    (now1 now2 : datetime) (self : t) : result TaskComment * t :=
  if negb (Str.truthy (Str.strip content))
  then (Raise (ValueError "Comment content cannot be empty"), self)
  else
    let comment := mkTaskComment uuid author_id (Str.strip content) now1 in
    (Ok comment, set_updated_at now2 (set_comments (_comments self ++ [comment]) self)).

Definition is_overdue (now : datetime) (self : t) : bool :=
  match _due_date self with
  | None => false
  | Some due =>
      if bool_decide (_status self = DONE) then false else (due <? now)%Z
  end.

Definition set_title (v : string) (x : t) : t :=
  mk (_id x) v (_description x) (_status x) (_priority x) (_assignee_id x)
     (_due_date x) (_created_at x) (_updated_at x) (_comments x) (_tags x).

Definition set_description (v : string) (x : t) : t :=
  mk (_id x) (_title x) v (_status x) (_priority x) (_assignee_id x)
     (_due_date x) (_created_at x) (_updated_at x) (_comments x) (_tags x).

Definition set_priority (v : TaskPriority) (x : t) : t :=
  mk (_id x) (_title x) (_description x) (_status x) v (_assignee_id x)
     (_due_date x) (_created_at x) (_updated_at x) (_comments x) (_tags x).

Definition set_due_date (v : option datetime) (x : t) : t :=
  mk (_id x) (_title x) (_description x) (_status x) (_priority x)
     (_assignee_id x) v (_created_at x) (_updated_at x) (_comments x) (_tags x).

Definition set_tags (v : list string) (x : t) : t :=
  mk (_id x) (_title x) (_description x) (_status x) (_priority x)
     (_assignee_id x) (_due_date x) (_created_at x) (_updated_at x)
     (_comments x) v.

(** The [title] setter: the value is validated before anything is written. *)
Definition assign_title (value : string) (now : datetime) (self : t)
  : result unit * t :=
  match _validate_title value with
  | Raise e => (Raise e, self)
  | Ok title' => (Ok tt, set_updated_at now (set_title title' self))
  end.

(** The [description], [priority] and [due_date] setters. *)
Definition assign_description (value : string) (now : datetime) (self : t) : t :=
  set_updated_at now (set_description value self).

Definition assign_priority (value : TaskPriority) (now : datetime) (self : t) : t :=
  set_updated_at now (set_priority value self).

Definition assign_due_date (value : option datetime) (now : datetime) (self : t) : t :=
  set_updated_at now (set_due_date value self).

(** [Task.add_tag]: the tag is stripped, then lowered. *)
Definition add_tag (tag : string) (now : datetime) (self : t) : t :=
  let tag := Str.lower (Str.strip tag) in
  if Str.truthy tag && negb (Str.mem tag (_tags self))
  then set_updated_at now (set_tags (_tags self ++ [tag]) self)
  else self.

Definition remove_tag (tag : string) (now : datetime) (self : t) : t :=
  let tag := Str.lower (Str.strip tag) in
  if Str.mem tag (_tags self)
  then set_updated_at now (set_tags (Str.remove_first tag (_tags self)) self)
  else self.

(** [Task.get_progress_percentage] *)
Definition get_progress_percentage (self : t) : Z :=
  match _status self with
  | TODO => 0
  | IN_PROGRESS => 50
  | REVIEW => 75
  | DONE => 100
  | CANCELLED => 0
  end.

(** One call of a method or setter that can change a task: the task as the
    call leaves it, whether the call returns or raises. *)
Inductive step : t -> t -> Prop :=
| step_title value now x : step x (snd (assign_title value now x))
| step_description value now x : step x (assign_description value now x)
| step_priority value now x : step x (assign_priority value now x)
| step_assignee value now x : step x (assign_assignee_id value now x)
| step_due_date value now x : step x (assign_due_date value now x)
| step_status new_status now x : step x (snd (update_status new_status now x))
| step_comment author_id content uuid now1 now2 x :
    step x (snd (add_comment author_id content uuid now1 now2 x))
| step_add_tag tag now x : step x (add_tag tag now x)
| step_remove_tag tag now x : step x (remove_tag tag now x).

(** Any number of calls, one after the other. *)
Inductive steps : t -> t -> Prop :=
| steps_refl x : steps x x
| steps_next x y z : steps x y -> step y z -> steps x z.

(** [Task.__eq__]: identity of tasks is the identifier. *)
Definition eqb (a b : t) : bool := bool_decide (_id a = _id b).

End Task.

(** ** models/project.py *)

Inductive ProjectStatus : Type :=
  PLANNING | ACTIVE | ON_HOLD | COMPLETED | PROJECT_CANCELLED.

Record ProjectMilestone : Type := mkProjectMilestone {
  ms_id : string;
  ms_title : string;
  ms_description : string;
  ms_due_date : datetime;
  ms_completed : bool;
  ms_completed_at : option datetime
}.

Module Project.

Record t : Type := mk {
  _id : string;
  _name : string;
  _description : string;
  _status : ProjectStatus;
  _owner_id : option string;
  _created_at : datetime;
  _updated_at : datetime;
  _tasks : list Task.t;
  _milestones : list ProjectMilestone;
  _team_members : list string
}.

Definition set_tasks (l : list Task.t) (x : t) : t :=
  mk (_id x) (_name x) (_description x) (_status x) (_owner_id x)
     (_created_at x) (_updated_at x) l (_milestones x) (_team_members x).

Definition set_updated_at (d : datetime) (x : t) : t :=
  mk (_id x) (_name x) (_description x) (_status x) (_owner_id x)
     (_created_at x) d (_tasks x) (_milestones x) (_team_members x).

Definition set_status (s : ProjectStatus) (x : t) : t :=
  mk (_id x) (_name x) (_description x) s (_owner_id x)
     (_created_at x) (_updated_at x) (_tasks x) (_milestones x) (_team_members x).

Definition set_milestones (l : list ProjectMilestone) (x : t) : t :=
  mk (_id x) (_name x) (_description x) (_status x) (_owner_id x)
     (_created_at x) (_updated_at x) (_tasks x) l (_team_members x).

Definition set_team_members (l : list string) (x : t) : t :=
  mk (_id x) (_name x) (_description x) (_status x) (_owner_id x)
     (_created_at x) (_updated_at x) (_tasks x) (_milestones x) l.

(** [task in self._tasks], decided by [Task.__eq__]. *)
Definition task_in (task : Task.t) (l : list Task.t) : bool :=
  existsb (fun x => Task.eqb x task) l.

(** [list.remove(task)]: the first element equal to [task] goes. *)
Fixpoint list_remove (task : Task.t) (l : list Task.t) : list Task.t :=
  match l with
  | [] => []
  | x :: l' => if Task.eqb x task then l' else x :: list_remove task l'
  end.

Definition update_status (new_status : ProjectStatus) (now : datetime)
  (self : t) : t :=
  set_updated_at now (set_status new_status self).

Definition add_task (task : Task.t) (now : datetime) (self : t) : t :=
  if negb (task_in task (_tasks self))
  then set_updated_at now (set_tasks (_tasks self ++ [task]) self)
  else self.

Definition remove_task (task : Task.t) (now : datetime) (self : t) : t :=
  if task_in task (_tasks self)
  then set_updated_at now (set_tasks (list_remove task (_tasks self)) self)
  else self.

Definition get_tasks_by_status (status : TaskStatus) (self : t) : list Task.t :=
  List.filter (fun task => bool_decide (Task._status task = status)) (_tasks self).

(** [int((completed_tasks / len(self._tasks)) * 100)], in floating point.
    The division is reached with a non-empty list only, and its operands
    are finite, so [int] is defined; the [None] branch is unreachable. *)
Definition get_progress_percentage (self : t) : Z :=
  match _tasks self with
  | [] => 0
  | _ =>
      let completed_tasks := Z.of_nat (length (get_tasks_by_status DONE self)) in
      let ratio := PyFloat.truediv completed_tasks (Z.of_nat (length (_tasks self))) in
      match PyFloat.to_int (PyFloat.mul_int ratio 100) with
      | Some n => n
      | None => 0
      end
  end.

Definition _validate_name (name : string) : result string :=
  if negb (Str.truthy name) || negb (Str.truthy (Str.strip name))
  then Raise (ValueError "Project name cannot be empty")
  else Ok (Str.strip name).

Definition __init__ (name description : string) (owner_id : option string)
    (uuid : string) (now1 now2 : datetime) : result t :=
  match _validate_name name with
  | Raise e => Raise e
  | Ok name' => Ok (mk uuid name' description PLANNING owner_id now1 now2 [] [] [])
  end.

Definition add_milestone (title description : string) (due_date : datetime)
    (uuid : string) (now : datetime) (self : t) : ProjectMilestone * t :=
  let milestone :=
    mkProjectMilestone uuid (Str.strip title) (Str.strip description) due_date
                       false None in
  (milestone, set_updated_at now (set_milestones (_milestones self ++ [milestone]) self)).

Fixpoint complete_in (milestone_id : string) (now : datetime)
    (l : list ProjectMilestone) : option (list ProjectMilestone) :=
  match l with
  | [] => None
  | milestone :: l' =>
      if bool_decide (ms_id milestone = milestone_id)
      then Some (mkProjectMilestone (ms_id milestone) (ms_title milestone)
                   (ms_description milestone) (ms_due_date milestone)
                   true (Some now) :: l')
      else match complete_in milestone_id now l' with
           | Some r => Some (milestone :: r)
           | None => None
           end
  end.

Definition complete_milestone (milestone_id : string) (now1 now2 : datetime)
    (self : t) : bool * t :=
  match complete_in milestone_id now1 (_milestones self) with
  | Some l => (true, set_updated_at now2 (set_milestones l self))
  | None => (false, self)
  end.

Definition add_team_member (user_id : string) (now : datetime) (self : t) : t :=
  if negb (Str.mem user_id (_team_members self))
  then set_updated_at now (set_team_members (_team_members self ++ [user_id]) self)
  else self.

Definition remove_team_member (user_id : string) (now : datetime) (self : t) : t :=
  if Str.mem user_id (_team_members self)
  then set_updated_at now
         (set_team_members (Str.remove_first user_id (_team_members self)) self)
  else self.

(** A comprehension whose test reads the clock: [clock i] is the reading
    made for the element at position [i]. *)
Fixpoint filter_timed (test : datetime -> Task.t -> bool) (clock : nat -> datetime)
    (i : nat) (l : list Task.t) : list Task.t :=
  match l with
  | [] => []
  | task :: l' =>
      if test (clock i) task
      then task :: filter_timed test clock (S i) l'
      else filter_timed test clock (S i) l'
  end.

Definition get_overdue_tasks (clock : nat -> datetime) (self : t) : list Task.t :=
  filter_timed Task.is_overdue clock 0 (_tasks self).

Definition get_urgent_tasks (clock : nat -> datetime) (self : t) : list Task.t :=
  filter_timed Task.is_urgent clock 0 (_tasks self).

(** [Project.get_task_statistics], the dictionary in the order it is
    written.  The overdue count makes the first readings of the clock, the
    urgent count the following ones. *)
Definition get_task_statistics (clock : nat -> datetime) (self : t)
  : list (string * nat) :=
  [("total", length (_tasks self));
   ("todo", length (get_tasks_by_status TODO self));
   ("in_progress", length (get_tasks_by_status IN_PROGRESS self));
   ("review", length (get_tasks_by_status REVIEW self));
   ("done", length (get_tasks_by_status DONE self));
   ("cancelled", length (get_tasks_by_status CANCELLED self));
   ("overdue", length (get_overdue_tasks clock self));
   ("urgent",
    length (get_urgent_tasks (fun i => clock (length (_tasks self) + i)%nat) self))].

(** The [name], [description] and [owner_id] setters. *)
Definition assign_name (value : string) (now : datetime) (self : t) : result unit * t :=
  match _validate_name value with
  | Raise e => (Raise e, self)
  | Ok name' =>
      (Ok tt,
       set_updated_at now
         (mk (_id self) name' (_description self) (_status self) (_owner_id self)
             (_created_at self) (_updated_at self) (_tasks self) (_milestones self)
             (_team_members self)))
  end.

Definition assign_description (value : string) (now : datetime) (self : t) : t :=
  set_updated_at now
    (mk (_id self) (_name self) value (_status self) (_owner_id self)
        (_created_at self) (_updated_at self) (_tasks self) (_milestones self)
        (_team_members self)).

Definition assign_owner_id (value : option string) (now : datetime) (self : t) : t :=
  set_updated_at now
    (mk (_id self) (_name self) (_description self) (_status self) value
        (_created_at self) (_updated_at self) (_tasks self) (_milestones self)
        (_team_members self)).

(** The states of a project: what the constructor yields, and what the
    methods and setters make of such a state.  The tasks in the list are
    objects that other code may hold too; [built_task_changed] is a change
    made to them through such a reference, which cannot touch their
    identifiers since [Task] has no way to assign one. *)
Inductive built : t -> Prop :=
| built_init name description owner_id uuid now1 now2 p :
    __init__ name description owner_id uuid now1 now2 = Ok p -> built p
| built_update_status new_status now p :
    built p -> built (update_status new_status now p)
| built_add_task task now p :
    built p -> built (add_task task now p)
| built_remove_task task now p :
    built p -> built (remove_task task now p)
| built_add_milestone title description due_date uuid now p :
    built p -> built (snd (add_milestone title description due_date uuid now p))
| built_complete_milestone milestone_id now1 now2 p :
    built p -> built (snd (complete_milestone milestone_id now1 now2 p))
| built_add_team_member user_id now p :
    built p -> built (add_team_member user_id now p)
| built_remove_team_member user_id now p :
    built p -> built (remove_team_member user_id now p)
| built_assign_name value now p :
    built p -> built (snd (assign_name value now p))
| built_assign_description value now p :
    built p -> built (assign_description value now p)
| built_assign_owner_id value now p :
    built p -> built (assign_owner_id value now p)
| built_task_changed l p :
    built p -> map Task._id l = map Task._id (_tasks p) -> built (set_tasks l p).

End Project.

(** ** Regular expressions, as [re] matches them

    A pattern is matched by derivatives.  [User.EMAIL_REGEX] uses character
    classes, concatenation, [+], [{2,}] and the anchors [^] and [$]. *)

Module Re.

Inductive regex : Type :=
| Void
| Eps
| Class (p : ascii -> bool)
| Seq (r1 r2 : regex)
| Alt (r1 r2 : regex)
| Star (r : regex).

Definition Plus (r : regex) : regex := Seq r (Star r).

Fixpoint nullable (r : regex) : bool :=
  match r with
  | Void => false
  | Eps => true
  | Class _ => false
  | Seq r1 r2 => nullable r1 && nullable r2
  | Alt r1 r2 => nullable r1 || nullable r2
  | Star _ => true
  end.

Fixpoint deriv (c : ascii) (r : regex) : regex :=
  match r with
  | Void => Void
  | Eps => Void
  | Class p => if p c then Eps else Void
  | Seq r1 r2 =>
      if nullable r1
      then Alt (Seq (deriv c r1) r2) (deriv c r2)
      else Seq (deriv c r1) r2
  | Alt r1 r2 => Alt (deriv c r1) (deriv c r2)
  | Star r1 => Seq (deriv c r1) (Star r1)
  end.

Fixpoint fullmatch (r : regex) (s : string) : bool :=
  match s with
  | EmptyString => nullable r
  | String c s' => fullmatch (deriv c r) s'
  end.

(** Does [s] end with a line feed, and what precedes it. *)
Fixpoint chop_newline (s : string) : option string :=
  match s with
  | EmptyString => None
  | String c EmptyString =>
      if bool_decide (c = "010"%char) then Some EmptyString else None
  | String c s' =>
      match chop_newline s' with
      | Some r => Some (String c r)
      | None => None
      end
  end.

(** [re.compile('^' r '$').match(s)]: [$] holds at the end of the text and
    also just before a line feed that ends it. *)
Definition match_anchored (r : regex) (s : string) : bool :=
  fullmatch r s
  || match chop_newline s with
     | Some s' => fullmatch r s'
     | None => false
     end.

Definition in_range (lo hi : nat) (c : ascii) : bool :=
  let n := nat_of_ascii c in (lo <=? n)%nat && (n <=? hi)%nat.

Definition is_alpha (c : ascii) : bool := in_range 97 122 c || in_range 65 90 c.
Definition is_digit (c : ascii) : bool := in_range 48 57 c.
Definition one_of (l : list ascii) (c : ascii) : bool :=
  existsb (fun x => bool_decide (x = c)) l.

(** The words a pattern denotes. *)
Inductive matches : regex -> list ascii -> Prop :=
| matches_eps : matches Eps []
| matches_class p c : p c = true -> matches (Class p) [c]
| matches_seq r1 r2 s1 s2 :
    matches r1 s1 -> matches r2 s2 -> matches (Seq r1 r2) (s1 ++ s2)
| matches_alt_l r1 r2 s : matches r1 s -> matches (Alt r1 r2) s
| matches_alt_r r1 r2 s : matches r2 s -> matches (Alt r1 r2) s
| matches_star_nil r : matches (Star r) []
| matches_star_app r s1 s2 :
    matches r s1 -> matches (Star r) s2 -> matches (Star r) (s1 ++ s2).

(** Does some character class of the pattern accept [c]. *)
Fixpoint accepts (r : regex) (c : ascii) : bool :=
  match r with
  | Void | Eps => false
  | Class p => p c
  | Seq r1 r2 | Alt r1 r2 => accepts r1 c || accepts r2 c
  | Star r1 => accepts r1 c
  end.

(** Every character class of the pattern that accepts a character accepts
    what [f] makes of it. *)
Fixpoint closed_under (f : ascii -> ascii) (r : regex) : Prop :=
  match r with
  | Void | Eps => True
  | Class p => forall c, p c = true -> p (f c) = true
  | Seq r1 r2 | Alt r1 r2 => closed_under f r1 /\ closed_under f r2
  | Star r1 => closed_under f r1
  end.

End Re.

(** ** models/user.py *)

Inductive UserRole : Type := ADMIN | USER | GUEST.

#[global] Instance UserRole_eq_dec : EqDecision UserRole.
Proof. solve_decision. Defined.

Record UserProfile : Type := mkUserProfile {
  first_name : string;
  last_name : string;
  bio : string
}.

(** [hashlib.pbkdf2_hmac('sha256', password, salt, 100000).hex()], a
    function of the password and the salt. *)
Class Crypto : Type := { pbkdf2_hmac_hex : string -> string -> string }.

Module User.

Record t : Type := mk {
  _id : option string;
  _username : string;
  _email : string;
  _password_hash : string;
  _role : UserRole;
  _profile : UserProfile;
  _created_at : datetime;
  _permissions : list string
}.

Definition set_id (i : option string) (x : t) : t :=
  mk i (_username x) (_email x) (_password_hash x) (_role x) (_profile x)
     (_created_at x) (_permissions x).

Definition set_password_hash (h : string) (x : t) : t :=
  mk (_id x) (_username x) (_email x) h (_role x) (_profile x)
     (_created_at x) (_permissions x).

Definition set_role (r : UserRole) (x : t) : t :=
  mk (_id x) (_username x) (_email x) (_password_hash x) r (_profile x)
     (_created_at x) (_permissions x).

Definition set_profile (p : UserProfile) (x : t) : t :=
  mk (_id x) (_username x) (_email x) (_password_hash x) (_role x) p
     (_created_at x) (_permissions x).

Definition set_created_at (d : datetime) (x : t) : t :=
  mk (_id x) (_username x) (_email x) (_password_hash x) (_role x) (_profile x)
     d (_permissions x).

Definition set_permissions (l : list string) (x : t) : t :=
  mk (_id x) (_username x) (_email x) (_password_hash x) (_role x) (_profile x)
     (_created_at x) l.

(** [r'^[a-zA-Z0-9._%+-]+@[a-zA-Z0-9.-]+\.[a-zA-Z]{2,}$'] *)
Definition EMAIL_REGEX : Re.regex :=
  let local_part c :=
    Re.is_alpha c || Re.is_digit c || Re.one_of ["."; "_"; "%"; "+"; "-"]%char c in
  let domain c := Re.is_alpha c || Re.is_digit c || Re.one_of ["."; "-"]%char c in
  Re.Seq (Re.Plus (Re.Class local_part))
   (Re.Seq (Re.Class (Re.one_of ["@"%char]))
     (Re.Seq (Re.Plus (Re.Class domain))
       (Re.Seq (Re.Class (Re.one_of ["."%char]))
         (Re.Seq (Re.Class Re.is_alpha)
           (Re.Seq (Re.Class Re.is_alpha) (Re.Star (Re.Class Re.is_alpha))))))).

Definition is_admin (self : t) : bool := bool_decide (_role self = ADMIN).

(** The length is tested on the text as given; the text is lowered and
    stripped afterwards. *)
Definition _validate_username (username : string) : result string :=
  if negb (Str.truthy username) || (Str.len username <? 3)%nat
  then Raise (ValidationError "Username must be at least 3 characters")
  else Ok (Str.strip (Str.lower username)).

Definition _validate_email (email : string) : result string :=
  let email := Str.lower (Str.strip email) in
  if negb (Re.match_anchored EMAIL_REGEX email)
  then Raise (ValidationError "Invalid email format")
  else Ok email.

(** [salt] is the value of [secrets.token_hex(16)]. *)
Definition _hash_password `{Crypto} (password salt : string) : result string :=
  if (Str.len password <? 6)%nat
  then Raise (ValidationError "Password too short")
  else Ok (salt ++ ":" ++ pbkdf2_hmac_hex password salt).

Definition permissions_of (role : UserRole) : list string :=
  match role with
  | ADMIN => ["admin.panel"; "user.manage"; "system.settings"]
  | USER => ["profile.update"; "content.create"]
  | GUEST => ["content.read"]
  end.

Definition _get_permissions (self : t) : list string := permissions_of (_role self).

(** [User.__init__]. *)
Definition __init__ `{Crypto} (username email password : string) (role : UserRole)
    (salt : string) (now : datetime) : result t :=
  match _validate_username username with
  | Raise e => Raise e
  | Ok username' =>
      match _validate_email email with
      | Raise e => Raise e
      | Ok email' =>
          match _hash_password password salt with
          | Raise e => Raise e
          | Ok h =>
              Ok (mk None username' email' h role (mkUserProfile "" "" "") now
                     (permissions_of role))
          end
      end
  end.

(** [s.split(':')] *)
Fixpoint split_colon_aux (cur : string) (s : string) : list string :=
  match s with
  | EmptyString => [cur]
  | String c s' =>
      if bool_decide (c = ":"%char)
      then cur :: split_colon_aux EmptyString s'
      else split_colon_aux (cur ++ String c EmptyString) s'
  end.
Definition split_colon (s : string) : list string := split_colon_aux EmptyString s.

(** [User.verify_password]: an unpacking that fails is caught and reported
    as a mismatch. *)
Definition verify_password `{Crypto} (password : string) (self : t) : bool :=
  match split_colon (_password_hash self) with
  | [salt; stored_hash] => bool_decide (pbkdf2_hmac_hex password salt = stored_hash)
  | _ => false
  end.

Definition change_password `{Crypto} (old_password new_password salt : string)
    (self : t) : result bool * t :=
  if negb (verify_password old_password self)
  then (Raise (ValidationError "Current password incorrect"), self)
  else match _hash_password new_password salt with
       | Raise e => (Raise e, self)
       | Ok h => (Ok true, set_password_hash h self)
       end.

(** One [setattr] of [update_profile]: a key that names a field of the
    profile is written, [full_name] is a read-only property, any other key
    is skipped. *)
Definition setattr_profile (key value : string) (p : UserProfile)
  : result UserProfile :=
  if bool_decide (key = "first_name") then Ok (mkUserProfile value (last_name p) (bio p))
  else if bool_decide (key = "last_name") then Ok (mkUserProfile (first_name p) value (bio p))
  else if bool_decide (key = "bio") then Ok (mkUserProfile (first_name p) (last_name p) value)
  else if bool_decide (key = "full_name") then Raise (AttributeError "can't set attribute")
  else Ok p.

Fixpoint update_profile (kwargs : list (string * string)) (self : t)
  : result unit * t :=
  match kwargs with
  | [] => (Ok tt, self)
  | (key, value) :: rest =>
      match setattr_profile key value (_profile self) with
      | Raise e => (Raise e, self)
      | Ok p => update_profile rest (set_profile p self)
      end
  end.

Definition promote_to_admin (admin_user : t) (self : t) : result bool * t :=
  if negb (is_admin admin_user)
  then (Raise (ValidationError "Only admins can promote users"), self)
  else (Ok true, set_permissions (permissions_of ADMIN) (set_role ADMIN self)).

(** [User.has_permission] *)
Definition has_permission (permission : string) (self : t) : bool :=
  Str.mem permission (_permissions self).

End User.

(** ** models/team.py *)

Inductive TeamRole : Type := LEADER | MEMBER | CONTRIBUTOR.

#[global] Instance TeamRole_eq_dec : EqDecision TeamRole.
Proof. solve_decision. Defined.

Record TeamMember : Type := mkTeamMember {
  member_user_id : string;
  member_role : TeamRole;
  member_joined_at : datetime;
  member_permissions : list string
}.

Module Team.

Record t : Type := mk {
  _id : string;
  _name : string;
  _description : string;
  _leader_id : option string;
  _created_at : datetime;
  _updated_at : datetime;
  _members : list TeamMember;
  _projects : list string
}.

Definition set_leader_id (l : option string) (x : t) : t :=
  mk (_id x) (_name x) (_description x) l (_created_at x) (_updated_at x)
     (_members x) (_projects x).

Definition set_updated_at (d : datetime) (x : t) : t :=
  mk (_id x) (_name x) (_description x) (_leader_id x) (_created_at x) d
     (_members x) (_projects x).

Definition set_members (l : list TeamMember) (x : t) : t :=
  mk (_id x) (_name x) (_description x) (_leader_id x) (_created_at x)
     (_updated_at x) l (_projects x).

Definition set_projects (l : list string) (x : t) : t :=
  mk (_id x) (_name x) (_description x) (_leader_id x) (_created_at x)
     (_updated_at x) (_members x) l.

Definition _validate_name (name : string) : result string :=
  if negb (Str.truthy name) || negb (Str.truthy (Str.strip name))
  then Raise (ValueError "Team name cannot be empty")
  else Ok (Str.strip name).

(** [Team.__init__]: the leader is recorded, not enrolled. *)
Definition __init__ (name description : string) (leader_id : option string)
    (uuid : string) (now1 now2 : datetime) : result t :=
  match _validate_name name with
  | Raise e => Raise e
  | Ok name' => Ok (mk uuid name' description leader_id now1 now2 [] [])
  end.

Definition _get_default_permissions (role : TeamRole) : list string :=
  match role with
  | LEADER => ["team.manage"; "project.create"; "project.assign";
               "member.add"; "member.remove"; "member.promote"]
  | MEMBER => ["project.view"; "task.create"; "task.assign";
               "comment.add"; "milestone.view"]
  | CONTRIBUTOR => ["project.view"; "task.view"; "comment.add"]
  end.

Definition has_user_id (user_id : string) (member : TeamMember) : bool :=
  bool_decide (member_user_id member = user_id).

Definition is_member (user_id : string) (self : t) : bool :=
  existsb (has_user_id user_id) (_members self).

Definition add_member (user_id : string) (role : TeamRole)
    (now1 now2 : datetime) (self : t) : result TeamMember * t :=
  if is_member user_id self
  then (Raise (ValueError "User is already a member of this team"), self)
  else
    let member := mkTeamMember user_id role now1 (_get_default_permissions role) in
    (Ok member, set_updated_at now2 (set_members (_members self ++ [member]) self)).

(** The position of the first member with [user_id], as the loop over
    [enumerate(self._members)] meets it. *)
Fixpoint index_of (user_id : string) (l : list TeamMember) : option nat :=
  match l with
  | [] => None
  | member :: l' =>
      if has_user_id user_id member then Some 0%nat
      else match index_of user_id l' with
           | Some i => Some (S i)
           | None => None
           end
  end.

(** [list.pop(i)] for an index in range. *)
Fixpoint pop (i : nat) (l : list TeamMember) : list TeamMember :=
  match l, i with
  | [], _ => []
  | _ :: l', O => l'
  | x :: l', S j => x :: pop j l'
  end.

(** [Team.remove_member]: the leader test is made on the member found. *)
Definition remove_member (user_id : string) (now : datetime) (self : t)
  : result bool * t :=
  match index_of user_id (_members self) with
  | Some i =>
      if bool_decide (Some user_id = _leader_id self)
      then (Raise (ValueError "Cannot remove team leader"), self)
      else (Ok true, set_updated_at now (set_members (pop i (_members self)) self))
  | None => (Ok false, self)
  end.

Fixpoint promote_in (user_id : string) (new_role : TeamRole)
    (l : list TeamMember) : option (list TeamMember) :=
  match l with
  | [] => None
  | member :: l' =>
      if has_user_id user_id member
      then Some (mkTeamMember (member_user_id member) new_role
                   (member_joined_at member) (_get_default_permissions new_role)
                 :: l')
      else match promote_in user_id new_role l' with
           | Some r => Some (member :: r)
           | None => None
           end
  end.

Definition promote_member (user_id : string) (new_role : TeamRole)
    (now : datetime) (self : t) : bool * t :=
  match promote_in user_id new_role (_members self) with
  | Some l => (true, set_updated_at now (set_members l self))
  | None => (false, self)
  end.

Fixpoint get_member_role_in (user_id : string) (l : list TeamMember)
  : option TeamRole :=
  match l with
  | [] => None
  | member :: l' =>
      if has_user_id user_id member then Some (member_role member)
      else get_member_role_in user_id l'
  end.

Definition get_member_role (user_id : string) (self : t) : option TeamRole :=
  get_member_role_in user_id (_members self).

Definition add_project (project_id : string) (now : datetime) (self : t) : t :=
  if negb (Str.mem project_id (_projects self))
  then set_updated_at now (set_projects (_projects self ++ [project_id]) self)
  else self.

Definition remove_project (project_id : string) (now : datetime) (self : t) : t :=
  if Str.mem project_id (_projects self)
  then set_updated_at now
         (set_projects (Str.remove_first project_id (_projects self)) self)
  else self.

(** The [leader_id] setter. *)
Definition assign_leader_id (value : option string) (now : datetime) (self : t) : t :=
  set_updated_at now (set_leader_id value self).

Fixpoint has_permission_in (user_id permission : string) (l : list TeamMember)
  : bool :=
  match l with
  | [] => false
  | member :: l' =>
      if has_user_id user_id member
      then Str.mem permission (member_permissions member)
      else has_permission_in user_id permission l'
  end.

Definition has_permission (user_id permission : string) (self : t) : bool :=
  has_permission_in user_id permission (_members self).

Definition get_member_count (self : t) : nat := length (_members self).

Definition get_members_by_role (role : TeamRole) (self : t) : list TeamMember :=
  List.filter (fun member => bool_decide (member_role member = role)) (_members self).

Definition get_leaders (self : t) : list TeamMember :=
  List.filter (fun member => bool_decide (member_role member = LEADER)) (_members self).

(** The [name] and [description] setters. *)
Definition assign_name (value : string) (now : datetime) (self : t) : result unit * t :=
  match _validate_name value with
  | Raise e => (Raise e, self)
  | Ok name' =>
      (Ok tt,
       set_updated_at now
         (mk (_id self) name' (_description self) (_leader_id self)
             (_created_at self) (_updated_at self) (_members self) (_projects self)))
  end.

Definition assign_description (value : string) (now : datetime) (self : t) : t :=
  set_updated_at now
    (mk (_id self) (_name self) value (_leader_id self) (_created_at self)
        (_updated_at self) (_members self) (_projects self)).

(** The states of a team: what the constructor yields and what the methods
    and setters make of such a state, whether they return or raise. *)
Inductive built : t -> Prop :=
| built_init name description leader_id uuid now1 now2 x :
    __init__ name description leader_id uuid now1 now2 = Ok x -> built x
| built_add_member user_id role now1 now2 x :
    built x -> built (snd (add_member user_id role now1 now2 x))
| built_remove_member user_id now x :
    built x -> built (snd (remove_member user_id now x))
| built_promote_member user_id new_role now x :
    built x -> built (snd (promote_member user_id new_role now x))
| built_add_project project_id now x :
    built x -> built (add_project project_id now x)
| built_remove_project project_id now x :
    built x -> built (remove_project project_id now x)
| built_assign_leader_id v now x :
    built x -> built (assign_leader_id v now x)
| built_assign_name v now x :
    built x -> built (snd (assign_name v now x))
| built_assign_description v now x :
    built x -> built (assign_description v now x).

End Team.

(** ** Dictionaries

    A Python [dict] keeps its keys in insertion order; assigning to a key
    that is present replaces the value where it stands. *)

Module PyDict.

Section Dict.
Context {V : Type}.

Definition t : Type := list (string * V).

Fixpoint get (k : string) (d : t) : option V :=
  match d with
  | [] => None
  | (k', v) :: d' => if bool_decide (k' = k) then Some v else get k d'
  end.

Fixpoint set (k : string) (v : V) (d : t) : t :=
  match d with
  | [] => [(k, v)]
  | (k', v') :: d' =>
      if bool_decide (k' = k) then (k, v) :: d' else (k', v') :: set k v d'
  end.

Definition values (d : t) : list V := map snd d.

(** [del d[k]] for a key that is present; the keys of a dictionary are
    distinct, so the first entry under [k] is the only one. *)
Fixpoint delete (k : string) (d : t) : t :=
  match d with
  | [] => []
  | (k', v) :: d' => if bool_decide (k' = k) then d' else (k', v) :: delete k d'
  end.

Definition keys (d : t) : list string := map fst d.

End Dict.

Arguments t V : clear implicits.

End PyDict.

(** ** repositories/ *)

(** [str(n)] for a counter. *)
Definition str_of_nat (n : nat) : string :=
  DecimalString.NilEmpty.string_of_uint (Nat.to_uint n).

(** Truth value of an optional string: [None] and [""] are false. *)
Definition truthy_id (i : option string) : bool :=
  match i with Some s => Str.truthy s | None => false end.

Module UserRepository.

Record t : Type := mk {
  _data : PyDict.t User.t;
  _next_id : nat
}.

Definition empty : t := mk [] 1.

(** [BaseRepository._generate_id] for this class. *)
Definition _generate_id (self : t) : string * t :=
  ("userrepository_" ++ str_of_nat (_next_id self),
   mk (_data self) (S (_next_id self))).

(** [UserRepository.save]; an identifier that is missing or empty is
    replaced by a generated one. *)
Definition save (user : User.t) (self : t) : User.t * t :=
  if negb (truthy_id (User._id user))
  then
    let '(new_id, self1) := _generate_id self in
    let user1 := User.set_id (Some new_id) user in
    (user1, mk (PyDict.set new_id user1 (_data self1)) (_next_id self1))
  else
    match User._id user with
    | Some i => (user, mk (PyDict.set i user (_data self)) (_next_id self))
    | None => (user, self)
    end.

Definition get_by_id (user_id : string) (self : t) : option User.t :=
  PyDict.get user_id (_data self).

Definition get_all (self : t) : list User.t := PyDict.values (_data self).

Definition get_by_username (username : string) (self : t) : option User.t :=
  List.find (fun user => bool_decide (User._username user = username))
            (PyDict.values (_data self)).

Definition get_by_email (email : string) (self : t) : option User.t :=
  List.find (fun user => bool_decide (User._email user = email))
            (PyDict.values (_data self)).

(** The object stored under [key] is the one the caller holds: a write to
    it is seen through the repository at once.  An object is taken to be
    stored under one key only, as it is when the repository is filled
    through [save]. *)
Definition write_through (key : string) (user : User.t) (self : t) : t :=
  mk (PyDict.set key user (_data self)) (_next_id self).

End UserRepository.

Module TaskRepository.

Record t : Type := mk {
  _data : PyDict.t Task.t;
  _next_id : nat
}.

Definition empty : t := mk [] 1.

(** [TaskRepository.save]: [Task.id] has no setter, so a task whose
    identifier is empty cannot be given one. *)
Definition save (task : Task.t) (self : t) : result Task.t * t :=
  if negb (Str.truthy (Task._id task))
  then (Raise (AttributeError "can't set attribute"),
        mk (_data self) (S (_next_id self)))
  else (Ok task, mk (PyDict.set (Task._id task) task (_data self)) (_next_id self)).

Definition get_by_id (task_id : string) (self : t) : option Task.t :=
  PyDict.get task_id (_data self).

Definition get_all (self : t) : list Task.t := PyDict.values (_data self).

Definition write_through (key : string) (task : Task.t) (self : t) : t :=
  mk (PyDict.set key task (_data self)) (_next_id self).

(** [TaskRepository.get_tasks_with_tag]: the tag asked for is lowered, not
    stripped, and compared with the lowered tags of each task. *)
Definition get_tasks_with_tag (tag : string) (self : t) : list Task.t :=
  List.filter (fun task => Str.mem (Str.lower tag) (map Str.lower (Task._tags task)))
              (PyDict.values (_data self)).

(** [TaskRepository.delete], and [exists] and [count] of the base class. *)
Definition delete (task_id : string) (self : t) : bool * t :=
  match PyDict.get task_id (_data self) with
  | Some _ => (true, mk (PyDict.delete task_id (_data self)) (_next_id self))
  | None => (false, self)
  end.

Definition exists_ (task_id : string) (self : t) : bool :=
  match PyDict.get task_id (_data self) with Some _ => true | None => false end.

Definition count (self : t) : nat := length (_data self).

End TaskRepository.

Module TeamRepository.

Record t : Type := mk {
  _data : PyDict.t Team.t;
  _next_id : nat
}.

Definition empty : t := mk [] 1.

Definition save (team : Team.t) (self : t) : result Team.t * t :=
  if negb (Str.truthy (Team._id team))
  then (Raise (AttributeError "can't set attribute"),
        mk (_data self) (S (_next_id self)))
  else (Ok team, mk (PyDict.set (Team._id team) team (_data self)) (_next_id self)).

Definition get_by_id (team_id : string) (self : t) : option Team.t :=
  PyDict.get team_id (_data self).

Definition write_through (key : string) (team : Team.t) (self : t) : t :=
  mk (PyDict.set key team (_data self)) (_next_id self).

End TeamRepository.

(** ** services/user_service.py *)

Module UserService.

Section Service.
Context `{Crypto}.

(** [except ValidationError as e: raise ValueError(str(e))] *)
Definition reraise_validation (e : exn) : exn :=
  match e with
  | ValidationError m => ValueError m
  | _ => e
  end.

Definition create_user (username email password : string) (role : UserRole)
    (salt : string) (now : datetime) (repo : UserRepository.t)
  : result User.t * UserRepository.t :=
  match UserRepository.get_by_username username repo with
  | Some _ => (Raise (ValueError ("Username '" ++ username ++ "' already exists")), repo)
  | None =>
      match UserRepository.get_by_email email repo with
      | Some _ => (Raise (ValueError ("Email '" ++ email ++ "' already exists")), repo)
      | None =>
          match User.__init__ username email password role salt now with
          | Raise e => (Raise (reraise_validation e), repo)
          | Ok user =>
              let '(user', repo') := UserRepository.save user repo in
              (Ok user', repo')
          end
      end
  end.

Definition get_user (user_id : string) (repo : UserRepository.t) : option User.t :=
  UserRepository.get_by_id user_id repo.

Definition get_users_by_role (role : UserRole) (repo : UserRepository.t)
  : list User.t :=
  List.filter (fun user => bool_decide (User._role user = role))
              (UserRepository.get_all repo).

Definition valid_fields : list string := ["first_name"; "last_name"; "bio"].

Definition update_user_profile (user_id : string)
    (profile_data : list (string * string)) (repo : UserRepository.t)
  : result User.t * UserRepository.t :=
  match get_user user_id repo with
  | None => (Raise (ValueError ("User with ID " ++ user_id ++ " not found")), repo)
  | Some user =>
      match List.find (fun kv => negb (Str.mem (fst kv) valid_fields)) profile_data with
      | Some (key, _) => (Raise (ValueError ("Invalid profile field: " ++ key)), repo)
      | None =>
          let '(r, user1) := User.update_profile profile_data user in
          let repo1 := UserRepository.write_through user_id user1 repo in
          match r with
          | Raise e => (Raise e, repo1)
          | Ok _ =>
              let '(user2, repo2) := UserRepository.save user1 repo1 in
              (Ok user2, repo2)
          end
      end
  end.

Definition change_user_password (user_id old_password new_password salt : string)
    (repo : UserRepository.t) : result User.t * UserRepository.t :=
  match get_user user_id repo with
  | None => (Raise (ValueError ("User with ID " ++ user_id ++ " not found")), repo)
  | Some user =>
      let '(r, user1) := User.change_password old_password new_password salt user in
      let repo1 := UserRepository.write_through user_id user1 repo in
      match r with
      | Raise e => (Raise (reraise_validation e), repo1)
      | Ok _ =>
          let '(user2, repo2) := UserRepository.save user1 repo1 in
          (Ok user2, repo2)
      end
  end.

Definition promote_user (user_id : string) (new_role : UserRole)
    (promoter_id : string) (repo : UserRepository.t)
  : result User.t * UserRepository.t :=
  match get_user user_id repo with
  | None => (Raise (ValueError ("User with ID " ++ user_id ++ " not found")), repo)
  | Some user =>
      match get_user promoter_id repo with
      | None =>
          (Raise (ValueError ("Promoter with ID " ++ promoter_id ++ " not found")), repo)
      | Some promoter =>
          if negb (User.is_admin promoter)
          then (Raise (PermissionError "Only admins can promote users"), repo)
          else if User.is_admin user && negb (bool_decide (new_role = ADMIN))
                  && (length (get_users_by_role ADMIN repo) <=? 1)%nat
          then (Raise (ValueError "Cannot demote the last admin user"), repo)
          else
            let user1 := User.set_role new_role user in
            let user2 := User.set_permissions (User._get_permissions user1) user1 in
            let repo1 := UserRepository.write_through user_id user2 repo in
            let '(user3, repo2) := UserRepository.save user2 repo1 in
            (Ok user3, repo2)
      end
  end.

Definition deactivate_user (user_id deactivator_id : string)
    (repo : UserRepository.t) : result User.t * UserRepository.t :=
  match get_user user_id repo with
  | None => (Raise (ValueError ("User with ID " ++ user_id ++ " not found")), repo)
  | Some user =>
      match get_user deactivator_id repo with
      | None =>
          (Raise (ValueError ("Deactivator with ID " ++ deactivator_id ++ " not found")),
           repo)
      | Some deactivator =>
          if negb (User.is_admin deactivator)
          then (Raise (PermissionError "Only admins can deactivate users"), repo)
          else if User.is_admin user
                  && (length (get_users_by_role ADMIN repo) <=? 1)%nat
          then (Raise (ValueError "Cannot deactivate the last admin user"), repo)
          else
            let user1 := User.set_role GUEST user in
            let user2 := User.set_permissions (User._get_permissions user1) user1 in
            let repo1 := UserRepository.write_through user_id user2 repo in
            let '(user3, repo2) := UserRepository.save user2 repo1 in
            (Ok user3, repo2)
      end
  end.

(** [authenticate_user]: the first user with this username, if the
    password verifies. *)
Definition authenticate_user (username password : string) (repo : UserRepository.t)
  : option User.t :=
  match UserRepository.get_by_username username repo with
  | Some user => if User.verify_password password user then Some user else None
  | None => None
  end.

(** [validate_user_data]: the error lists under the three keys, in the
    order of the dictionary, the empty ones removed. *)
Definition validate_user_data (username email password : option string)
    (repo : UserRepository.t) : list (string * list string) :=
  let username_errors :=
    match username with
    | None => []
    | Some u =>
        if negb (Str.truthy u) || (Str.len u <? 3)%nat
        then ["Username must be at least 3 characters"]
        else match UserRepository.get_by_username u repo with
             | Some _ => ["Username already exists"]
             | None => []
             end
    end in
  let email_errors :=
    match email with
    | None => []
    | Some e =>
        if negb (Str.truthy e) || negb (Re.match_anchored User.EMAIL_REGEX e)
        then ["Invalid email format"]
        else match UserRepository.get_by_email e repo with
             | Some _ => ["Email already exists"]
             | None => []
             end
    end in
  let password_errors :=
    match password with
    | None => []
    | Some p =>
        if negb (Str.truthy p) || (Str.len p <? 6)%nat
        then ["Password must be at least 6 characters"]
        else []
    end in
  List.filter (fun kv => match snd kv with [] => false | _ => true end)
              [("username", username_errors); ("email", email_errors);
               ("password", password_errors)].

End Service.

End UserService.

(** ** services/task_service.py

    The service reads the user repository and writes the task repository. *)

Module TaskService.

Definition get_task (task_id : string) (tasks : TaskRepository.t) : option Task.t :=
  TaskRepository.get_by_id task_id tasks.

Definition _can_modify_task (user_id : string) (task : Task.t)
    (users : UserRepository.t) : bool :=
  match UserRepository.get_by_id user_id users with
  | None => false
  | Some user =>
      if User.is_admin user then true
      else if bool_decide (Task._assignee_id task = Some user_id) then true
      else false
  end.

Definition _can_assign_task (user_id : string) (task : Task.t)
    (users : UserRepository.t) : bool :=
  match UserRepository.get_by_id user_id users with
  | None => false
  | Some user => if User.is_admin user then true else false
  end.

Definition _can_comment_on_task (user_id : string) (task : Task.t)
    (users : UserRepository.t) : bool :=
  match UserRepository.get_by_id user_id users with
  | None => false
  | Some user =>
      if User.is_admin user then true
      else if bool_decide (Task._assignee_id task = Some user_id) then true
      else false
  end.

(** [if x and not self.user_repository.get_by_id(x)] *)
Definition dangling (x : option string) (users : UserRepository.t) : bool :=
  match x with
  | Some i => Str.truthy i
              && match UserRepository.get_by_id i users with
                 | Some _ => false
                 | None => true
                 end
  | None => false
  end.

Definition id_text (x : option string) : string :=
  match x with Some i => i | None => "None" end.

Definition create_task (title description : string) (assignee_id : option string)
    (priority : TaskPriority) (due_date : option datetime)
    (creator_id : option string) (uuid : string) (now1 now2 : datetime)
    (users : UserRepository.t) (tasks : TaskRepository.t)
  : result Task.t * TaskRepository.t :=
  if dangling assignee_id users
  then (Raise (ValueError ("Assignee with ID " ++ id_text assignee_id ++ " not found")),
        tasks)
  else if dangling creator_id users
  then (Raise (ValueError ("Creator with ID " ++ id_text creator_id ++ " not found")),
        tasks)
  else
    match Task.__init__ title description assignee_id priority due_date uuid now1 now2 with
    | Raise e => (Raise e, tasks)
    | Ok task => TaskRepository.save task tasks
    end.

Definition update_task_status (task_id : string) (new_status : TaskStatus)
    (user_id : option string) (now : datetime)
    (users : UserRepository.t) (tasks : TaskRepository.t)
  : result Task.t * TaskRepository.t :=
  match get_task task_id tasks with
  | None => (Raise (ValueError ("Task with ID " ++ task_id ++ " not found")), tasks)
  | Some task =>
      let denied :=
        match user_id with
        | Some u => Str.truthy u && negb (_can_modify_task u task users)
        | None => false
        end in
      if denied
      then (Raise (PermissionError "User does not have permission to modify this task"),
            tasks)
      else
        let '(r, task1) := Task.update_status new_status now task in
        let tasks1 := TaskRepository.write_through task_id task1 tasks in
        match r with
        | Raise e => (Raise e, tasks1)
        | Ok _ => TaskRepository.save task1 tasks1
        end
  end.

Definition assign_task (task_id assignee_id assigner_id : string) (now : datetime)
    (users : UserRepository.t) (tasks : TaskRepository.t)
  : result Task.t * TaskRepository.t :=
  match get_task task_id tasks with
  | None => (Raise (ValueError ("Task with ID " ++ task_id ++ " not found")), tasks)
  | Some task =>
      match UserRepository.get_by_id assignee_id users with
      | None =>
          (Raise (ValueError ("Assignee with ID " ++ assignee_id ++ " not found")), tasks)
      | Some _ =>
          if negb (_can_assign_task assigner_id task users)
          then (Raise (PermissionError "User does not have permission to assign this task"),
                tasks)
          else
            let task1 := Task.assign_assignee_id (Some assignee_id) now task in
            let tasks1 := TaskRepository.write_through task_id task1 tasks in
            TaskRepository.save task1 tasks1
      end
  end.

Definition add_task_comment (task_id author_id content : string) (uuid : string)
    (now1 now2 : datetime) (users : UserRepository.t) (tasks : TaskRepository.t)
  : result Task.t * TaskRepository.t :=
  match get_task task_id tasks with
  | None => (Raise (ValueError ("Task with ID " ++ task_id ++ " not found")), tasks)
  | Some task =>
      match UserRepository.get_by_id author_id users with
      | None =>
          (Raise (ValueError ("Author with ID " ++ author_id ++ " not found")), tasks)
      | Some _ =>
          if negb (_can_comment_on_task author_id task users)
          then (Raise (PermissionError "User does not have permission to comment on this task"),
                tasks)
          else
            let '(r, task1) := Task.add_comment author_id content uuid now1 now2 task in
            let tasks1 := TaskRepository.write_through task_id task1 tasks in
            match r with
            | Raise e => (Raise e, tasks1)
            | Ok _ => TaskRepository.save task1 tasks1
            end
      end
  end.

End TaskService.

(** ** services/team_service.py *)

Module TeamService.

Definition get_team (team_id : string) (teams : TeamRepository.t) : option Team.t :=
  TeamRepository.get_by_id team_id teams.

Definition _can_manage_team (user_id : string) (team : Team.t)
    (users : UserRepository.t) : bool :=
  match UserRepository.get_by_id user_id users with
  | None => false
  | Some user =>
      if User.is_admin user then true
      else if bool_decide (Team._leader_id team = Some user_id) then true
      else if bool_decide (Team.get_member_role user_id team = Some LEADER) then true
      else false
  end.

Definition create_team (name description : string) (leader_id : option string)
    (uuid : string) (now1 now2 now3 now4 : datetime)
    (users : UserRepository.t) (teams : TeamRepository.t)
  : result Team.t * TeamRepository.t :=
  if TaskService.dangling leader_id users
  then (Raise (ValueError ("Leader with ID " ++ TaskService.id_text leader_id ++ " not found")),
        teams)
  else
    match Team.__init__ name description leader_id uuid now1 now2 with
    | Raise e => (Raise e, teams)
    | Ok team =>
        match leader_id with
        | Some l =>
            if Str.truthy l
            then
              let '(r, team1) := Team.add_member l LEADER now3 now4 team in
              match r with
              | Raise e => (Raise e, teams)
              | Ok _ => TeamRepository.save team1 teams
              end
            else TeamRepository.save team teams
        | None => TeamRepository.save team teams
        end
    end.

Definition add_team_member (team_id user_id : string) (role : TeamRole)
    (adder_id : string) (now1 now2 : datetime)
    (users : UserRepository.t) (teams : TeamRepository.t)
  : result TeamMember * TeamRepository.t :=
  match get_team team_id teams with
  | None => (Raise (ValueError ("Team with ID " ++ team_id ++ " not found")), teams)
  | Some team =>
      match UserRepository.get_by_id user_id users with
      | None => (Raise (ValueError ("User with ID " ++ user_id ++ " not found")), teams)
      | Some _ =>
          if negb (_can_manage_team adder_id team users)
          then (Raise (PermissionError "User does not have permission to manage this team"),
                teams)
          else
            let '(r, team1) := Team.add_member user_id role now1 now2 team in
            let teams1 := TeamRepository.write_through team_id team1 teams in
            match r with
            | Raise e => (Raise e, teams1)
            | Ok member =>
                match TeamRepository.save team1 teams1 with
                | (Raise e, teams2) => (Raise e, teams2)
                | (Ok _, teams2) => (Ok member, teams2)
                end
            end
      end
  end.

Definition remove_team_member (team_id user_id remover_id : string)
    (now : datetime) (users : UserRepository.t) (teams : TeamRepository.t)
  : result bool * TeamRepository.t :=
  match get_team team_id teams with
  | None => (Raise (ValueError ("Team with ID " ++ team_id ++ " not found")), teams)
  | Some team =>
      if negb (_can_manage_team remover_id team users)
      then (Raise (PermissionError "User does not have permission to manage this team"),
            teams)
      else
        let '(r, team1) := Team.remove_member user_id now team in
        let teams1 := TeamRepository.write_through team_id team1 teams in
        match r with
        | Raise e => (Raise e, teams1)
        | Ok true =>
            match TeamRepository.save team1 teams1 with
            | (Raise e, teams2) => (Raise e, teams2)
            | (Ok _, teams2) => (Ok true, teams2)
            end
        | Ok false => (Ok false, teams1)
        end
  end.

Definition promote_team_member (team_id user_id : string) (new_role : TeamRole)
    (promoter_id : string) (now : datetime)
    (users : UserRepository.t) (teams : TeamRepository.t)
  : result bool * TeamRepository.t :=
  match get_team team_id teams with
  | None => (Raise (ValueError ("Team with ID " ++ team_id ++ " not found")), teams)
  | Some team =>
      if negb (_can_manage_team promoter_id team users)
      then (Raise (PermissionError "User does not have permission to manage this team"),
            teams)
      else
        let '(success, team1) := Team.promote_member user_id new_role now team in
        let teams1 := TeamRepository.write_through team_id team1 teams in
        if success
        then match TeamRepository.save team1 teams1 with
             | (Raise e, teams2) => (Raise e, teams2)
             | (Ok _, teams2) => (Ok true, teams2)
             end
        else (Ok false, teams1)
  end.

Definition change_team_leader (team_id new_leader_id changer_id : string)
    (now1 now2 now3 : datetime)
    (users : UserRepository.t) (teams : TeamRepository.t)
  : result Team.t * TeamRepository.t :=
  match get_team team_id teams with
  | None => (Raise (ValueError ("Team with ID " ++ team_id ++ " not found")), teams)
  | Some team =>
      match UserRepository.get_by_id new_leader_id users with
      | None =>
          (Raise (ValueError ("New leader with ID " ++ new_leader_id ++ " not found")),
           teams)
      | Some _ =>
          if negb (_can_manage_team changer_id team users)
          then (Raise (PermissionError "User does not have permission to manage this team"),
                teams)
          else
            let '(r, team1) :=
              if negb (Team.is_member new_leader_id team)
              then
                let '(r, team') := Team.add_member new_leader_id LEADER now1 now2 team in
                (match r with Raise e => Raise e | Ok _ => Ok tt end, team')
              else (Ok tt, snd (Team.promote_member new_leader_id LEADER now1 team)) in
            match r with
            | Raise e => (Raise e, TeamRepository.write_through team_id team1 teams)
            | Ok _ =>
                let team2 := Team.assign_leader_id (Some new_leader_id) now3 team1 in
                TeamRepository.save team2
                  (TeamRepository.write_through team_id team2 teams)
            end
      end
  end.

Definition add_project_to_team (team_id project_id adder_id : string)
    (now : datetime) (users : UserRepository.t) (teams : TeamRepository.t)
  : result Team.t * TeamRepository.t :=
  match get_team team_id teams with
  | None => (Raise (ValueError ("Team with ID " ++ team_id ++ " not found")), teams)
  | Some team =>
      if negb (_can_manage_team adder_id team users)
      then (Raise (PermissionError "User does not have permission to manage this team"),
            teams)
      else
        let team1 := Team.add_project project_id now team in
        TeamRepository.save team1 (TeamRepository.write_through team_id team1 teams)
  end.

Definition remove_project_from_team (team_id project_id remover_id : string)
    (now : datetime) (users : UserRepository.t) (teams : TeamRepository.t)
  : result Team.t * TeamRepository.t :=
  match get_team team_id teams with
  | None => (Raise (ValueError ("Team with ID " ++ team_id ++ " not found")), teams)
  | Some team =>
      if negb (_can_manage_team remover_id team users)
      then (Raise (PermissionError "User does not have permission to manage this team"),
            teams)
      else
        let team1 := Team.remove_project project_id now team in
        TeamRepository.save team1 (TeamRepository.write_through team_id team1 teams)
  end.

End TeamService.

(** ** repositories/project_repository.py *)

Module ProjectRepository.

Record t : Type := mk {
  _data : PyDict.t Project.t;
  _next_id : nat
}.

Definition empty : t := mk [] 1.

Definition save (project : Project.t) (self : t) : result Project.t * t :=
  if negb (Str.truthy (Project._id project))
  then (Raise (AttributeError "can't set attribute"),
        mk (_data self) (S (_next_id self)))
  else (Ok project,
        mk (PyDict.set (Project._id project) project (_data self)) (_next_id self)).

Definition get_by_id (project_id : string) (self : t) : option Project.t :=
  PyDict.get project_id (_data self).

Definition write_through (key : string) (project : Project.t) (self : t) : t :=
  mk (PyDict.set key project (_data self)) (_next_id self).

End ProjectRepository.

(** ** services/project_service.py *)

Module ProjectService.

Definition get_project (project_id : string) (projects : ProjectRepository.t)
  : option Project.t :=
  ProjectRepository.get_by_id project_id projects.

Definition _can_modify_project (user_id : string) (project : Project.t)
    (users : UserRepository.t) : bool :=
  match UserRepository.get_by_id user_id users with
  | None => false
  | Some user =>
      if User.is_admin user then true
      else if bool_decide (Project._owner_id project = Some user_id) then true
      else if Str.mem user_id (Project._team_members project) then true
      else false
  end.

Definition not_found (project_id : string) : exn :=
  ValueError ("Project with ID " ++ project_id ++ " not found").

Definition denied : exn :=
  PermissionError "User does not have permission to modify this project".

Definition create_project (name description : string) (owner_id : option string)
    (uuid : string) (now1 now2 : datetime)
    (users : UserRepository.t) (projects : ProjectRepository.t)
  : result Project.t * ProjectRepository.t :=
  if TaskService.dangling owner_id users
  then (Raise (ValueError ("Owner with ID " ++ TaskService.id_text owner_id ++ " not found")),
        projects)
  else
    match Project.__init__ name description owner_id uuid now1 now2 with
    | Raise e => (Raise e, projects)
    | Ok project => ProjectRepository.save project projects
    end.

(** The part the methods below share: resolve the project, ask the policy,
    apply one entity operation to the stored object and save it. *)
Definition modify (project_id user_id : string) (op : Project.t -> Project.t)
    (users : UserRepository.t) (projects : ProjectRepository.t)
  : result Project.t * ProjectRepository.t :=
  match get_project project_id projects with
  | None => (Raise (not_found project_id), projects)
  | Some project =>
      if negb (_can_modify_project user_id project users)
      then (Raise denied, projects)
      else
        let project1 := op project in
        ProjectRepository.save project1
          (ProjectRepository.write_through project_id project1 projects)
  end.

Definition update_project_status (project_id : string) (new_status : ProjectStatus)
    (user_id : string) (now : datetime) :=
  modify project_id user_id (Project.update_status new_status now).

Definition add_task_to_project (project_id : string) (task : Task.t)
    (user_id : string) (now : datetime) :=
  modify project_id user_id (Project.add_task task now).

Definition remove_task_from_project (project_id : string) (task : Task.t)
    (user_id : string) (now : datetime) :=
  modify project_id user_id (Project.remove_task task now).

Definition remove_team_member (project_id user_id remover_id : string)
    (now : datetime) :=
  modify project_id remover_id (Project.remove_team_member user_id now).

Definition add_team_member (project_id user_id adder_id : string) (now : datetime)
    (users : UserRepository.t) (projects : ProjectRepository.t)
  : result Project.t * ProjectRepository.t :=
  match get_project project_id projects with
  | None => (Raise (not_found project_id), projects)
  | Some project =>
      match UserRepository.get_by_id user_id users with
      | None => (Raise (ValueError ("User with ID " ++ user_id ++ " not found")), projects)
      | Some _ =>
          if negb (_can_modify_project adder_id project users)
          then (Raise denied, projects)
          else
            let project1 := Project.add_team_member user_id now project in
            ProjectRepository.save project1
              (ProjectRepository.write_through project_id project1 projects)
      end
  end.

Definition add_milestone (project_id title description : string)
    (due_date : datetime) (user_id : string) (uuid : string) (now : datetime)
    (users : UserRepository.t) (projects : ProjectRepository.t)
  : result ProjectMilestone * ProjectRepository.t :=
  match get_project project_id projects with
  | None => (Raise (not_found project_id), projects)
  | Some project =>
      if negb (_can_modify_project user_id project users)
      then (Raise denied, projects)
      else
        let '(milestone, project1) :=
          Project.add_milestone title description due_date uuid now project in
        match ProjectRepository.save project1
                (ProjectRepository.write_through project_id project1 projects) with
        | (Raise e, projects2) => (Raise e, projects2)
        | (Ok _, projects2) => (Ok milestone, projects2)
        end
  end.

Definition complete_milestone (project_id milestone_id user_id : string)
    (now1 now2 : datetime)
    (users : UserRepository.t) (projects : ProjectRepository.t)
  : result bool * ProjectRepository.t :=
  match get_project project_id projects with
  | None => (Raise (not_found project_id), projects)
  | Some project =>
      if negb (_can_modify_project user_id project users)
      then (Raise denied, projects)
      else
        let '(success, project1) :=
          Project.complete_milestone milestone_id now1 now2 project in
        let projects1 := ProjectRepository.write_through project_id project1 projects in
        if success
        then match ProjectRepository.save project1 projects1 with
             | (Raise e, projects2) => (Raise e, projects2)
             | (Ok _, projects2) => (Ok true, projects2)
             end
        else (Ok false, projects1)
  end.

End ProjectService.

(** ** Key-value records

    What [to_dict] builds and [from_dict] reads: strings, numbers,
    booleans, [None], lists and nested records. *)

#[warnings="-register-all"] Inductive value : Type :=
| VNone
| VBool (b : bool)
| VInt (n : Z)
| VStr (s : string)
| VList (l : list value)
| VDict (d : list (string * value)).

(** [datetime.isoformat] and [datetime.fromisoformat] of the standard
    library.  The contract the sources rely on is [IsoFormat_lawful]: a
    printed timestamp is not empty and reads back as the same instant. *)
Class IsoFormat : Type := {
  isoformat : datetime -> string;
  fromisoformat : string -> option datetime
}.

Definition IsoFormat_lawful `{IsoFormat} : Prop :=
  (forall d, Str.truthy (isoformat d) = true)
  /\ (forall d, fromisoformat (isoformat d) = Some d).

Module Record.

Definition bind {A B} (r : result A) (k : A -> result B) : result B :=
  match r with
  | Ok a => k a
  | Raise e => Raise e
  end.

Fixpoint lookup (k : string) (d : list (string * value)) : option value :=
  match d with
  | [] => None
  | (k', v) :: d' => if bool_decide (k' = k) then Some v else lookup k d'
  end.

(** A value of a type the reader cannot use.  Python fails at the first
    use of such a value, with an exception that depends on the use; one
    [TypeError] stands for all of them. *)
Definition ill_typed {A} (what : string) : result A := Raise (TypeError what).

(** [data[key]] *)
Definition getitem (data : value) (key : string) : result value :=
  match data with
  | VDict d =>
      match lookup key d with
      | Some v => Ok v
      | None => Raise (KeyError key)
      end
  | _ => ill_typed "record expected"
  end.

(** [data.get(key, default)] *)
Definition get (data : value) (key : string) (default : value) : result value :=
  match data with
  | VDict d =>
      match lookup key d with
      | Some v => Ok v
      | None => Ok default
      end
  | _ => ill_typed "record expected"
  end.

Definition as_str (v : value) : result string :=
  match v with VStr s => Ok s | _ => ill_typed "str expected" end.

Definition as_bool (v : value) : result bool :=
  match v with VBool b => Ok b | _ => ill_typed "bool expected" end.

Definition as_opt_str (v : value) : result (option string) :=
  match v with
  | VNone => Ok None
  | VStr s => Ok (Some s)
  | _ => ill_typed "str or None expected"
  end.

Definition as_list (v : value) : result (list value) :=
  match v with VList l => Ok l | _ => ill_typed "list expected" end.

Fixpoint traverse {A} (f : value -> result A) (l : list value) : result (list A) :=
  match l with
  | [] => Ok []
  | v :: l' => bind (f v) (fun a => bind (traverse f l') (fun r => Ok (a :: r)))
  end.

Definition as_str_list (v : value) : result (list string) :=
  bind (as_list v) (traverse as_str).

Definition of_opt_str (o : option string) : value :=
  match o with Some s => VStr s | None => VNone end.

Definition of_str_list (l : list string) : value := VList (map VStr l).

(** [datetime.fromisoformat(v)] *)
Definition parse_datetime `{IsoFormat} (v : value) : result datetime :=
  bind (as_str v) (fun s =>
    match fromisoformat s with
    | Some d => Ok d
    | None => Raise (ValueError ("Invalid isoformat string: '" ++ s ++ "'"))
    end).

(** [datetime.fromisoformat(v) if v else None] *)
Definition parse_opt_datetime `{IsoFormat} (v : value) : result (option datetime) :=
  match v with
  | VNone => Ok None
  | VStr s => if Str.truthy s then bind (parse_datetime v) (fun d => Ok (Some d))
              else Ok None
  | _ => ill_typed "str or None expected"
  end.

Definition of_opt_datetime `{IsoFormat} (o : option datetime) : value :=
  match o with Some d => VStr (isoformat d) | None => VNone end.

End Record.

Notation "x <- e ;; k" := (Record.bind e (fun x => k))
  (at level 100, e at next level, right associativity).

(** ** Serialization of the entities *)

Module UserSerial.

Definition role_value (r : UserRole) : string :=
  match r with ADMIN => "admin" | USER => "user" | GUEST => "guest" end.

(** [UserRole(v)] *)
Definition role_of_value (v : value) : result UserRole :=
  match v with
  | VStr s =>
      if bool_decide (s = "admin") then Ok ADMIN
      else if bool_decide (s = "user") then Ok USER
      else if bool_decide (s = "guest") then Ok GUEST
      else Raise (ValueError ("'" ++ s ++ "' is not a valid UserRole"))
  | _ => Raise (ValueError "not a valid UserRole")
  end.

(** [User.to_dict] *)
Definition to_dict `{IsoFormat} (self : User.t) : value :=
  VDict [("id", Record.of_opt_str (User._id self));
         ("username", VStr (User._username self));
         ("email", VStr (User._email self));
         ("role", VStr (role_value (User._role self)));
         ("profile", VDict [("first_name", VStr (first_name (User._profile self)));
                            ("last_name", VStr (last_name (User._profile self)));
                            ("bio", VStr (bio (User._profile self)))]);
         ("created_at", VStr (isoformat (User._created_at self)));
         ("permissions", Record.of_str_list (User._permissions self))].

(** [User.from_dict]: the object is built by the constructor, with the
    password ["dummy"], and its remaining fields are overwritten from the
    record.  [salt] and [now] are what the constructor would draw. *)
Definition from_dict `{Crypto} `{IsoFormat} (data : value) (salt : string)
    (now : datetime) : result User.t :=
  username <- (v <- Record.getitem data "username" ;; Record.as_str v) ;;
  email <- (v <- Record.getitem data "email" ;; Record.as_str v) ;;
  role <- (v <- Record.getitem data "role" ;; role_of_value v) ;;
  user <- User.__init__ username email "dummy" role salt now ;;
  id <- (v <- Record.get data "id" VNone ;; Record.as_opt_str v) ;;
  created_at <- (v <- Record.getitem data "created_at" ;; Record.parse_datetime v) ;;
  permissions <- (v <- Record.get data "permissions" (VList []) ;; Record.as_str_list v) ;;
  profile_data <- Record.get data "profile" (VDict []) ;;
  fn <- (v <- Record.get profile_data "first_name" (VStr "") ;; Record.as_str v) ;;
  ln <- (v <- Record.get profile_data "last_name" (VStr "") ;; Record.as_str v) ;;
  b <- (v <- Record.get profile_data "bio" (VStr "") ;; Record.as_str v) ;;
  Ok (User.set_profile (mkUserProfile fn ln b)
       (User.set_permissions permissions
         (User.set_created_at created_at (User.set_id id user)))).

End UserSerial.

Module TaskSerial.

Definition status_value (s : TaskStatus) : string :=
  match s with
  | TODO => "todo"
  | IN_PROGRESS => "in_progress"
  | REVIEW => "review"
  | DONE => "done"
  | CANCELLED => "cancelled"
  end.

Definition priority_value (p : TaskPriority) : Z :=
  match p with LOW => 1 | MEDIUM => 2 | HIGH => 3 | URGENT => 4 end.

(** [TaskStatus(v)] *)
Definition status_of_value (v : value) : result TaskStatus :=
  match v with
  | VStr s =>
      if bool_decide (s = "todo") then Ok TODO
      else if bool_decide (s = "in_progress") then Ok IN_PROGRESS
      else if bool_decide (s = "review") then Ok REVIEW
      else if bool_decide (s = "done") then Ok DONE
      else if bool_decide (s = "cancelled") then Ok CANCELLED
      else Raise (ValueError ("'" ++ s ++ "' is not a valid TaskStatus"))
  | _ => Raise (ValueError "not a valid TaskStatus")
  end.

(** [TaskPriority(v)] *)
Definition priority_of_value (v : value) : result TaskPriority :=
  match v with
  | VInt 1 => Ok LOW
  | VInt 2 => Ok MEDIUM
  | VInt 3 => Ok HIGH
  | VInt 4 => Ok URGENT
  | _ => Raise (ValueError "not a valid TaskPriority")
  end.

(** [TaskComment.to_dict] *)
Definition comment_to_dict `{IsoFormat} (c : TaskComment) : value :=
  VDict [("id", VStr (comment_id c));
         ("author_id", VStr (comment_author_id c));
         ("content", VStr (comment_content c));
         ("created_at", VStr (isoformat (comment_created_at c)))].

Definition comment_of_dict `{IsoFormat} (data : value) : result TaskComment :=
  id <- (v <- Record.getitem data "id" ;; Record.as_str v) ;;
  author_id <- (v <- Record.getitem data "author_id" ;; Record.as_str v) ;;
  content <- (v <- Record.getitem data "content" ;; Record.as_str v) ;;
  created_at <- (v <- Record.getitem data "created_at" ;; Record.parse_datetime v) ;;
  Ok (mkTaskComment id author_id content created_at).

(** [Task.to_dict] *)
Definition to_dict `{IsoFormat} (self : Task.t) : value :=
  VDict [("id", VStr (Task._id self));
         ("title", VStr (Task._title self));
         ("description", VStr (Task._description self));
         ("status", VStr (status_value (Task._status self)));
         ("priority", VInt (priority_value (Task._priority self)));
         ("assignee_id", Record.of_opt_str (Task._assignee_id self));
         ("due_date", Record.of_opt_datetime (Task._due_date self));
         ("created_at", VStr (isoformat (Task._created_at self)));
         ("updated_at", VStr (isoformat (Task._updated_at self)));
         ("comments", VList (map comment_to_dict (Task._comments self)));
         ("tags", Record.of_str_list (Task._tags self))].

(** [Task.from_dict]; [uuid], [now1] and [now2] are what the constructor
    draws before its fields are overwritten. *)
Definition from_dict `{IsoFormat} (data : value) (uuid : string)
    (now1 now2 : datetime) : result Task.t :=
  title <- (v <- Record.getitem data "title" ;; Record.as_str v) ;;
  description <- (v <- Record.get data "description" (VStr "") ;; Record.as_str v) ;;
  assignee_id <- (v <- Record.get data "assignee_id" VNone ;; Record.as_opt_str v) ;;
  priority <- (v <- Record.get data "priority" (VInt (priority_value MEDIUM)) ;;
               priority_of_value v) ;;
  due_date <- (v <- Record.get data "due_date" VNone ;; Record.parse_opt_datetime v) ;;
  task <- Task.__init__ title description assignee_id priority due_date
            uuid now1 now2 ;;
  id <- (v <- Record.getitem data "id" ;; Record.as_str v) ;;
  status <- (v <- Record.getitem data "status" ;; status_of_value v) ;;
  created_at <- (v <- Record.getitem data "created_at" ;; Record.parse_datetime v) ;;
  updated_at <- (v <- Record.getitem data "updated_at" ;; Record.parse_datetime v) ;;
  tags <- (v <- Record.get data "tags" (VList []) ;; Record.as_str_list v) ;;
  comments <- (v <- Record.get data "comments" (VList []) ;;
               l <- Record.as_list v ;; Record.traverse comment_of_dict l) ;;
  Ok (Task.mk id (Task._title task) (Task._description task) status
        (Task._priority task) (Task._assignee_id task) (Task._due_date task)
        created_at updated_at (Task._comments task ++ comments) tags).

End TaskSerial.

Module TeamSerial.

Definition role_value (r : TeamRole) : string :=
  match r with LEADER => "leader" | MEMBER => "member" | CONTRIBUTOR => "contributor" end.

(** [TeamRole(v)] *)
Definition role_of_value (v : value) : result TeamRole :=
  match v with
  | VStr s =>
      if bool_decide (s = "leader") then Ok LEADER
      else if bool_decide (s = "member") then Ok MEMBER
      else if bool_decide (s = "contributor") then Ok CONTRIBUTOR
      else Raise (ValueError ("'" ++ s ++ "' is not a valid TeamRole"))
  | _ => Raise (ValueError "not a valid TeamRole")
  end.

(** [TeamMember.to_dict] *)
Definition member_to_dict `{IsoFormat} (m : TeamMember) : value :=
  VDict [("user_id", VStr (member_user_id m));
         ("role", VStr (role_value (member_role m)));
         ("joined_at", VStr (isoformat (member_joined_at m)));
         ("permissions", Record.of_str_list (member_permissions m))].

Definition member_of_dict `{IsoFormat} (data : value) : result TeamMember :=
  user_id <- (v <- Record.getitem data "user_id" ;; Record.as_str v) ;;
  role <- (v <- Record.getitem data "role" ;; role_of_value v) ;;
  joined_at <- (v <- Record.getitem data "joined_at" ;; Record.parse_datetime v) ;;
  permissions <- (v <- Record.get data "permissions" (VList []) ;;
                  Record.as_str_list v) ;;
  Ok (mkTeamMember user_id role joined_at permissions).

(** [Team.to_dict] *)
Definition to_dict `{IsoFormat} (self : Team.t) : value :=
  VDict [("id", VStr (Team._id self));
         ("name", VStr (Team._name self));
         ("description", VStr (Team._description self));
         ("leader_id", Record.of_opt_str (Team._leader_id self));
         ("created_at", VStr (isoformat (Team._created_at self)));
         ("updated_at", VStr (isoformat (Team._updated_at self)));
         ("members", VList (map member_to_dict (Team._members self)));
         ("projects", Record.of_str_list (Team._projects self))].

(** [Team.from_dict] *)
Definition from_dict `{IsoFormat} (data : value) (uuid : string)
    (now1 now2 : datetime) : result Team.t :=
  name <- (v <- Record.getitem data "name" ;; Record.as_str v) ;;
  description <- (v <- Record.get data "description" (VStr "") ;; Record.as_str v) ;;
  leader_id <- (v <- Record.get data "leader_id" VNone ;; Record.as_opt_str v) ;;
  team <- Team.__init__ name description leader_id uuid now1 now2 ;;
  id <- (v <- Record.getitem data "id" ;; Record.as_str v) ;;
  created_at <- (v <- Record.getitem data "created_at" ;; Record.parse_datetime v) ;;
  updated_at <- (v <- Record.getitem data "updated_at" ;; Record.parse_datetime v) ;;
  projects <- (v <- Record.get data "projects" (VList []) ;; Record.as_str_list v) ;;
  members <- (v <- Record.get data "members" (VList []) ;;
              l <- Record.as_list v ;; Record.traverse member_of_dict l) ;;
  Ok (Team.mk id (Team._name team) (Team._description team) (Team._leader_id team)
        created_at updated_at (Team._members team ++ members) projects).

End TeamSerial.

Module ProjectSerial.

Definition status_value (s : ProjectStatus) : string :=
  match s with
  | PLANNING => "planning"
  | ACTIVE => "active"
  | ON_HOLD => "on_hold"
  | COMPLETED => "completed"
  | PROJECT_CANCELLED => "cancelled"
  end.

(** [ProjectStatus(v)] *)
Definition status_of_value (v : value) : result ProjectStatus :=
  match v with
  | VStr s =>
      if bool_decide (s = "planning") then Ok PLANNING
      else if bool_decide (s = "active") then Ok ACTIVE
      else if bool_decide (s = "on_hold") then Ok ON_HOLD
      else if bool_decide (s = "completed") then Ok COMPLETED
      else if bool_decide (s = "cancelled") then Ok PROJECT_CANCELLED
      else Raise (ValueError ("'" ++ s ++ "' is not a valid ProjectStatus"))
  | _ => Raise (ValueError "not a valid ProjectStatus")
  end.

(** [ProjectMilestone.to_dict] *)
Definition milestone_to_dict `{IsoFormat} (m : ProjectMilestone) : value :=
  VDict [("id", VStr (ms_id m));
         ("title", VStr (ms_title m));
         ("description", VStr (ms_description m));
         ("due_date", VStr (isoformat (ms_due_date m)));
         ("completed", VBool (ms_completed m));
         ("completed_at", Record.of_opt_datetime (ms_completed_at m))].

Definition milestone_of_dict `{IsoFormat} (data : value) : result ProjectMilestone :=
  id <- (v <- Record.getitem data "id" ;; Record.as_str v) ;;
  title <- (v <- Record.getitem data "title" ;; Record.as_str v) ;;
  description <- (v <- Record.getitem data "description" ;; Record.as_str v) ;;
  due_date <- (v <- Record.getitem data "due_date" ;; Record.parse_datetime v) ;;
  completed <- (v <- Record.get data "completed" (VBool false) ;; Record.as_bool v) ;;
  completed_at <- (v <- Record.get data "completed_at" VNone ;;
                   Record.parse_opt_datetime v) ;;
  Ok (mkProjectMilestone id title description due_date completed completed_at).

(** [Project.to_dict] *)
Definition to_dict `{IsoFormat} (self : Project.t) : value :=
  VDict [("id", VStr (Project._id self));
         ("name", VStr (Project._name self));
         ("description", VStr (Project._description self));
         ("status", VStr (status_value (Project._status self)));
         ("owner_id", Record.of_opt_str (Project._owner_id self));
         ("created_at", VStr (isoformat (Project._created_at self)));
         ("updated_at", VStr (isoformat (Project._updated_at self)));
         ("tasks", VList (map TaskSerial.to_dict (Project._tasks self)));
         ("milestones", VList (map milestone_to_dict (Project._milestones self)));
         ("team_members", Record.of_str_list (Project._team_members self))].

(** [Project.from_dict].  Each task is rebuilt by [Task.from_dict], whose
    constructor draws an identifier and two clock readings of its own; all
    three are overwritten, so one draw is passed to every task. *)
Definition from_dict `{IsoFormat} (data : value) (uuid : string)
    (now1 now2 : datetime) : result Project.t :=
  name <- (v <- Record.getitem data "name" ;; Record.as_str v) ;;
  description <- (v <- Record.get data "description" (VStr "") ;; Record.as_str v) ;;
  owner_id <- (v <- Record.get data "owner_id" VNone ;; Record.as_opt_str v) ;;
  project <- Project.__init__ name description owner_id uuid now1 now2 ;;
  id <- (v <- Record.getitem data "id" ;; Record.as_str v) ;;
  status <- (v <- Record.getitem data "status" ;; status_of_value v) ;;
  created_at <- (v <- Record.getitem data "created_at" ;; Record.parse_datetime v) ;;
  updated_at <- (v <- Record.getitem data "updated_at" ;; Record.parse_datetime v) ;;
  team_members <- (v <- Record.get data "team_members" (VList []) ;;
                   Record.as_str_list v) ;;
  tasks <- (v <- Record.get data "tasks" (VList []) ;;
            l <- Record.as_list v ;;
            Record.traverse (fun d => TaskSerial.from_dict d uuid now1 now2) l) ;;
  milestones <- (v <- Record.get data "milestones" (VList []) ;;
                 l <- Record.as_list v ;; Record.traverse milestone_of_dict l) ;;
  Ok (Project.mk id (Project._name project) (Project._description project) status
        (Project._owner_id project) created_at updated_at
        (Project._tasks project ++ tasks) (Project._milestones project ++ milestones)
        team_members).

End ProjectSerial.

(** ** Sample data

    Concrete instances of the two library interfaces and a few objects, for
    evaluating the model. *)

Module Sample.

(** A stand-in for the key derivation: any function of password and salt
    serves, since the services only compare its results. *)
Definition crypto : Crypto :=
  {| pbkdf2_hmac_hex := fun password salt => salt ++ "$" ++ password |}.

(** A stand-in for the timestamp format: sign and binary digits, least
    significant first. *)
Fixpoint print_pos (p : positive) : string :=
  match p with
  | xH => "1"
  | xO q => String "0" (print_pos q)
  | xI q => String "1" (print_pos q)
  end.

Definition print_time (d : datetime) : string :=
  match d with
  | Z0 => "0"
  | Zpos p => String "+" (print_pos p)
  | Zneg p => String "-" (print_pos p)
  end.

Fixpoint parse_pos (s : string) : option positive :=
  match s with
  | EmptyString => None
  | String c EmptyString => if bool_decide (c = "1"%char) then Some xH else None
  | String c rest =>
      match parse_pos rest with
      | Some q =>
          if bool_decide (c = "0"%char) then Some (xO q)
          else if bool_decide (c = "1"%char) then Some (xI q)
          else None
      | None => None
      end
  end.

Definition parse_time (s : string) : option datetime :=
  match s with
  | EmptyString => None
  | String c rest =>
      if bool_decide (c = "0"%char)
      then match rest with EmptyString => Some Z0 | _ => None end
      else if bool_decide (c = "+"%char)
      then option_map Zpos (parse_pos rest)
      else if bool_decide (c = "-"%char)
      then option_map Zneg (parse_pos rest)
      else None
  end.

Definition iso : IsoFormat :=
  {| isoformat := print_time;
     fromisoformat := parse_time |}.

Definition task (id : string) (status : TaskStatus) (priority : TaskPriority)
    (assignee_id : option string) (due_date : option datetime) : Task.t :=
  Task.mk id "Task" "" status priority assignee_id due_date 0%Z 0%Z [] [].

(** [n] tasks numbered from [k], the first [d] of them Done. *)
Fixpoint tasks (d n k : nat) : list Task.t :=
  match n with
  | O => []
  | S n' =>
      task ("t" ++ str_of_nat k) (match d with O => TODO | S _ => DONE end)
           MEDIUM None None
      :: tasks (pred d) n' (S k)
  end.

Definition project (l : list Task.t) : Project.t :=
  Project.mk "p1" "Project" "" PLANNING None 0%Z 0%Z l [] [].

Definition team (leader_id : option string) (members : list TeamMember) : Team.t :=
  Team.mk "team1" "Team" "" leader_id 0%Z 0%Z members [].

Definition member (user_id : string) (role : TeamRole) : TeamMember :=
  mkTeamMember user_id role 0%Z (Team._get_default_permissions role).

Definition user (id username : string) (role : UserRole) : User.t :=
  User.mk (Some id) username (username ++ "@example.com") "salt:hash" role
          (mkUserProfile "" "" "") 0%Z (User.permissions_of role).

Definition users (l : list User.t) : UserRepository.t :=
  UserRepository.mk
    (map (fun u => (match User._id u with Some i => i | None => "" end, u)) l)
    (S (length l)).

(** A project with one task, as the constructor and [add_task] make it. *)
Definition project0 : Project.t :=
  Project.mk "p1" "Project" "" PLANNING None 0%Z 0%Z [] [] [].

Definition project1 : Project.t :=
  Project.add_task (task "t1" TODO MEDIUM None None) 1%Z project0.

Definition one_admin : UserRepository.t :=
  users [user "u1" "alice" ADMIN; user "u2" "bob" USER].

Definition two_admins : UserRepository.t :=
  users [user "u1" "alice" ADMIN; user "u2" "bob" ADMIN; user "u3" "carol" USER].

(** One task, assigned to the user [u2]. *)
Definition task1 : Task.t := task "t1" TODO MEDIUM (Some "u2") None.

Definition one_task : TaskRepository.t := TaskRepository.mk [("t1", task1)] 1.

End Sample.

(** ** Queries of services/task_service.py *)

Module TaskQueries.

(** [TaskService.get_user_tasks]: the loop keeps a task when
    [include_assigned] is set, the task is assigned to the user and the
    status, if one is given, is the task's. *)
Definition get_user_tasks (user_id : string) (status : option TaskStatus)
    (include_assigned : bool) (users : UserRepository.t) (tasks : TaskRepository.t)
  : result (list Task.t) :=
  match UserRepository.get_by_id user_id users with
  | None => Raise (ValueError ("User with ID " ++ user_id ++ " not found"))
  | Some _ =>
      Ok (List.filter
            (fun task =>
               include_assigned
               && bool_decide (Task._assignee_id task = Some user_id)
               && match status with
                  | None => true
                  | Some s => bool_decide (Task._status task = s)
                  end)
            (TaskRepository.get_all tasks))
  end.

(** [if user_id: all_tasks = [task for task in all_tasks if ...]] *)
Definition assigned_to (user_id : option string) (l : list Task.t) : list Task.t :=
  match user_id with
  | Some u =>
      if Str.truthy u
      then List.filter (fun task => bool_decide (Task._assignee_id task = Some u)) l
      else l
  | None => l
  end.

Definition priority_name (p : TaskPriority) : string :=
  match p with LOW => "LOW" | MEDIUM => "MEDIUM" | HIGH => "HIGH" | URGENT => "URGENT" end.

Record statistics : Type := mkStatistics {
  total : nat;
  by_status : list (string * nat);
  by_priority : list (string * nat);
  overdue : nat;
  urgent : nat
}.

(** [TaskService.get_task_statistics].  The overdue count makes the first
    readings of the clock, the urgent count the following ones; the two
    inner dictionaries are filled in the order of the enumerations. *)
Definition get_task_statistics (user_id : option string) (clock : nat -> datetime)
    (tasks : TaskRepository.t) : statistics :=
  let all_tasks := assigned_to user_id (TaskRepository.get_all tasks) in
  mkStatistics
    (length all_tasks)
    (map (fun s =>
            (TaskSerial.status_value s,
             length (List.filter (fun task => bool_decide (Task._status task = s))
                                 all_tasks)))
         [TODO; IN_PROGRESS; REVIEW; DONE; CANCELLED])
    (map (fun p =>
            (priority_name p,
             length (List.filter (fun task => bool_decide (Task._priority task = p))
                                 all_tasks)))
         [LOW; MEDIUM; HIGH; URGENT])
    (length (Project.filter_timed Task.is_overdue clock 0 all_tasks))
    (length (Project.filter_timed Task.is_urgent
               (fun i => clock (length all_tasks + i)%nat) 0 all_tasks)).

End TaskQueries.

(** ** Repository states

    What [save] maintains in a repository that is filled through it: an
    object is stored under its own identifier, which is not empty. *)

Definition users_wf (repo : UserRepository.t) : Prop :=
  forall k u, PyDict.get k (UserRepository._data repo) = Some u ->
              User._id u = Some k /\ Str.truthy k = true.

Definition tasks_wf (repo : TaskRepository.t) : Prop :=
  forall k x, PyDict.get k (TaskRepository._data repo) = Some x ->
              Task._id x = k /\ Str.truthy k = true.

(** The number of users that hold the Admin role, as the services count
    them. *)
Definition admin_count (repo : UserRepository.t) : nat :=
  length (UserService.get_users_by_role ADMIN repo).

(** The object after the role assignment of [promote_user] and [deactivate_user]. *)
Definition with_role (role : UserRole) (user : User.t) : User.t :=
  User.set_permissions (User._get_permissions (User.set_role role user))
                       (User.set_role role user).

(** Text without the separator that [_hash_password] puts between the
    salt and the digest, as hexadecimal text is. *)
Definition no_colon (s : string) : bool :=
  forallb (fun c => negb (bool_decide (c = ":"%char))) (list_ascii_of_string s).

(** The value that keyword arguments give to [key]: the last one, if the
    key occurs. *)
Fixpoint kwarg (key : string) (kwargs : list (string * string)) : option string :=
  match kwargs with
  | [] => None
  | (k, v) :: rest =>
      match kwarg key rest with
      | Some x => Some x
      | None => if bool_decide (k = key) then Some v else None
      end
  end.

(** Text in which no capital letter is left. *)
Definition all_lower (l : list ascii) : Prop :=
  List.Forall (fun c => Str.lower_ascii c = c) l.

(** ** The readings of the specification that the code is compared with *)

(** "The due date is within 1 day of the evaluation time": it lies at most
    one day after it. *)
Definition due_within_one_day (due now : datetime) : Prop :=
  (due - now <= microseconds_per_day)%Z.

(** ** The service layer as a whole

    The four repositories, the operations of the four services that write
    to them, and what a call leaves behind. *)

Module Services.

Record world : Type := mk {
  users : UserRepository.t;
  tasks : TaskRepository.t;
  projects : ProjectRepository.t;
  teams : TeamRepository.t
}.

(** The service methods that mutate, with their arguments and with the
    values they draw from the clock and from the generators. *)
Inductive call : Type :=
| CreateUser (username email password : string) (role : UserRole)
             (salt : string) (now : datetime)
| UpdateUserProfile (user_id : string) (profile_data : list (string * string))
| ChangeUserPassword (user_id old_password new_password salt : string)
| PromoteUser (user_id : string) (new_role : UserRole) (promoter_id : string)
| DeactivateUser (user_id deactivator_id : string)
| CreateTask (title description : string) (assignee_id : option string)
             (priority : TaskPriority) (due_date : option datetime)
             (creator_id : option string) (uuid : string) (now1 now2 : datetime)
| UpdateTaskStatus (task_id : string) (new_status : TaskStatus)
                   (user_id : option string) (now : datetime)
| AssignTask (task_id assignee_id assigner_id : string) (now : datetime)
| AddTaskComment (task_id author_id content uuid : string) (now1 now2 : datetime)
| CreateProject (name description : string) (owner_id : option string)
                (uuid : string) (now1 now2 : datetime)
| UpdateProjectStatus (project_id : string) (new_status : ProjectStatus)
                      (user_id : string) (now : datetime)
| AddTaskToProject (project_id : string) (task : Task.t) (user_id : string)
                   (now : datetime)
| RemoveTaskFromProject (project_id : string) (task : Task.t) (user_id : string)
                        (now : datetime)
| AddMilestone (project_id title description : string) (due_date : datetime)
               (user_id uuid : string) (now : datetime)
| CompleteMilestone (project_id milestone_id user_id : string) (now1 now2 : datetime)
| AddProjectMember (project_id user_id adder_id : string) (now : datetime)
| RemoveProjectMember (project_id user_id remover_id : string) (now : datetime)
| CreateTeam (name description : string) (leader_id : option string)
             (uuid : string) (now1 now2 now3 now4 : datetime)
| AddTeamMember (team_id user_id : string) (role : TeamRole) (adder_id : string)
                (now1 now2 : datetime)
| RemoveTeamMember (team_id user_id remover_id : string) (now : datetime)
| PromoteTeamMember (team_id user_id : string) (new_role : TeamRole)
                    (promoter_id : string) (now : datetime)
| ChangeTeamLeader (team_id new_leader_id changer_id : string)
                   (now1 now2 now3 : datetime)
| AddProjectToTeam (team_id project_id adder_id : string) (now : datetime)
| RemoveProjectFromTeam (team_id project_id remover_id : string) (now : datetime).

(** The exception a call ends with, if any. *)
Definition failure {A} (r : result A) : option exn :=
  match r with Ok _ => None | Raise e => Some e end.

Definition on_users {A} (w : world) (r : result A * UserRepository.t)
  : option exn * world :=
  (failure (fst r), mk (snd r) (tasks w) (projects w) (teams w)).

Definition on_tasks {A} (w : world) (r : result A * TaskRepository.t)
  : option exn * world :=
  (failure (fst r), mk (users w) (snd r) (projects w) (teams w)).

Definition on_projects {A} (w : world) (r : result A * ProjectRepository.t)
  : option exn * world :=
  (failure (fst r), mk (users w) (tasks w) (snd r) (teams w)).

Definition on_teams {A} (w : world) (r : result A * TeamRepository.t)
  : option exn * world :=
  (failure (fst r), mk (users w) (tasks w) (projects w) (snd r)).

Definition run `{Crypto} (c : call) (w : world) : option exn * world :=
  match c with
  | CreateUser username email password role salt now =>
      on_users w (UserService.create_user username email password role salt now
                    (users w))
  | UpdateUserProfile user_id profile_data =>
      on_users w (UserService.update_user_profile user_id profile_data (users w))
  | ChangeUserPassword user_id old_password new_password salt =>
      on_users w (UserService.change_user_password user_id old_password
                    new_password salt (users w))
  | PromoteUser user_id new_role promoter_id =>
      on_users w (UserService.promote_user user_id new_role promoter_id (users w))
  | DeactivateUser user_id deactivator_id =>
      on_users w (UserService.deactivate_user user_id deactivator_id (users w))
  | CreateTask title description assignee_id priority due_date creator_id uuid
               now1 now2 =>
      on_tasks w (TaskService.create_task title description assignee_id priority
                    due_date creator_id uuid now1 now2 (users w) (tasks w))
  | UpdateTaskStatus task_id new_status user_id now =>
      on_tasks w (TaskService.update_task_status task_id new_status user_id now
                    (users w) (tasks w))
  | AssignTask task_id assignee_id assigner_id now =>
      on_tasks w (TaskService.assign_task task_id assignee_id assigner_id now
                    (users w) (tasks w))
  | AddTaskComment task_id author_id content uuid now1 now2 =>
      on_tasks w (TaskService.add_task_comment task_id author_id content uuid
                    now1 now2 (users w) (tasks w))
  | CreateProject name description owner_id uuid now1 now2 =>
      on_projects w (ProjectService.create_project name description owner_id uuid
                       now1 now2 (users w) (projects w))
  | UpdateProjectStatus project_id new_status user_id now =>
      on_projects w (ProjectService.update_project_status project_id new_status
                       user_id now (users w) (projects w))
  | AddTaskToProject project_id task user_id now =>
      on_projects w (ProjectService.add_task_to_project project_id task user_id now
                       (users w) (projects w))
  | RemoveTaskFromProject project_id task user_id now =>
      on_projects w (ProjectService.remove_task_from_project project_id task
                       user_id now (users w) (projects w))
  | AddMilestone project_id title description due_date user_id uuid now =>
      on_projects w (ProjectService.add_milestone project_id title description
                       due_date user_id uuid now (users w) (projects w))
  | CompleteMilestone project_id milestone_id user_id now1 now2 =>
      on_projects w (ProjectService.complete_milestone project_id milestone_id
                       user_id now1 now2 (users w) (projects w))
  | AddProjectMember project_id user_id adder_id now =>
      on_projects w (ProjectService.add_team_member project_id user_id adder_id now
                       (users w) (projects w))
  | RemoveProjectMember project_id user_id remover_id now =>
      on_projects w (ProjectService.remove_team_member project_id user_id
                       remover_id now (users w) (projects w))
  | CreateTeam name description leader_id uuid now1 now2 now3 now4 =>
      on_teams w (TeamService.create_team name description leader_id uuid
                    now1 now2 now3 now4 (users w) (teams w))
  | AddTeamMember team_id user_id role adder_id now1 now2 =>
      on_teams w (TeamService.add_team_member team_id user_id role adder_id
                    now1 now2 (users w) (teams w))
  | RemoveTeamMember team_id user_id remover_id now =>
      on_teams w (TeamService.remove_team_member team_id user_id remover_id now
                    (users w) (teams w))
  | PromoteTeamMember team_id user_id new_role promoter_id now =>
      on_teams w (TeamService.promote_team_member team_id user_id new_role
                    promoter_id now (users w) (teams w))
  | ChangeTeamLeader team_id new_leader_id changer_id now1 now2 now3 =>
      on_teams w (TeamService.change_team_leader team_id new_leader_id changer_id
                    now1 now2 now3 (users w) (teams w))
  | AddProjectToTeam team_id project_id adder_id now =>
      on_teams w (TeamService.add_project_to_team team_id project_id adder_id now
                    (users w) (teams w))
  | RemoveProjectFromTeam team_id project_id remover_id now =>
      on_teams w (TeamService.remove_project_from_team team_id project_id
                    remover_id now (users w) (teams w))
  end.


(** Every stored task, project and team carries an identifier, as every
    object made by a constructor does. *)
Definition identified (w : world) : Prop :=
  (forall k x, PyDict.get k (TaskRepository._data (tasks w)) = Some x ->
               Str.truthy (Task._id x) = true)
  /\ (forall k x, PyDict.get k (ProjectRepository._data (projects w)) = Some x ->
                  Str.truthy (Project._id x) = true)
  /\ (forall k x, PyDict.get k (TeamRepository._data (teams w)) = Some x ->
                  Str.truthy (Team._id x) = true).

End Services.


(** ** Invariants of the entities *)

(** A tag as [add_tag] stores it: not empty, and unchanged by the
    normalisation (strip, then lower) that [add_tag] applies. *)
Definition tag_normal (x : string) : Prop :=
  Str.truthy x = true /\ Str.lower (Str.strip x) = x.

Definition tags_ok (l : list string) : Prop :=
  List.NoDup l /\ List.Forall tag_normal l.

(** A title as the constructor and the setter store it. *)
Definition title_ok (x : Task.t) : Prop :=
  Task._validate_title (Task._title x) = Ok (Task._title x).

(** The members of a team as its methods keep them: one entry per user,
    each with the permissions of its role. *)
Definition members_ok (l : list TeamMember) : Prop :=
  List.NoDup (map member_user_id l)
  /\ List.Forall
       (fun m => member_permissions m = Team._get_default_permissions (member_role m)) l.

(** [Team.get_team_statistics] *)
Definition get_team_statistics `{IsoFormat} (self : Team.t) : value :=
  let count role := VInt (Z.of_nat (length (Team.get_members_by_role role self))) in
  VDict [("total_members", VInt (Z.of_nat (Team.get_member_count self)));
         ("total_projects", VInt (Z.of_nat (length (Team._projects self))));
         ("role_distribution",
          VDict [("leader", count LEADER); ("member", count MEMBER);
                 ("contributor", count CONTRIBUTOR)]);
         ("created_at", VStr (isoformat (Team._created_at self)));
         ("last_updated", VStr (isoformat (Team._updated_at self)))].

(** ** States of the service layer *)

(** A user holds exactly the permissions of the user's role. *)
Definition permissions_match_role (u : User.t) : Prop :=
  User._permissions u = User.permissions_of (User._role u).

(** A task that the constructor made and that its own methods and setters
    have changed since. *)
Definition task_made (x : Task.t) : Prop :=
  exists title description assignee_id priority due_date uuid now1 now2 x0,
    Task.__init__ title description assignee_id priority due_date uuid now1 now2
    = Ok x0
    /\ Task.steps x0 x.

Definition user_entry_ok (k : string) (u : User.t) : Prop :=
  User._id u = Some k /\ Str.truthy k = true /\ permissions_match_role u.

Definition task_entry_ok (k : string) (x : Task.t) : Prop :=
  Task._id x = k /\ Str.truthy k = true /\ task_made x.

Definition project_entry_ok (k : string) (x : Project.t) : Prop :=
  Project._id x = k /\ Str.truthy k = true /\ Project.built x.

Definition team_entry_ok (k : string) (x : Team.t) : Prop :=
  Team._id x = k /\ Str.truthy k = true /\ Team.built x.

(** What the services maintain: every entity is stored under its own,
    non-empty identifier; every stored user holds the permissions of the
    user's role; every stored task, project and team is in a state that
    its constructor and methods produce. *)
Definition world_ok (w : Services.world) : Prop :=
  (forall k u, PyDict.get k (UserRepository._data (Services.users w)) = Some u ->
               user_entry_ok k u)
  /\ (forall k x, PyDict.get k (TaskRepository._data (Services.tasks w)) = Some x ->
                  task_entry_ok k x)
  /\ (forall k x, PyDict.get k (ProjectRepository._data (Services.projects w)) = Some x ->
                  project_entry_ok k x)
  /\ (forall k x, PyDict.get k (TeamRepository._data (Services.teams w)) = Some x ->
                  team_entry_ok k x).

Definition empty_world : Services.world :=
  Services.mk UserRepository.empty TaskRepository.empty ProjectRepository.empty
              TeamRepository.empty.

(** The states the service layer can be in: the empty repositories, and
    what any call makes of such a state, whether it returns or raises.
    The tasks in a project's list are objects that the task repository may
    hold too: [reachable_task_changed] is a change that reaches them through
    that reference, which leaves their identifiers alone. *)
Inductive reachable `{Crypto} : Services.world -> Prop :=
| reachable_empty : reachable empty_world
| reachable_run c w : reachable w -> reachable (snd (Services.run c w))
| reachable_task_changed w k p l :
    reachable w ->
    PyDict.get k (ProjectRepository._data (Services.projects w)) = Some p ->
    map Task._id l = map Task._id (Project._tasks p) ->
    reachable (Services.mk (Services.users w) (Services.tasks w)
                 (ProjectRepository.write_through k (Project.set_tasks l p)
                    (Services.projects w))
                 (Services.teams w)).

(** The keys of the user repository are the identifiers it has generated:
    one per value the counter has passed. *)
Definition users_generated (repo : UserRepository.t) : Prop :=
  forall k u, PyDict.get k (UserRepository._data repo) = Some u ->
              exists i, (i < UserRepository._next_id repo)%nat
                        /\ k = "userrepository_" ++ str_of_nat i.

(** * Properties *)

(** C1. A task whose status is Done rejects every change to another status
    with the ValueError "Cannot change status of completed task" (the
    InvalidTransition failure) and is left exactly as it was, status Done
    included; a task in any other status accepts every new status, which is
    stored together with the clock reading as the update timestamp. *)
Theorem C1_update_status_terminal :
  forall (self : Task.t) (new_status : TaskStatus) (now : datetime),
    (Task._status self = DONE -> new_status <> DONE ->
       Task.update_status new_status now self
       = (Raise (ValueError "Cannot change status of completed task"), self)
       /\ Task._status (snd (Task.update_status new_status now self)) = DONE)
    /\ (Task._status self <> DONE ->
        exists self',
          Task.update_status new_status now self = (Ok tt, self')
          /\ Task._status self' = new_status
          /\ Task._updated_at self' = now).
Proof.
  intros self new_status now; split.
  - intros Hdone Hnew. unfold Task.update_status.
    rewrite (bool_decide_eq_true_2 _ Hdone), (bool_decide_eq_false_2 _ Hnew).
    simpl. split; [reflexivity | exact Hdone].
  - intros Hnot. unfold Task.update_status.
    rewrite (bool_decide_eq_false_2 _ Hnot). simpl.
    eexists; split; [reflexivity | split; reflexivity].
Qed.

Lemma C1_witness :
  Task.update_status TODO 5%Z (Sample.task "t" DONE LOW None None)
  = (Raise (ValueError "Cannot change status of completed task"),
     Sample.task "t" DONE LOW None None)
  /\ exists self',
       Task.update_status REVIEW 5%Z (Sample.task "t" TODO LOW None None)
       = (Ok tt, self')
       /\ Task._status self' = REVIEW /\ Task._updated_at self' = 5%Z.
Proof.
  split.
  - apply (proj1 (C1_update_status_terminal
                    (Sample.task "t" DONE LOW None None) TODO 5%Z));
      [reflexivity | discriminate].
  - apply (proj2 (C1_update_status_terminal
                    (Sample.task "t" TODO LOW None None) REVIEW 5%Z)).
    discriminate.
Defined.

(** ** Task urgency *)

Lemma timedelta_days_le_1 (due now : datetime) :
  (timedelta_days due now <=? 1)%Z = true
  <-> (due - now < 2 * microseconds_per_day)%Z.
Proof.
  unfold timedelta_days, microseconds_per_day. rewrite Z.leb_le. split; intros Hd.
  - apply Z.nle_gt; intros Hge.
    assert (2 <= (due - now) / 86400000000)%Z
      by (apply Z.div_le_lower_bound; lia).
    lia.
  - assert ((due - now) / 86400000000 < 2)%Z
      by (apply Z.div_lt_upper_bound; lia).
    lia.
Qed.

(** C6, as stated, fails.  A task of priority High that is due 36 hours
    after the evaluation time is urgent for [is_urgent], although its due
    date is more than one day away. *)
Lemma C6_counterexample :
  let t := Sample.task "t" TODO HIGH None (Some 129600000000%Z) in
  Task.is_urgent 0%Z t = true
  /\ ~ (Task._priority t = URGENT
        \/ exists due, Task._due_date t = Some due
                       /\ (Task._priority t = HIGH \/ Task._priority t = URGENT)
                       /\ due_within_one_day due 0%Z).
Proof.
  split; [reflexivity |].
  intros [Hu | (due & Hdue & _ & Hw)]; [discriminate |].
  injection Hdue as <-. unfold due_within_one_day, microseconds_per_day in Hw. lia.
Qed.

(** C6, amended.  [is_urgent] is true exactly when the priority is Urgent,
    or a due date exists, the priority is High and the whole number of days
    from the evaluation time to the due date is at most 1, that is, the due
    date lies less than two days after the evaluation time (every due date
    in the past included); it is false in all other cases. *)
Theorem C6_is_urgent_characterised :
  forall (self : Task.t) (now : datetime),
    Task.is_urgent now self = true
    <-> (Task._priority self = URGENT
         \/ exists due, Task._due_date self = Some due
                        /\ Task._priority self = HIGH
                        /\ (timedelta_days due now <= 1)%Z
                        /\ (due - now < 2 * microseconds_per_day)%Z).
Proof.
  intros self now. unfold Task.is_urgent.
  destruct (bool_decide_reflect (Task._priority self = URGENT)) as [Hu | Hu].
  - split; [intros _; left; exact Hu | reflexivity].
  - destruct (Task._due_date self) as [due |]; split.
    + rewrite andb_true_iff, orb_true_iff, !bool_decide_eq_true.
      intros [Hd [Hh | Hh]]; [| discriminate].
      right. exists due. repeat split; try assumption.
      * apply Z.leb_le; exact Hd.
      * apply timedelta_days_le_1; exact Hd.
    + intros [Hp | (due' & Hdue & Hh & Hd & _)]; [contradiction |].
      injection Hdue as <-.
      rewrite andb_true_iff, orb_true_iff, !bool_decide_eq_true, Z.leb_le. tauto.
    + discriminate.
    + intros [Hp | (due' & Hdue & _)]; [contradiction | discriminate].
Qed.

Lemma C6_witness :
  Task.is_urgent 0%Z (Sample.task "t" TODO HIGH None (Some 43200000000%Z)) = true
  /\ Task.is_urgent 0%Z (Sample.task "t" TODO URGENT None None) = true.
Proof.
  split.
  - apply (proj2 (C6_is_urgent_characterised _ 0%Z)). right.
    exists 43200000000%Z. repeat split; try reflexivity.
    + vm_compute. discriminate.
  - apply (proj2 (C6_is_urgent_characterised _ 0%Z)). left. reflexivity.
Defined.

(** ** Project progress *)

Lemma progress_no_tasks (p : Project.t) :
  Project._tasks p = [] -> Project.get_progress_percentage p = 0%Z.
Proof. unfold Project.get_progress_percentage. intros ->. reflexivity. Qed.

Lemma progress_1_of_3 :
  Project.get_progress_percentage (Sample.project (Sample.tasks 1 3 0)) = 33%Z.
Proof. vm_compute. reflexivity. Qed.

(** C2, on the code.  With 50 tasks of which 29 are Done the method returns
    57, while floor(100 * 29 / 50) is 58: the quotient 29/50 is rounded to a
    binary fraction below 0.58, its product with 100 is rounded to a float
    below 58, and [int] truncates. *)
Theorem C2_progress_29_of_50 :
  let p := Sample.project (Sample.tasks 29 50 0) in
  length (Project._tasks p) = 50%nat
  /\ length (Project.get_tasks_by_status DONE p) = 29%nat
  /\ Project.get_progress_percentage p = 57%Z
  /\ (100 * 29 / 50 = 58)%Z.
Proof. vm_compute. repeat split; reflexivity. Qed.

(** ** Task identity inside a project *)

Lemma task_in_spec (task : Task.t) (l : list Task.t) :
  Project.task_in task l = true
  <-> exists x, In x l /\ Task._id x = Task._id task.
Proof.
  unfold Project.task_in. rewrite existsb_exists.
  split; intros (x & Hin & Hx); exists x; split; try assumption.
  - unfold Task.eqb in Hx. apply bool_decide_eq_true in Hx. exact Hx.
  - unfold Task.eqb. apply bool_decide_eq_true. exact Hx.
Qed.

Lemma task_in_ids (task : Task.t) (l : list Task.t) :
  Project.task_in task l = true <-> In (Task._id task) (map Task._id l).
Proof.
  rewrite task_in_spec, in_map_iff.
  split; intros (x & H1 & H2); exists x; split; auto.
Qed.

Lemma list_remove_ids_incl (task : Task.t) (l : list Task.t) (i : string) :
  In i (map Task._id (Project.list_remove task l)) -> In i (map Task._id l).
Proof.
  induction l as [| x l IH]; simpl; [tauto |].
  destruct (Task.eqb x task); simpl; tauto.
Qed.

Lemma list_remove_NoDup (task : Task.t) (l : list Task.t) :
  List.NoDup (map Task._id l) ->
  List.NoDup (map Task._id (Project.list_remove task l)).
Proof.
  induction l as [| x l IH]; simpl; intros Hnd; [constructor |].
  inversion Hnd as [| ? ? Hnotin Hnd']; subst.
  destruct (Task.eqb x task); [exact Hnd' |].
  simpl. constructor; [| apply IH; exact Hnd'].
  intros Hin. apply Hnotin. eapply list_remove_ids_incl; exact Hin.
Qed.

Lemma add_task_NoDup (task : Task.t) (now : datetime) (p : Project.t) :
  List.NoDup (map Task._id (Project._tasks p)) ->
  List.NoDup (map Task._id (Project._tasks (Project.add_task task now p))).
Proof.
  intros Hnd. unfold Project.add_task.
  destruct (Project.task_in task (Project._tasks p)) eqn:E; simpl; [exact Hnd |].
  rewrite map_app. simpl.
  apply NoDup_ListNoDup, NoDup_app. repeat split.
  - apply NoDup_ListNoDup; exact Hnd.
  - intros i Hi Hi'. apply list_elem_of_In in Hi.
    apply list_elem_of_singleton in Hi'. subst i.
    apply task_in_ids in Hi. congruence.
  - apply NoDup_singleton.
Qed.

Lemma built_NoDup (p : Project.t) :
  Project.built p -> List.NoDup (map Task._id (Project._tasks p)).
Proof.
  induction 1 as
    [name description owner_id uuid now1 now2 p Hinit
    | | task now p _ IH | task now p _ IH
    | | milestone_id now1 now2 p _ IH
    | user_id now p _ IH | user_id now p _ IH
    | value now p _ IH | | | l p _ IH Hids]; simpl; try assumption.
  - unfold Project.__init__ in Hinit.
    destruct (Project._validate_name name); [| discriminate].
    injection Hinit as <-. constructor.
  - apply add_task_NoDup; exact IH.
  - unfold Project.remove_task.
    destruct (Project.task_in task (Project._tasks p)); simpl; [| exact IH].
    apply list_remove_NoDup; exact IH.
  - unfold Project.complete_milestone.
    destruct (Project.complete_in _ _ _); simpl; exact IH.
  - unfold Project.add_team_member.
    destruct (negb _); simpl; exact IH.
  - unfold Project.remove_team_member.
    destruct (Str.mem _ _); simpl; exact IH.
  - unfold Project.assign_name.
    destruct (Project._validate_name value); simpl; exact IH.
  - rewrite Hids; exact IH.
Qed.

(** C10.  Adding a task whose identifier is that of a task already in the
    project's list leaves the project, list included, exactly as it was;
    and the list of a project never holds two tasks with one identifier,
    whatever sequence of methods produced the project. *)
Theorem C10_add_task_idempotent_by_id :
  forall (p : Project.t) (task : Task.t) (now : datetime),
    ((exists x, In x (Project._tasks p) /\ Task._id x = Task._id task) ->
       Project.add_task task now p = p)
    /\ (Project.built p -> List.NoDup (map Task._id (Project._tasks p)))
    /\ (Project.built p ->
        List.NoDup (map Task._id (Project._tasks (Project.add_task task now p)))).
Proof.
  intros p task now. split; [| split].
  - intros Hex. apply task_in_spec in Hex.
    unfold Project.add_task. rewrite Hex. reflexivity.
  - apply built_NoDup.
  - intros Hb. apply add_task_NoDup, built_NoDup, Hb.
Qed.

Lemma C10_witness :
  Project.add_task (Sample.task "t1" DONE HIGH None None) 2%Z Sample.project1
  = Sample.project1
  /\ List.NoDup (map Task._id (Project._tasks Sample.project1)).
Proof.
  assert (Hb : Project.built Sample.project1).
  { apply Project.built_add_task.
    apply (Project.built_init "Project" "" None "p1" 0%Z 0%Z). reflexivity. }
  pose proof (C10_add_task_idempotent_by_id Sample.project1
                (Sample.task "t1" DONE HIGH None None) 2%Z) as (H1 & H2 & _).
  split.
  - apply H1. eexists; split; [left; reflexivity | reflexivity].
  - apply H2, Hb.
Defined.

(** ** Dictionaries: lookups after a write *)

Section DictFacts.
Context {V : Type}.
Implicit Types (d : PyDict.t V) (k : string) (v : V).

Lemma dict_set_same d k v : PyDict.get k d = Some v -> PyDict.set k v d = d.
Proof.
  induction d as [| [k' v'] d IH]; simpl; [discriminate |].
  destruct (bool_decide_reflect (k' = k)) as [-> | Hne].
  - intros [= ->]. reflexivity.
  - intros Hg. rewrite (IH Hg). reflexivity.
Qed.

Lemma dict_get_set_eq d k v : PyDict.get k (PyDict.set k v d) = Some v.
Proof.
  induction d as [| [k' v'] d IH]; simpl.
  - rewrite bool_decide_eq_true_2; reflexivity.
  - destruct (bool_decide_reflect (k' = k)) as [-> | Hne]; simpl.
    + rewrite bool_decide_eq_true_2; reflexivity.
    + rewrite (bool_decide_eq_false_2 _ Hne). exact IH.
Qed.

Lemma dict_get_set_ne d k k' v :
  k <> k' -> PyDict.get k' (PyDict.set k v d) = PyDict.get k' d.
Proof.
  intros Hne. induction d as [| [k0 v0] d IH]; simpl.
  - rewrite (bool_decide_eq_false_2 _ Hne). reflexivity.
  - destruct (bool_decide_reflect (k0 = k)) as [-> | Hne0]; simpl.
    + rewrite (bool_decide_eq_false_2 _ Hne). reflexivity.
    + rewrite IH. reflexivity.
Qed.

Lemma dict_set_set d k v v' :
  PyDict.set k v (PyDict.set k v' d) = PyDict.set k v d.
Proof.
  induction d as [| [k0 v0] d IH]; simpl.
  - rewrite bool_decide_eq_true_2; reflexivity.
  - destruct (bool_decide_reflect (k0 = k)) as [-> | Hne0]; simpl.
    + rewrite bool_decide_eq_true_2; reflexivity.
    + rewrite (bool_decide_eq_false_2 _ Hne0), IH. reflexivity.
Qed.

Lemma dict_get_In d k v : PyDict.get k d = Some v -> In (k, v) d.
Proof.
  induction d as [| [k' v'] d IH]; simpl; [discriminate |].
  destruct (bool_decide_reflect (k' = k)) as [-> | Hne].
  - intros [= ->]. left; reflexivity.
  - intros Hg. right; apply IH; exact Hg.
Qed.

(** Counting the values that satisfy a test, after the value under a key
    that is present has been replaced. *)
Lemma dict_count_set (P : V -> bool) d k v v' :
  PyDict.get k d = Some v ->
  (length (List.filter P (PyDict.values (PyDict.set k v' d))) + (if P v then 1 else 0)
   = length (List.filter P (PyDict.values d)) + (if P v' then 1 else 0))%nat.
Proof.
  unfold PyDict.values.
  induction d as [| [k0 v0] d IH]; simpl; [discriminate |].
  destruct (bool_decide_reflect (k0 = k)) as [-> | Hne]; simpl.
  - intros [= ->]. destruct (P v), (P v'); simpl; lia.
  - intros Hg. specialize (IH Hg). destruct (P v0); simpl; lia.
Qed.

End DictFacts.

(** ** Removing a team member *)

Lemma index_of_None (user_id : string) (l : list TeamMember) :
  Team.index_of user_id l = None <-> existsb (Team.has_user_id user_id) l = false.
Proof.
  induction l as [| m l IH]; simpl; [tauto |].
  destruct (Team.has_user_id user_id m); simpl.
  - split; discriminate.
  - destruct (Team.index_of user_id l); rewrite <- IH; split; congruence.
Qed.






(** ** Role changes and the last Admin *)

Lemma user_write_through_same (k : string) (u : User.t) (repo : UserRepository.t) :
  UserRepository.get_by_id k repo = Some u ->
  UserRepository.write_through k u repo = repo.
Proof.
  unfold UserRepository.get_by_id, UserRepository.write_through. intros Hg.
  rewrite (dict_set_same _ _ _ Hg). destruct repo; reflexivity.
Qed.

(** Saving an object that the repository holds under its identifier, after
    a write to it, stores nothing new. *)
Lemma user_save_held (k : string) (u u' : User.t) (repo : UserRepository.t) :
  users_wf repo ->
  UserRepository.get_by_id k repo = Some u ->
  User._id u' = User._id u ->
  UserRepository.save u' (UserRepository.write_through k u' repo)
  = (u', UserRepository.write_through k u' repo).
Proof.
  intros Hwf Hg Hid. destruct (Hwf _ _ Hg) as [Hk Ht].
  unfold UserRepository.save. rewrite Hid, Hk. simpl. rewrite Ht. simpl.
  unfold UserRepository.write_through. simpl.
  rewrite dict_set_set. reflexivity.
Qed.

Lemma admin_count_write_through (k : string) (u u' : User.t)
    (repo : UserRepository.t) :
  UserRepository.get_by_id k repo = Some u ->
  (admin_count (UserRepository.write_through k u' repo)
   + (if User.is_admin u then 1 else 0)
   = admin_count repo + (if User.is_admin u' then 1 else 0))%nat.
Proof.
  intros Hg. unfold admin_count, UserService.get_users_by_role,
    UserRepository.get_all, UserRepository.write_through. simpl.
  exact (dict_count_set User.is_admin _ _ _ u' Hg).
Qed.

Lemma promote_user_applies (repo : UserRepository.t) (user_id promoter_id : string)
    (user promoter : User.t) (new_role : UserRole) :
  users_wf repo ->
  UserRepository.get_by_id user_id repo = Some user ->
  UserRepository.get_by_id promoter_id repo = Some promoter ->
  User.is_admin promoter = true ->
  User.is_admin user && negb (bool_decide (new_role = ADMIN))
    && (admin_count repo <=? 1)%nat = false ->
  UserService.promote_user user_id new_role promoter_id repo
  = (Ok (with_role new_role user),
     UserRepository.write_through user_id (with_role new_role user) repo).
Proof.
  intros Hwf Hu Hp Hadm Hguard.
  unfold UserService.promote_user, UserService.get_user.
  rewrite Hu, Hp, Hadm. simpl. unfold admin_count in Hguard. rewrite Hguard.
  fold (with_role new_role user).
  rewrite (user_save_held _ user _ _ Hwf Hu) by reflexivity. reflexivity.
Qed.

Lemma deactivate_user_applies (repo : UserRepository.t)
    (user_id deactivator_id : string) (user deactivator : User.t) :
  users_wf repo ->
  UserRepository.get_by_id user_id repo = Some user ->
  UserRepository.get_by_id deactivator_id repo = Some deactivator ->
  User.is_admin deactivator = true ->
  User.is_admin user && (admin_count repo <=? 1)%nat = false ->
  UserService.deactivate_user user_id deactivator_id repo
  = (Ok (with_role GUEST user),
     UserRepository.write_through user_id (with_role GUEST user) repo).
Proof.
  intros Hwf Hu Hp Hadm Hguard.
  unfold UserService.deactivate_user, UserService.get_user.
  rewrite Hu, Hp, Hadm. simpl. unfold admin_count in Hguard. rewrite Hguard.
  fold (with_role GUEST user).
  rewrite (user_save_held _ user _ _ Hwf Hu) by reflexivity. reflexivity.
Qed.

Lemma is_admin_with_role (role : UserRole) (user : User.t) :
  User.is_admin (with_role role user) = bool_decide (role = ADMIN).
Proof. reflexivity. Qed.

(** Whatever its arguments, a role change leaves an Admin in a repository
    that had one. *)
Lemma promote_user_keeps_an_admin (repo : UserRepository.t)
    (user_id promoter_id : string) (new_role : UserRole) :
  users_wf repo -> (1 <= admin_count repo)%nat ->
  (1 <= admin_count (snd (UserService.promote_user user_id new_role promoter_id repo)))%nat.
Proof.
  intros Hwf Hone.
  destruct (UserRepository.get_by_id user_id repo) as [user |] eqn:Hu;
    [| unfold UserService.promote_user, UserService.get_user; rewrite Hu; exact Hone].
  destruct (UserRepository.get_by_id promoter_id repo) as [promoter |] eqn:Hp;
    [| unfold UserService.promote_user, UserService.get_user; rewrite Hu, Hp; exact Hone].
  destruct (User.is_admin promoter) eqn:Hadm;
    [| unfold UserService.promote_user, UserService.get_user;
       rewrite Hu, Hp, Hadm; exact Hone].
  destruct (User.is_admin user && negb (bool_decide (new_role = ADMIN))
            && (admin_count repo <=? 1)%nat) eqn:Hguard.
  - unfold UserService.promote_user, UserService.get_user.
    rewrite Hu, Hp, Hadm. simpl. unfold admin_count in Hguard. rewrite Hguard.
    exact Hone.
  - rewrite (promote_user_applies _ _ _ _ _ _ Hwf Hu Hp Hadm Hguard). simpl.
    pose proof (admin_count_write_through user_id user (with_role new_role user)
                  repo Hu) as Hc.
    rewrite is_admin_with_role in Hc.
    destruct (User.is_admin user), (bool_decide (new_role = ADMIN));
      simpl in Hguard, Hc; try lia.
    apply Nat.leb_gt in Hguard. lia.
Qed.

Lemma deactivate_user_keeps_an_admin (repo : UserRepository.t)
    (user_id deactivator_id : string) :
  users_wf repo -> (1 <= admin_count repo)%nat ->
  (1 <= admin_count (snd (UserService.deactivate_user user_id deactivator_id repo)))%nat.
Proof.
  intros Hwf Hone.
  destruct (UserRepository.get_by_id user_id repo) as [user |] eqn:Hu;
    [| unfold UserService.deactivate_user, UserService.get_user; rewrite Hu; exact Hone].
  destruct (UserRepository.get_by_id deactivator_id repo) as [promoter |] eqn:Hp;
    [| unfold UserService.deactivate_user, UserService.get_user;
       rewrite Hu, Hp; exact Hone].
  destruct (User.is_admin promoter) eqn:Hadm;
    [| unfold UserService.deactivate_user, UserService.get_user;
       rewrite Hu, Hp, Hadm; exact Hone].
  destruct (User.is_admin user && (admin_count repo <=? 1)%nat) eqn:Hguard.
  - unfold UserService.deactivate_user, UserService.get_user.
    rewrite Hu, Hp, Hadm. simpl. unfold admin_count in Hguard. rewrite Hguard.
    exact Hone.
  - rewrite (deactivate_user_applies _ _ _ _ _ Hwf Hu Hp Hadm Hguard). simpl.
    pose proof (admin_count_write_through user_id user (with_role GUEST user)
                  repo Hu) as Hc.
    rewrite is_admin_with_role in Hc.
    destruct (User.is_admin user); simpl in Hguard, Hc; try lia.
    apply Nat.leb_gt in Hguard. lia.
Qed.

(** C4.  In a user collection with exactly one Admin, every call that
    would give that Admin another role, by [promote_user] or by
    [deactivate_user], fails and leaves the collection as it was; the
    Admins are counted in the collection as it is when the call is made.
    With at least two Admins, an Admin who demotes or deactivates one of
    them succeeds, and the collection then holds exactly one Admin fewer.
    No role change takes a collection with an Admin to one without. *)
Theorem C4_last_admin_protected :
  forall (repo : UserRepository.t) (user_id : string) (user : User.t),
    UserRepository.get_by_id user_id repo = Some user ->
    User.is_admin user = true ->
    (admin_count repo = 1%nat ->
       (forall new_role promoter_id, new_role <> ADMIN ->
          exists e, UserService.promote_user user_id new_role promoter_id repo
                    = (Raise e, repo))
       /\ (forall deactivator_id,
             exists e, UserService.deactivate_user user_id deactivator_id repo
                       = (Raise e, repo))
       /\ (forall new_role, new_role <> ADMIN ->
             UserService.promote_user user_id new_role user_id repo
             = (Raise (ValueError "Cannot demote the last admin user"), repo))
       /\ UserService.deactivate_user user_id user_id repo
          = (Raise (ValueError "Cannot deactivate the last admin user"), repo))
    /\ (users_wf repo -> (2 <= admin_count repo)%nat ->
        forall actor_id actor,
          UserRepository.get_by_id actor_id repo = Some actor ->
          User.is_admin actor = true ->
          (forall new_role, new_role <> ADMIN ->
             exists user' repo',
               UserService.promote_user user_id new_role actor_id repo = (Ok user', repo')
               /\ User._role user' = new_role
               /\ UserRepository.get_by_id user_id repo' = Some user'
               /\ S (admin_count repo') = admin_count repo)
          /\ (exists user' repo',
               UserService.deactivate_user user_id actor_id repo = (Ok user', repo')
               /\ User._role user' = GUEST
               /\ UserRepository.get_by_id user_id repo' = Some user'
               /\ S (admin_count repo') = admin_count repo))
    /\ (users_wf repo ->
        forall target_id actor_id new_role,
          (1 <= admin_count (snd (UserService.promote_user target_id new_role actor_id repo)))%nat
          /\ (1 <= admin_count (snd (UserService.deactivate_user target_id actor_id repo)))%nat).
Proof.
  intros repo user_id user Hu Hadm.
  assert (Hpos : (1 <= admin_count repo)%nat).
  { pose proof (admin_count_write_through user_id user user repo Hu) as Hc.
    rewrite (user_write_through_same _ _ _ Hu), Hadm in Hc.
    unfold admin_count, UserService.get_users_by_role, UserRepository.get_all.
    unfold UserRepository.get_by_id in Hu. apply dict_get_In in Hu.
    assert (Hin : In user (List.filter (fun u => bool_decide (User._role u = ADMIN))
                             (PyDict.values (UserRepository._data repo)))).
    { apply filter_In. split; [| exact Hadm].
      unfold PyDict.values. apply in_map_iff. exists (user_id, user). auto. }
    destruct (List.filter _ _); [destruct Hin | simpl; lia]. }
  split; [| split].
  - intros Hone.
    assert (Hguard : forall new_role, new_role <> ADMIN ->
              User.is_admin user && negb (bool_decide (new_role = ADMIN))
              && (length (UserService.get_users_by_role ADMIN repo) <=? 1)%nat = true).
    { intros new_role Hnew. rewrite Hadm, (bool_decide_eq_false_2 _ Hnew).
      unfold admin_count in Hone. rewrite Hone. reflexivity. }
    assert (Hguard' : User.is_admin user
              && (length (UserService.get_users_by_role ADMIN repo) <=? 1)%nat = true).
    { rewrite Hadm. unfold admin_count in Hone. rewrite Hone. reflexivity. }
    repeat split.
    + intros new_role promoter_id Hnew.
      unfold UserService.promote_user, UserService.get_user. rewrite Hu.
      destruct (PyDict.get promoter_id (UserRepository._data repo)) as [promoter |] eqn:Hp;
        unfold UserRepository.get_by_id; rewrite Hp; [| eexists; reflexivity].
      destruct (User.is_admin promoter); simpl; [| eexists; reflexivity].
      rewrite (Hguard _ Hnew). eexists; reflexivity.
    + intros deactivator_id.
      unfold UserService.deactivate_user, UserService.get_user. rewrite Hu.
      destruct (PyDict.get deactivator_id (UserRepository._data repo)) as [promoter |] eqn:Hp;
        unfold UserRepository.get_by_id; rewrite Hp; [| eexists; reflexivity].
      destruct (User.is_admin promoter); simpl; [| eexists; reflexivity].
      rewrite Hguard'. eexists; reflexivity.
    + intros new_role Hnew.
      unfold UserService.promote_user, UserService.get_user.
      rewrite Hu, (Hguard _ Hnew), Hadm. reflexivity.
    + unfold UserService.deactivate_user, UserService.get_user.
      rewrite Hu, Hguard', Hadm. reflexivity.
  - intros Hwf Htwo actor_id actor Ha Haadm.
    assert (Hleb : (admin_count repo <=? 1)%nat = false) by (apply Nat.leb_gt; lia).
    pose proof (fun r => admin_count_write_through user_id user (with_role r user)
                           repo Hu) as Hc.
    split.
    + intros new_role Hnew.
      exists (with_role new_role user),
             (UserRepository.write_through user_id (with_role new_role user) repo).
      split; [| split; [reflexivity | split]].
      * apply (promote_user_applies _ _ _ _ _ _ Hwf Hu Ha Haadm).
        rewrite Hleb, andb_false_r. reflexivity.
      * unfold UserRepository.get_by_id, UserRepository.write_through. simpl.
        apply dict_get_set_eq.
      * specialize (Hc new_role). rewrite is_admin_with_role, Hadm in Hc.
        rewrite (bool_decide_eq_false_2 _ Hnew) in Hc. lia.
    + exists (with_role GUEST user),
             (UserRepository.write_through user_id (with_role GUEST user) repo).
      split; [| split; [reflexivity | split]].
      * apply (deactivate_user_applies _ _ _ _ _ Hwf Hu Ha Haadm).
        rewrite Hleb, andb_false_r. reflexivity.
      * unfold UserRepository.get_by_id, UserRepository.write_through. simpl.
        apply dict_get_set_eq.
      * specialize (Hc GUEST). rewrite is_admin_with_role, Hadm in Hc.
        simpl in Hc. lia.
  - intros Hwf target_id actor_id new_role. split.
    + apply promote_user_keeps_an_admin; assumption.
    + apply deactivate_user_keeps_an_admin; assumption.
Qed.

Lemma one_admin_wf : users_wf Sample.one_admin.
Proof.
  intros k u. simpl. repeat case_bool_decide; intros [= <-]; subst;
    split; reflexivity.
Qed.

Lemma two_admins_wf : users_wf Sample.two_admins.
Proof.
  intros k u. simpl. repeat case_bool_decide; intros [= <-]; subst;
    split; reflexivity.
Qed.

Lemma C4_witness :
  UserService.promote_user "u1" USER "u1" Sample.one_admin
  = (Raise (ValueError "Cannot demote the last admin user"), Sample.one_admin)
  /\ (exists user' repo',
        UserService.promote_user "u1" USER "u2" Sample.two_admins = (Ok user', repo')
        /\ User._role user' = USER
        /\ UserRepository.get_by_id "u1" repo' = Some user'
        /\ S (admin_count repo') = admin_count Sample.two_admins)
  /\ (1 <= admin_count
            (snd (UserService.deactivate_user "u2" "u1" Sample.two_admins)))%nat.
Proof.
  pose proof (C4_last_admin_protected Sample.one_admin "u1"
                (Sample.user "u1" "alice" ADMIN) eq_refl eq_refl) as (Hsole & _ & _).
  pose proof (C4_last_admin_protected Sample.two_admins "u1"
                (Sample.user "u1" "alice" ADMIN) eq_refl eq_refl) as (_ & Htwo & Hinv).
  split; [| split].
  - destruct (Hsole eq_refl) as (_ & _ & Hself & _). apply Hself. discriminate.
  - assert (Hcount : (2 <= admin_count Sample.two_admins)%nat)
      by (vm_compute; lia).
    destruct (Htwo two_admins_wf Hcount "u2" (Sample.user "u2" "bob" ADMIN)
                eq_refl eq_refl) as [Hpromote _].
    apply Hpromote. discriminate.
  - apply (Hinv two_admins_wf "u2" "u1" USER).
Defined.

(** ** Who may modify and who may assign a task *)


Lemma task_save_held (k : string) (x x' : Task.t) (repo : TaskRepository.t) :
  tasks_wf repo ->
  TaskRepository.get_by_id k repo = Some x ->
  Task._id x' = Task._id x ->
  TaskRepository.save x' (TaskRepository.write_through k x' repo)
  = (Ok x', TaskRepository.write_through k x' repo).
Proof.
  intros Hwf Hg Hid. destruct (Hwf _ _ Hg) as [Hk Ht].
  unfold TaskRepository.save. rewrite Hid, Hk, Ht. simpl.
  unfold TaskRepository.write_through. simpl.
  rewrite dict_set_set. reflexivity.
Qed.

Lemma task_get_write_through (k : string) (x : Task.t) (repo : TaskRepository.t) :
  TaskRepository.get_by_id k (TaskRepository.write_through k x repo) = Some x.
Proof. apply dict_get_set_eq. Qed.

Lemma can_modify_task_spec (users : UserRepository.t) (actor_id : string)
    (actor : User.t) (task : Task.t) :
  UserRepository.get_by_id actor_id users = Some actor ->
  TaskService._can_modify_task actor_id task users = true
  <-> (User.is_admin actor = true \/ Task._assignee_id task = Some actor_id).
Proof.
  intros Ha. unfold TaskService._can_modify_task. rewrite Ha.
  destruct (User.is_admin actor); [tauto |].
  case_bool_decide; split; auto; intros [? | ?]; congruence.
Qed.

Lemma can_comment_on_task_spec (users : UserRepository.t) (actor_id : string)
    (actor : User.t) (task : Task.t) :
  UserRepository.get_by_id actor_id users = Some actor ->
  TaskService._can_comment_on_task actor_id task users = true
  <-> (User.is_admin actor = true \/ Task._assignee_id task = Some actor_id).
Proof.
  intros Ha. unfold TaskService._can_comment_on_task. rewrite Ha.
  destruct (User.is_admin actor); [tauto |].
  case_bool_decide; split; auto; intros [? | ?]; congruence.
Qed.

(** C5.  For a task in the repository and an acting user in the user
    repository, the policy allows status updates and comments exactly when
    the user is an Admin or is the task's assignee: a call that is not
    allowed fails with PermissionError and changes nothing, a call that is
    allowed goes through to the entity.  Assigning needs the Admin role:
    for a non-Admin, assignee or not, [assign_task] on an existing task and
    assignee fails with PermissionError (and no [assign_task] call of a
    non-Admin ever succeeds), while the same call by an Admin succeeds and
    records the assignee. *)
Theorem C5_task_authorisation :
  forall (users : UserRepository.t) (tasks : TaskRepository.t)
         (task_id actor_id : string) (task : Task.t) (actor : User.t),
    users_wf users -> tasks_wf tasks ->
    TaskService.get_task task_id tasks = Some task ->
    UserRepository.get_by_id actor_id users = Some actor ->
    let allowed :=
      User.is_admin actor = true \/ Task._assignee_id task = Some actor_id in
    (TaskService._can_modify_task actor_id task users = true <-> allowed)
    /\ (TaskService._can_comment_on_task actor_id task users = true <-> allowed)
    /\ (forall new_status now,
          (~ allowed ->
             TaskService.update_task_status task_id new_status (Some actor_id) now
               users tasks
             = (Raise (PermissionError
                         "User does not have permission to modify this task"),
                tasks))
          /\ (allowed -> Task._status task <> DONE \/ new_status = DONE ->
              exists task' tasks',
                TaskService.update_task_status task_id new_status (Some actor_id) now
                  users tasks = (Ok task', tasks')
                /\ Task._status task' = new_status
                /\ TaskRepository.get_by_id task_id tasks' = Some task'))
    /\ (forall content uuid now1 now2,
          (~ allowed ->
             TaskService.add_task_comment task_id actor_id content uuid now1 now2
               users tasks
             = (Raise (PermissionError
                         "User does not have permission to comment on this task"),
                tasks))
          /\ (allowed -> Str.truthy (Str.strip content) = true ->
              exists task' tasks',
                TaskService.add_task_comment task_id actor_id content uuid now1 now2
                  users tasks = (Ok task', tasks')
                /\ Task._comments task'
                   = (Task._comments task
                      ++ [mkTaskComment uuid actor_id (Str.strip content) now1])%list
                /\ TaskRepository.get_by_id task_id tasks' = Some task'))
    /\ (forall assignee_id assignee now,
          UserRepository.get_by_id assignee_id users = Some assignee ->
          (User.is_admin actor = false ->
             TaskService.assign_task task_id assignee_id actor_id now users tasks
             = (Raise (PermissionError
                         "User does not have permission to assign this task"),
                tasks))
          /\ (User.is_admin actor = true ->
              exists task' tasks',
                TaskService.assign_task task_id assignee_id actor_id now users tasks
                = (Ok task', tasks')
                /\ Task._assignee_id task' = Some assignee_id
                /\ TaskRepository.get_by_id task_id tasks' = Some task'))
    /\ (forall any_task_id any_assignee_id now,
          User.is_admin actor = false ->
          exists e,
            TaskService.assign_task any_task_id any_assignee_id actor_id now users tasks
            = (Raise e, tasks)).
Proof.
  intros users tasks task_id actor_id task actor Hwfu Hwft Ht Ha allowed.
  pose proof (can_modify_task_spec users actor_id actor task Ha) as Hmod.
  pose proof (can_comment_on_task_spec users actor_id actor task Ha) as Hcom.
  destruct (Hwfu _ _ Ha) as [_ Htruthy].
  fold allowed in Hmod, Hcom.
  split; [exact Hmod |]. split; [exact Hcom |].
  split; [| split; [| split]].
  - intros new_status now. unfold TaskService.update_task_status.
    rewrite Ht, Htruthy. simpl. split.
    + intros Hno.
      destruct (TaskService._can_modify_task actor_id task users) eqn:E;
        [exfalso; apply Hno, Hmod; reflexivity | reflexivity].
    + intros Hyes Htrans. apply Hmod in Hyes. rewrite Hyes. simpl.
      unfold Task.update_status.
      assert (Hg : bool_decide (Task._status task = DONE)
                   && negb (bool_decide (new_status = DONE)) = false).
      { destruct Htrans as [Hnd | ->].
        - rewrite (bool_decide_eq_false_2 _ Hnd). reflexivity.
        - rewrite (bool_decide_eq_true_2 _ eq_refl). apply andb_false_r. }
      rewrite Hg.
      rewrite (task_save_held _ task _ _ Hwft Ht) by reflexivity.
      eexists _, _. split; [reflexivity |]. split; [reflexivity |].
      apply task_get_write_through.
  - intros content uuid now1 now2. unfold TaskService.add_task_comment.
    rewrite Ht, Ha. split.
    + intros Hno.
      destruct (TaskService._can_comment_on_task actor_id task users) eqn:E;
        [exfalso; apply Hno, Hcom; reflexivity | reflexivity].
    + intros Hyes Hcontent. apply Hcom in Hyes. rewrite Hyes. simpl.
      unfold Task.add_comment. rewrite Hcontent. simpl.
      rewrite (task_save_held _ task _ _ Hwft Ht) by reflexivity.
      eexists _, _. split; [reflexivity |]. split; [reflexivity |].
      apply task_get_write_through.
  - intros assignee_id assignee now Has. unfold TaskService.assign_task.
    rewrite Ht, Has. unfold TaskService._can_assign_task. rewrite Ha. split.
    + intros ->. reflexivity.
    + intros ->. simpl.
      rewrite (task_save_held _ task _ _ Hwft Ht) by reflexivity.
      eexists _, _. split; [reflexivity |]. split; [reflexivity |].
      apply task_get_write_through.
  - intros any_task_id any_assignee_id now Hna. unfold TaskService.assign_task.
    destruct (TaskService.get_task any_task_id tasks); [| eexists; reflexivity].
    destruct (UserRepository.get_by_id any_assignee_id users);
      [| eexists; reflexivity].
    unfold TaskService._can_assign_task. rewrite Ha, Hna. simpl.
    eexists; reflexivity.
Qed.

Lemma one_task_wf : tasks_wf Sample.one_task.
Proof.
  intros k x. simpl. repeat case_bool_decide; intros [= <-]; subst;
    split; reflexivity.
Qed.

(** The scenario of the specification: B, a standard user and the assignee,
    moves the task to InProgress; B may not reassign it; A, an Admin, may. *)
Lemma C5_witness :
  (exists task' tasks',
     TaskService.update_task_status "t1" IN_PROGRESS (Some "u2") 7%Z
       Sample.one_admin Sample.one_task = (Ok task', tasks')
     /\ Task._status task' = IN_PROGRESS
     /\ TaskRepository.get_by_id "t1" tasks' = Some task')
  /\ TaskService.assign_task "t1" "u1" "u2" 8%Z Sample.one_admin Sample.one_task
     = (Raise (PermissionError "User does not have permission to assign this task"),
        Sample.one_task)
  /\ (exists task' tasks',
        TaskService.assign_task "t1" "u1" "u1" 9%Z Sample.one_admin Sample.one_task
        = (Ok task', tasks')
        /\ Task._assignee_id task' = Some "u1"
        /\ TaskRepository.get_by_id "t1" tasks' = Some task').
Proof.
  pose proof (C5_task_authorisation Sample.one_admin Sample.one_task "t1" "u2"
                Sample.task1 (Sample.user "u2" "bob" USER)
                one_admin_wf one_task_wf eq_refl eq_refl)
    as (_ & _ & Hupd & _ & Hassign_b & _).
  pose proof (C5_task_authorisation Sample.one_admin Sample.one_task "t1" "u1"
                Sample.task1 (Sample.user "u1" "alice" ADMIN)
                one_admin_wf one_task_wf eq_refl eq_refl)
    as (_ & _ & _ & _ & Hassign_a & _).
  split; [| split].
  - apply (proj2 (Hupd IN_PROGRESS 7%Z)).
    + right; reflexivity.
    + left; discriminate.
  - apply (proj1 (Hassign_b "u1" (Sample.user "u1" "alice" ADMIN) 8%Z eq_refl)).
    reflexivity.
  - apply (proj2 (Hassign_a "u1" (Sample.user "u1" "alice" ADMIN) 9%Z eq_refl)).
    reflexivity.
Defined.

(** ** Creating users *)

Lemma validate_username_short (username : string) :
  (Str.len username < 3)%nat ->
  User._validate_username username
  = Raise (ValidationError "Username must be at least 3 characters").
Proof.
  intros Hlen. unfold User._validate_username.
  apply Nat.ltb_lt in Hlen. rewrite Hlen, orb_true_r. reflexivity.
Qed.

(** The constructor rejects a username of fewer than 3 characters with
    ValidationError; the service reports the same message as a ValueError,
    unless it has already reported a duplicate. *)
Lemma create_user_short_username `{Crypto} (username email password : string)
    (role : UserRole) (salt : string) (now : datetime) (repo : UserRepository.t) :
  (Str.len username < 3)%nat ->
  User.__init__ username email password role salt now
  = Raise (ValidationError "Username must be at least 3 characters")
  /\ exists e, UserService.create_user username email password role salt now repo
               = (Raise e, repo).
Proof.
  intros Hlen. unfold UserService.create_user, User.__init__.
  rewrite (validate_username_short _ Hlen). split; [reflexivity |].
  destruct (UserRepository.get_by_username username repo); [eexists; reflexivity |].
  destruct (UserRepository.get_by_email email repo); eexists; reflexivity.
Qed.

(** A username or an email that is stored in exactly the form given is
    reported as a duplicate. *)
Lemma create_user_exact_duplicate `{Crypto} (username email password : string)
    (role : UserRole) (salt : string) (now : datetime) (repo : UserRepository.t) :
  (forall u, UserRepository.get_by_username username repo = Some u ->
     UserService.create_user username email password role salt now repo
     = (Raise (ValueError ("Username '" ++ username ++ "' already exists")), repo))
  /\ (forall u, UserRepository.get_by_username username repo = None ->
        UserRepository.get_by_email email repo = Some u ->
        UserService.create_user username email password role salt now repo
        = (Raise (ValueError ("Email '" ++ email ++ "' already exists")), repo)).
Proof.
  unfold UserService.create_user. split.
  - intros u ->. reflexivity.
  - intros u -> ->. reflexivity.
Qed.

(** C7, on the code.  The duplicate test compares the stored, lowered
    names with the text as typed, and the length test precedes the
    stripping.  So the username "Alice" can be registered twice, both users
    being stored as "alice"; and the username made of two spaces and "a" is
    accepted and stored as "a", one character long. *)
Theorem C7_create_user_on_raw_text :
  forall `{Crypto} (salt1 salt2 : string) (now1 now2 : datetime),
    let first := UserService.create_user "Alice" "a@x.com" "password123" USER
                   salt1 now1 UserRepository.empty in
    let second := UserService.create_user "Alice" "b@x.com" "password123" USER
                    salt2 now2 (snd first) in
    let padded := UserService.create_user "  a" "c@x.com" "password123" USER
                    salt1 now1 UserRepository.empty in
    is_ok (fst first) = true
    /\ is_ok (fst second) = true
    /\ map User._username (UserRepository.get_all (snd second)) = ["alice"; "alice"]
    /\ is_ok (fst padded) = true
    /\ map User._username (UserRepository.get_all (snd padded)) = ["a"].
Proof. intros H salt1 salt2 now1 now2. vm_compute. repeat split; reflexivity. Qed.

(** ** Serialization *)

Lemma role_of_role_value (r : UserRole) :
  UserSerial.role_of_value (VStr (UserSerial.role_value r)) = Ok r.
Proof. destruct r; reflexivity. Qed.





(** ** Failures of the service methods

    One lemma per service: a call that ends with an exception leaves the
    stored entities as they were. *)






Lemma project_write_through_same (k : string) (x : Project.t)
    (repo : ProjectRepository.t) :
  ProjectRepository.get_by_id k repo = Some x ->
  ProjectRepository.write_through k x repo = repo.
Proof.
  unfold ProjectRepository.get_by_id, ProjectRepository.write_through. intros Hg.
  rewrite (dict_set_same _ _ _ Hg). destruct repo; reflexivity.
Qed.


Lemma project_ops_keep_id (x : Project.t) :
  (forall s now, Project._id (Project.update_status s now x) = Project._id x)
  /\ (forall task now, Project._id (Project.add_task task now x) = Project._id x)
  /\ (forall task now, Project._id (Project.remove_task task now x) = Project._id x)
  /\ (forall u now, Project._id (Project.add_team_member u now x) = Project._id x)
  /\ (forall u now, Project._id (Project.remove_team_member u now x) = Project._id x)
  /\ (forall t d due uuid now,
        Project._id (snd (Project.add_milestone t d due uuid now x)) = Project._id x)
  /\ (forall m now1 now2,
        Project._id (snd (Project.complete_milestone m now1 now2 x)) = Project._id x).
Proof.
  split; [reflexivity |].
  split; [intros; unfold Project.add_task; destruct (negb _); reflexivity |].
  split; [intros; unfold Project.remove_task;
          destruct (Project.task_in _ _); reflexivity |].
  split; [intros; unfold Project.add_team_member; destruct (negb _); reflexivity |].
  split; [intros; unfold Project.remove_team_member;
          destruct (Str.mem _ _); reflexivity |].
  split; [reflexivity |].
  intros. unfold Project.complete_milestone.
  destruct (Project.complete_in _ _ _); reflexivity.
Qed.









(** ** Records that read back: tasks, teams and projects

    For the three entities other than [User], [from_dict] after [to_dict]
    returns the entity, field by field, provided the timestamp format is
    lawful and the title or name is one that the entity's own validation
    returns unchanged, as it is for every object made by the constructor
    or the setter. *)

Section ReadBack.
Context `{IsoFormat}.
Hypothesis lawful : IsoFormat_lawful.

Lemma traverse_map {A} (f : value -> result A) (g : A -> value) (l : list A) :
  (forall x, In x l -> f (g x) = Ok x) ->
  Record.traverse f (map g l) = Ok l.
Proof.
  induction l as [| x l IH]; simpl; intros Hf; [reflexivity |].
  rewrite (Hf x) by (left; reflexivity). simpl.
  rewrite IH by (intros y Hy; apply Hf; right; exact Hy). reflexivity.
Qed.

Lemma as_str_list_of (l : list string) :
  Record.as_str_list (Record.of_str_list l) = Ok l.
Proof.
  unfold Record.as_str_list, Record.of_str_list. simpl.
  apply traverse_map. reflexivity.
Qed.

Lemma as_opt_str_of (o : option string) :
  Record.as_opt_str (Record.of_opt_str o) = Ok o.
Proof. destruct o; reflexivity. Qed.

Lemma parse_datetime_isoformat (d : datetime) :
  Record.parse_datetime (VStr (isoformat d)) = Ok d.
Proof.
  unfold Record.parse_datetime. simpl. rewrite (proj2 lawful). reflexivity.
Qed.

Lemma parse_opt_datetime_of (o : option datetime) :
  Record.parse_opt_datetime (Record.of_opt_datetime o) = Ok o.
Proof.
  destruct o as [d |]; simpl; [| reflexivity].
  rewrite (proj1 lawful), parse_datetime_isoformat. reflexivity.
Qed.

Lemma task_status_of_value (s : TaskStatus) :
  TaskSerial.status_of_value (VStr (TaskSerial.status_value s)) = Ok s.
Proof. destruct s; reflexivity. Qed.

Lemma task_priority_of_value (p : TaskPriority) :
  TaskSerial.priority_of_value (VInt (TaskSerial.priority_value p)) = Ok p.
Proof. destruct p; reflexivity. Qed.

Lemma team_role_of_value (r : TeamRole) :
  TeamSerial.role_of_value (VStr (TeamSerial.role_value r)) = Ok r.
Proof. destruct r; reflexivity. Qed.

Lemma project_status_of_value (s : ProjectStatus) :
  ProjectSerial.status_of_value (VStr (ProjectSerial.status_value s)) = Ok s.
Proof. destruct s; reflexivity. Qed.

Ltac read_back :=
  repeat first
    [ rewrite parse_datetime_isoformat
    | rewrite parse_opt_datetime_of
    | rewrite as_str_list_of
    | rewrite as_opt_str_of
    | rewrite task_status_of_value
    | rewrite task_priority_of_value
    | rewrite team_role_of_value
    | rewrite project_status_of_value
    | progress cbn [Record.bind Record.as_str Record.as_bool Record.as_list] ].

Lemma comment_read_back (c : TaskComment) :
  TaskSerial.comment_of_dict (TaskSerial.comment_to_dict c) = Ok c.
Proof.
  destruct c as [i a t d]. unfold TaskSerial.comment_of_dict, TaskSerial.comment_to_dict.
  change (Record.getitem (VDict ?l) "id") with (@Ok value (VStr i)).
  change (Record.getitem (VDict ?l) "author_id") with (@Ok value (VStr a)).
  change (Record.getitem (VDict ?l) "content") with (@Ok value (VStr t)).
  change (Record.getitem (VDict ?l) "created_at") with (@Ok value (VStr (isoformat d))).
  read_back. reflexivity.
Qed.



Lemma task_read_back (self : Task.t) (uuid : string) (now1 now2 : datetime) :
  Task._validate_title (Task._title self) = Ok (Task._title self) ->
  TaskSerial.from_dict (TaskSerial.to_dict self) uuid now1 now2 = Ok self.
Proof.
  intros Htitle. destruct self as [i t d s p a due ca ua cs tg]. simpl in Htitle.
  unfold TaskSerial.from_dict, TaskSerial.to_dict. cbn [Task._id Task._title
    Task._description Task._status Task._priority Task._assignee_id Task._due_date
    Task._created_at Task._updated_at Task._comments Task._tags].
  change (Record.getitem (VDict ?l) "title") with (@Ok value (VStr t)).
  change (Record.get (VDict ?l) "description" ?x) with (@Ok value (VStr d)).
  change (Record.get (VDict ?l) "assignee_id" ?x) with (@Ok value (Record.of_opt_str a)).
  change (Record.get (VDict ?l) "priority" ?x)
    with (@Ok value (VInt (TaskSerial.priority_value p))).
  change (Record.get (VDict ?l) "due_date" ?x)
    with (@Ok value (Record.of_opt_datetime due)).
  change (Record.getitem (VDict ?l) "id") with (@Ok value (VStr i)).
  change (Record.getitem (VDict ?l) "status")
    with (@Ok value (VStr (TaskSerial.status_value s))).
  change (Record.getitem (VDict ?l) "created_at") with (@Ok value (VStr (isoformat ca))).
  change (Record.getitem (VDict ?l) "updated_at") with (@Ok value (VStr (isoformat ua))).
  change (Record.get (VDict ?l) "tags" ?x) with (@Ok value (Record.of_str_list tg)).
  change (Record.get (VDict ?l) "comments" ?x)
    with (@Ok value (VList (map TaskSerial.comment_to_dict cs))).
  read_back. unfold Task.__init__. rewrite Htitle. read_back.
  rewrite traverse_map by (intros; apply comment_read_back).
  reflexivity.
Qed.



End ReadBack.

(** The sample timestamp format is lawful, so the read-back lemmas are not
    vacuous. *)
Lemma parse_print_pos (p : positive) :
  Sample.parse_pos (Sample.print_pos p) = Some p.
Proof.
  induction p as [q IH | q IH | ]; simpl; try reflexivity.
  - destruct (Sample.print_pos q) eqn:E; [destruct q; discriminate |].
    rewrite IH. reflexivity.
  - destruct (Sample.print_pos q) eqn:E; [destruct q; discriminate |].
    rewrite IH. reflexivity.
Qed.

Lemma sample_iso_lawful : @IsoFormat_lawful Sample.iso.
Proof.
  split; intros d.
  - destruct d; reflexivity.
  - destruct d as [| p | p]; simpl; try reflexivity;
      rewrite parse_print_pos; reflexivity.
Qed.

Example task1_reads_back :
  TaskSerial.from_dict (H := Sample.iso) (TaskSerial.to_dict (H := Sample.iso) Sample.task1)
    "fresh" 1%Z 2%Z
  = Ok Sample.task1.
Proof.
  apply (task_read_back (H := Sample.iso) sample_iso_lawful). reflexivity.
Qed.

(** ** What the record of a user holds *)








(** ** Validated titles and names are fixed points of their validation

    So the condition of the read-back property holds for every title and
    name that a constructor or a setter has stored. *)

Lemma lstrip_suffix (l : list ascii) :
  exists s, l = (s ++ Str.lstrip_list l)%list.
Proof.
  induction l as [| c l [s IH]]; simpl; [exists []; reflexivity |].
  destruct (Str.is_space c).
  - exists (c :: s). simpl. rewrite <- IH. reflexivity.
  - exists []. reflexivity.
Qed.

Lemma lstrip_head (l : list ascii) (c : ascii) (r : list ascii) :
  Str.lstrip_list l = c :: r -> Str.is_space c = false.
Proof.
  induction l as [| x l IH]; simpl; [discriminate |].
  destruct (Str.is_space x) eqn:E; [exact IH |].
  intros [= -> _]. exact E.
Qed.

Lemma lstrip_fixed (l : list ascii) :
  match l with [] => True | c :: _ => Str.is_space c = false end ->
  Str.lstrip_list l = l.
Proof. destruct l as [| c r]; simpl; [reflexivity | intros ->; reflexivity]. Qed.

Lemma lstrip_idem (l : list ascii) :
  Str.lstrip_list (Str.lstrip_list l) = Str.lstrip_list l.
Proof.
  apply lstrip_fixed. destruct (Str.lstrip_list l) as [| c r] eqn:E; [exact I |].
  exact (lstrip_head _ _ _ E).
Qed.

Lemma strip_list_idem (l : list ascii) :
  Str.strip_list (Str.strip_list l) = Str.strip_list l.
Proof.
  unfold Str.strip_list.
  set (a := Str.lstrip_list l).
  set (m := rev (Str.lstrip_list (rev a))).
  assert (Hm : Str.lstrip_list m = m).
  { apply lstrip_fixed. destruct m as [| c r] eqn:Em; [exact I |].
    destruct (lstrip_suffix (rev a)) as [s Hs].
    apply (f_equal (@rev ascii)) in Hs.
    rewrite rev_involutive, rev_app_distr in Hs. fold m in Hs.
    rewrite Em in Hs. simpl in Hs.
    apply (lstrip_head l c (r ++ rev s)%list). fold a. exact Hs. }
  rewrite Hm. unfold m. rewrite rev_involutive, lstrip_idem. reflexivity.
Qed.

Lemma strip_idem (s : string) : Str.strip (Str.strip s) = Str.strip s.
Proof.
  unfold Str.strip. rewrite list_ascii_of_string_of_list_ascii, strip_list_idem.
  reflexivity.
Qed.

Lemma validated_title_is_fixed (title title' : string) :
  Task._validate_title title = Ok title' ->
  Task._validate_title title' = Ok title'.
Proof.
  unfold Task._validate_title.
  destruct (negb (Str.truthy title) || negb (Str.truthy (Str.strip title))) eqn:E;
    [discriminate |].
  intros [= <-]. apply orb_false_iff in E. destruct E as [_ E].
  rewrite strip_idem, E. reflexivity.
Qed.

Lemma validated_team_name_is_fixed (name name' : string) :
  Team._validate_name name = Ok name' -> Team._validate_name name' = Ok name'.
Proof.
  unfold Team._validate_name.
  destruct (negb (Str.truthy name) || negb (Str.truthy (Str.strip name))) eqn:E;
    [discriminate |].
  intros [= <-]. apply orb_false_iff in E. destruct E as [_ E].
  rewrite strip_idem, E. reflexivity.
Qed.

Lemma validated_project_name_is_fixed (name name' : string) :
  Project._validate_name name = Ok name' -> Project._validate_name name' = Ok name'.
Proof.
  unfold Project._validate_name.
  destruct (negb (Str.truthy name) || negb (Str.truthy (Str.strip name))) eqn:E;
    [discriminate |].
  intros [= <-]. apply orb_false_iff in E. destruct E as [_ E].
  rewrite strip_idem, E. reflexivity.
Qed.

(** ** Stored usernames and emails are in lower case *)

Lemma lower_ascii_idem (c : ascii) :
  Str.lower_ascii (Str.lower_ascii c) = Str.lower_ascii c.
Proof.
  destruct c as [[] [] [] [] [] [] [] []]; reflexivity.
Qed.

Lemma all_lower_lower (s : string) : all_lower (list_ascii_of_string (Str.lower s)).
Proof.
  induction s as [| c s IH]; simpl; constructor; [apply lower_ascii_idem | exact IH].
Qed.

Lemma all_lower_lstrip (l : list ascii) :
  all_lower l -> all_lower (Str.lstrip_list l).
Proof.
  induction 1 as [| c l Hc Hl IH]; simpl; [constructor |].
  destruct (Str.is_space c); [exact IH | constructor; assumption].
Qed.

Lemma all_lower_rev (l : list ascii) : all_lower l -> all_lower (rev l).
Proof.
  unfold all_lower. rewrite !List.Forall_forall. intros Hl c Hin.
  apply Hl, in_rev, Hin.
Qed.

Lemma all_lower_strip (l : list ascii) : all_lower l -> all_lower (Str.strip_list l).
Proof.
  intros Hl. unfold Str.strip_list.
  apply all_lower_rev, all_lower_lstrip, all_lower_rev, all_lower_lstrip, Hl.
Qed.

Lemma lower_fixed (l : list ascii) :
  all_lower l -> Str.lower (string_of_list_ascii l) = string_of_list_ascii l.
Proof.
  induction 1 as [| c l Hc Hl IH]; simpl; [reflexivity |].
  rewrite Hc, IH. reflexivity.
Qed.

Lemma lower_idem (s : string) : Str.lower (Str.lower s) = Str.lower s.
Proof.
  induction s as [| c s IH]; simpl; [reflexivity |].
  rewrite lower_ascii_idem, IH. reflexivity.
Qed.

(** What the constructor stores as username and email is in lower case. *)
Lemma validated_user_text_is_lower (username email u e : string) :
  (User._validate_username username = Ok u -> Str.lower u = u)
  /\ (User._validate_email email = Ok e -> Str.lower e = e).
Proof.
  split.
  - unfold User._validate_username. destruct (_ || _); [discriminate |].
    intros [= <-]. unfold Str.strip.
    apply lower_fixed, all_lower_strip, all_lower_lower.
  - unfold User._validate_email. destruct (negb _); [discriminate |].
    intros [= <-]. apply lower_idem.
Qed.

(** * Further properties of the entities *)

(** ** Text: stripping and lowering commute *)

Lemma is_space_lower (c : ascii) : Str.is_space (Str.lower_ascii c) = Str.is_space c.
Proof. destruct c as [[] [] [] [] [] [] [] []]; reflexivity. Qed.

Lemma lower_as_map (s : string) :
  list_ascii_of_string (Str.lower s) = map Str.lower_ascii (list_ascii_of_string s).
Proof. induction s as [| c s IH]; simpl; [reflexivity | rewrite IH; reflexivity]. Qed.

Lemma lower_of_list (l : list ascii) :
  Str.lower (string_of_list_ascii l) = string_of_list_ascii (map Str.lower_ascii l).
Proof. induction l as [| c l IH]; simpl; [reflexivity | rewrite IH; reflexivity]. Qed.

Lemma lstrip_map_lower (l : list ascii) :
  Str.lstrip_list (map Str.lower_ascii l) = map Str.lower_ascii (Str.lstrip_list l).
Proof.
  induction l as [| c l IH]; simpl; [reflexivity |].
  rewrite is_space_lower. destruct (Str.is_space c); [exact IH | reflexivity].
Qed.

Lemma strip_list_map_lower (l : list ascii) :
  Str.strip_list (map Str.lower_ascii l) = map Str.lower_ascii (Str.strip_list l).
Proof.
  unfold Str.strip_list.
  rewrite lstrip_map_lower, <- map_rev, lstrip_map_lower, <- map_rev. reflexivity.
Qed.

Lemma strip_lower (s : string) : Str.strip (Str.lower s) = Str.lower (Str.strip s).
Proof.
  unfold Str.strip. rewrite lower_as_map, strip_list_map_lower, lower_of_list.
  reflexivity.
Qed.

Lemma normalised_tag_normal (tag : string) :
  Str.truthy (Str.lower (Str.strip tag)) = true ->
  tag_normal (Str.lower (Str.strip tag)).
Proof.
  intros Ht. split; [exact Ht |].
  rewrite strip_lower, strip_idem, lower_idem. reflexivity.
Qed.

(** ** Membership in lists of strings *)

Lemma mem_In (x : string) (l : list string) : Str.mem x l = true <-> In x l.
Proof.
  unfold Str.mem. rewrite existsb_exists. split.
  - intros (y & Hin & Hy). apply bool_decide_eq_true in Hy. subst. exact Hin.
  - intros Hin. exists x. split; [exact Hin | apply bool_decide_eq_true; reflexivity].
Qed.

Lemma mem_false (x : string) (l : list string) : Str.mem x l = false <-> ~ In x l.
Proof.
  rewrite <- mem_In. destruct (Str.mem x l); split; congruence.
Qed.

Lemma remove_first_In (x y : string) (l : list string) :
  In y (Str.remove_first x l) -> In y l.
Proof.
  induction l as [| z l IH]; simpl; [tauto |].
  case_bool_decide; simpl; tauto.
Qed.

Lemma remove_first_other (x y : string) (l : list string) :
  y <> x -> In y l -> In y (Str.remove_first x l).
Proof.
  intros Hne. induction l as [| z l IH]; simpl; [tauto |].
  case_bool_decide; simpl; intros [-> | Hin]; try tauto; congruence.
Qed.

Lemma remove_first_NoDup (x : string) (l : list string) :
  List.NoDup l -> List.NoDup (Str.remove_first x l) /\ ~ In x (Str.remove_first x l).
Proof.
  induction l as [| z l IH]; simpl; intros Hnd; [split; [constructor | tauto] |].
  inversion Hnd as [| ? ? Hnotin Hnd']; subst.
  case_bool_decide as Hz.
  - subst z. split; assumption.
  - destruct (IH Hnd') as [IH1 IH2]. split.
    + constructor; [| exact IH1]. intros Hin. apply Hnotin.
      eapply remove_first_In; exact Hin.
    + simpl. intros [Heq | Hin]; [congruence | tauto].
Qed.

Lemma remove_first_length (x : string) (l : list string) :
  In x l -> S (length (Str.remove_first x l)) = length l.
Proof.
  induction l as [| z l IH]; simpl; [tauto |].
  case_bool_decide as Hz; [reflexivity |].
  intros [Heq | Hin]; [congruence |]. simpl. rewrite (IH Hin). reflexivity.
Qed.

Lemma NoDup_snoc (x : string) (l : list string) :
  List.NoDup l -> ~ In x l -> List.NoDup (l ++ [x]).
Proof.
  intros Hnd Hx. apply NoDup_ListNoDup, NoDup_app. repeat split.
  - apply NoDup_ListNoDup; exact Hnd.
  - intros y Hy Hy'. apply list_elem_of_In in Hy.
    apply list_elem_of_singleton in Hy'. subst. contradiction.
  - apply NoDup_singleton.
Qed.

(** ** Tasks over any sequence of calls *)

Lemma step_keeps (x y : Task.t) :
  Task.step x y ->
  Task._id y = Task._id x
  /\ Task._created_at y = Task._created_at x
  /\ (Task._status x = DONE -> Task._status y = DONE)
  /\ (exists more, Task._comments y = (Task._comments x ++ more)%list)
  /\ (title_ok x -> title_ok y).
Proof.
  assert (Hnil : forall l : list TaskComment, exists more, l = (l ++ more)%list)
    by (intros l; exists []; rewrite app_nil_r; reflexivity).
  intros Hstep.
  destruct Hstep as [v now x | v now x | v now x | v now x | v now x
                    | new_status now x | author_id content uuid now1 now2 x
                    | tag now x | tag now x]; simpl.
  - unfold Task.assign_title.
    destruct (Task._validate_title v) as [title' |] eqn:E; simpl.
    + repeat split; auto. intros _. unfold title_ok. simpl.
      exact (validated_title_is_fixed _ _ E).
    + repeat split; auto.
  - repeat split; auto.
  - repeat split; auto.
  - repeat split; auto.
  - repeat split; auto.
  - unfold Task.update_status.
    destruct (bool_decide_reflect (Task._status x = DONE)) as [Hd | Hd]; simpl.
    + destruct (bool_decide_reflect (new_status = DONE)) as [-> | Hn]; simpl;
        repeat split; auto.
    + repeat split; auto. intros Hx; contradiction.
  - unfold Task.add_comment. destruct (negb _); simpl; repeat split; auto.
    eexists; reflexivity.
  - unfold Task.add_tag. destruct (_ && _); simpl; repeat split; auto.
  - unfold Task.remove_tag. destruct (Str.mem _ _); simpl; repeat split; auto.
Qed.

(** X1.  Done is final, and the identifier and the creation time are fixed:
    whatever methods and setters are called on a task afterwards, and
    whether they return or raise. *)
Theorem task_done_is_final :
  forall (x y : Task.t),
    Task.steps x y ->
    Task._id y = Task._id x
    /\ Task._created_at y = Task._created_at x
    /\ (Task._status x = DONE -> Task._status y = DONE).
Proof.
  induction 1 as [x | x y z _ IH Hstep].
  - repeat split; auto.
  - destruct IH as (Hi & Hc & Hd).
    destruct (step_keeps _ _ Hstep) as (Hi' & Hc' & Hd' & _).
    repeat split; [congruence | congruence | auto].
Qed.

Lemma task_done_is_final_witness :
  Task._status
    (Task.add_tag "Later" 3%Z
       (snd (Task.update_status TODO 2%Z (Sample.task "t" DONE LOW None None))))
  = DONE.
Proof.
  apply (task_done_is_final (Sample.task "t" DONE LOW None None)).
  - eapply Task.steps_next; [eapply Task.steps_next; [apply Task.steps_refl |] |].
    + apply (Task.step_status TODO 2%Z).
    + apply (Task.step_add_tag "Later" 3%Z).
  - reflexivity.
Defined.

(** X2.  Comments are only ever added, at the end: the comments a task has stay
    where they are, unchanged, through any sequence of calls.  A comment
    whose content is blank is refused and nothing is written; any other is
    appended with its content stripped. *)
Theorem task_comments_only_grow :
  forall (x y : Task.t),
    Task.steps x y ->
    (exists more, Task._comments y = (Task._comments x ++ more)%list)
    /\ forall author_id content uuid now1 now2,
         (Str.truthy (Str.strip content) = false ->
            Task.add_comment author_id content uuid now1 now2 y
            = (Raise (ValueError "Comment content cannot be empty"), y))
         /\ (Str.truthy (Str.strip content) = true ->
             fst (Task.add_comment author_id content uuid now1 now2 y)
             = Ok (mkTaskComment uuid author_id (Str.strip content) now1)
             /\ Task._comments (snd (Task.add_comment author_id content uuid now1 now2 y))
                = (Task._comments y
                   ++ [mkTaskComment uuid author_id (Str.strip content) now1])%list).
Proof.
  intros x y Hsteps. split.
  - induction Hsteps as [x | x y z _ [more IH] Hstep].
    + exists []. rewrite app_nil_r. reflexivity.
    + destruct (step_keeps _ _ Hstep) as (_ & _ & _ & [more' Hm] & _).
      exists (more ++ more')%list. rewrite Hm, IH, app_assoc. reflexivity.
  - intros author_id content uuid now1 now2. unfold Task.add_comment. split.
    + intros ->. reflexivity.
    + intros ->. simpl. split; reflexivity.
Qed.

Lemma task_comments_only_grow_witness :
  exists more,
    Task._comments
      (snd (Task.add_comment "u2" "  done  " "c1" 4%Z 5%Z
              (Task.assign_priority HIGH 3%Z Sample.task1)))
    = (Task._comments Sample.task1 ++ more)%list.
Proof.
  apply (task_comments_only_grow Sample.task1).
  eapply Task.steps_next; [eapply Task.steps_next; [apply Task.steps_refl |] |].
  - apply (Task.step_priority HIGH 3%Z).
  - apply (Task.step_comment "u2" "  done  " "c1" 4%Z 5%Z).
Defined.

Lemma add_tag_tags_ok (tag : string) (now : datetime) (x : Task.t) :
  tags_ok (Task._tags x) -> tags_ok (Task._tags (Task.add_tag tag now x)).
Proof.
  intros [Hnd Hall]. unfold Task.add_tag.
  destruct (Str.truthy (Str.lower (Str.strip tag))) eqn:Ht; simpl; [| split; assumption].
  destruct (Str.mem (Str.lower (Str.strip tag)) (Task._tags x)) eqn:Hm; simpl;
    [split; assumption |].
  apply mem_false in Hm. split.
  - apply NoDup_snoc; assumption.
  - apply List.Forall_app. split; [exact Hall |].
    constructor; [apply normalised_tag_normal; exact Ht | constructor].
Qed.

Lemma remove_tag_tags_ok (tag : string) (now : datetime) (x : Task.t) :
  tags_ok (Task._tags x) -> tags_ok (Task._tags (Task.remove_tag tag now x)).
Proof.
  intros [Hnd Hall]. unfold Task.remove_tag.
  destruct (Str.mem _ _); simpl; [| split; assumption].
  split; [apply remove_first_NoDup; exact Hnd |].
  rewrite List.Forall_forall in *. intros y Hy. apply Hall.
  eapply remove_first_In; exact Hy.
Qed.

Lemma step_tags_ok (x y : Task.t) :
  Task.step x y -> tags_ok (Task._tags x) -> tags_ok (Task._tags y).
Proof.
  intros Hstep.
  destruct Hstep as [v now x | v now x | v now x | v now x | v now x
                    | new_status now x | author_id content uuid now1 now2 x
                    | tag now x | tag now x]; simpl; auto.
  - unfold Task.assign_title. destruct (Task._validate_title v); simpl; auto.
  - unfold Task.update_status. destruct (_ && _); simpl; auto.
  - unfold Task.add_comment. destruct (negb _); simpl; auto.
  - apply add_tag_tags_ok.
  - apply remove_tag_tags_ok.
Qed.

(** X3.  The tags of a task are a set of normalised words: through any sequence
    of calls they stay distinct, non-empty, stripped and in lower case.
    [add_tag] adds the normalised tag unless it is blank or present (adding
    twice is adding once); [remove_tag] removes it; neither touches any
    other tag. *)
Theorem task_tags_are_a_normalised_set :
  forall (x : Task.t),
    tags_ok (Task._tags x) ->
    (forall y, Task.steps x y -> tags_ok (Task._tags y))
    /\ forall tag now,
         let n := Str.lower (Str.strip tag) in
         (Str.truthy n = true -> In n (Task._tags (Task.add_tag tag now x)))
         /\ (Str.truthy n = false -> Task.add_tag tag now x = x)
         /\ (forall now', Task.add_tag tag now' (Task.add_tag tag now x)
                          = Task.add_tag tag now x)
         /\ ~ In n (Task._tags (Task.remove_tag tag now x))
         /\ (forall other, other <> n ->
               (In other (Task._tags (Task.add_tag tag now x))
                <-> In other (Task._tags x))
               /\ (In other (Task._tags (Task.remove_tag tag now x))
                   <-> In other (Task._tags x))).
Proof.
  intros x Hok. split.
  - induction 1 as [x | x y z _ IH Hstep]; [exact Hok |].
    apply (step_tags_ok _ _ Hstep), IH, Hok.
  - intros tag now n. destruct Hok as [Hnd _].
    assert (Hadd : forall now0,
              Task._tags (Task.add_tag tag now0 x)
              = if Str.truthy n && negb (Str.mem n (Task._tags x))
                then (Task._tags x ++ [n])%list else Task._tags x).
    { intros now0. unfold Task.add_tag. fold n. destruct (_ && _); reflexivity. }
    repeat split.
    + intros Ht. rewrite Hadd, Ht. simpl.
      destruct (Str.mem n (Task._tags x)) eqn:Hm; simpl.
      * apply mem_In; exact Hm.
      * apply in_or_app. right. left. reflexivity.
    + intros Ht. unfold Task.add_tag. fold n. rewrite Ht. reflexivity.
    + intros now'. unfold Task.add_tag at 1. fold n. rewrite Hadd.
      destruct (Str.truthy n) eqn:Ht; simpl; [| reflexivity].
      destruct (Str.mem n (Task._tags x)) eqn:Hm; simpl.
      * rewrite Hm. reflexivity.
      * assert (Hin : Str.mem n (Task._tags x ++ [n]) = true)
          by (apply mem_In, in_or_app; right; left; reflexivity).
        rewrite Hin. reflexivity.
    + unfold Task.remove_tag. fold n.
      destruct (Str.mem n (Task._tags x)) eqn:Hm; simpl.
      * apply remove_first_NoDup; exact Hnd.
      * apply mem_false; exact Hm.
    + rewrite Hadd. destruct (_ && _); [| tauto].
      rewrite in_app_iff. simpl. intros [Hin | [Heq | []]]; [exact Hin | congruence].
    + rewrite Hadd. destruct (_ && _); [| tauto].
      intros Hin. apply in_or_app. left. exact Hin.
    + unfold Task.remove_tag. fold n. destruct (Str.mem _ _); simpl; [| tauto].
      apply remove_first_In.
    + unfold Task.remove_tag. fold n. destruct (Str.mem _ _); simpl; [| tauto].
      apply remove_first_other. assumption.
Qed.

Lemma task_tags_are_a_normalised_set_witness :
  Task._tags (Task.add_tag " Front-End " 2%Z (Task.add_tag "front-end" 1%Z Sample.task1))
  = ["front-end"]
  /\ tags_ok (Task._tags (Task.add_tag "API" 3%Z
                            (Task.add_tag "front-end" 1%Z Sample.task1))).
Proof.
  assert (Hok : tags_ok (Task._tags Sample.task1)) by (split; constructor).
  destruct (task_tags_are_a_normalised_set Sample.task1 Hok) as [Hsteps Hops].
  split.
  - destruct (Hops "front-end" 1%Z) as (_ & _ & Hidem & _).
    exact (f_equal Task._tags (Hidem 2%Z)).
  - apply Hsteps.
    eapply Task.steps_next; [eapply Task.steps_next; [apply Task.steps_refl |] |].
    + apply (Task.step_add_tag "front-end" 1%Z).
    + apply (Task.step_add_tag "API" 3%Z).
Defined.

Lemma init_title_ok (title description : string) (assignee_id : option string)
    (priority : TaskPriority) (due_date : option datetime) (uuid : string)
    (now1 now2 : datetime) (x : Task.t) :
  Task.__init__ title description assignee_id priority due_date uuid now1 now2 = Ok x ->
  title_ok x.
Proof.
  unfold Task.__init__.
  destruct (Task._validate_title title) as [title' |] eqn:E; [| discriminate].
  intros [= <-]. unfold title_ok. simpl. exact (validated_title_is_fixed _ _ E).
Qed.

Lemma steps_title_ok (x y : Task.t) : Task.steps x y -> title_ok x -> title_ok y.
Proof.
  induction 1 as [x | x y z _ IH Hstep]; [auto |].
  intros Hx. destruct (step_keeps _ _ Hstep) as (_ & _ & _ & _ & Ht).
  apply Ht, IH, Hx.
Qed.

Lemma truthy_strip (v : string) :
  Str.truthy (Str.strip v) = true -> Str.truthy v = true.
Proof. destruct v; [discriminate | reflexivity]. Qed.

(** X4.  A task never has a blank title: the constructor and the setter refuse
    one (the setter leaving the task as it was) and store any other title
    stripped, so through any sequence of calls the title is non-empty and
    has no space at either end. *)
Theorem task_title_never_blank :
  forall title description assignee_id priority due_date uuid now1 now2 (x y : Task.t),
    Task.__init__ title description assignee_id priority due_date uuid now1 now2 = Ok x ->
    Task.steps x y ->
    Str.truthy (Task._title y) = true
    /\ Str.strip (Task._title y) = Task._title y
    /\ (forall value now,
          Str.truthy (Str.strip value) = false ->
          Task.assign_title value now y
          = (Raise (ValueError "Task title cannot be empty"), y))
    /\ (forall value now,
          Str.truthy (Str.strip value) = true ->
          fst (Task.assign_title value now y) = Ok tt
          /\ Task._title (snd (Task.assign_title value now y)) = Str.strip value).
Proof.
  intros * Hinit Hsteps.
  pose proof (steps_title_ok _ _ Hsteps (init_title_ok _ _ _ _ _ _ _ _ _ Hinit)) as Hok.
  unfold title_ok, Task._validate_title in Hok.
  destruct (negb (Str.truthy (Task._title y))
            || negb (Str.truthy (Str.strip (Task._title y)))) eqn:E; [discriminate |].
  apply orb_false_iff in E. destruct E as [E1 E2].
  apply negb_false_iff in E1. injection Hok as Hstrip.
  split; [exact E1 |]. split; [exact Hstrip |]. split.
  - intros value now Hblank. unfold Task.assign_title, Task._validate_title.
    rewrite Hblank, orb_true_r. reflexivity.
  - intros value now Hfull. unfold Task.assign_title, Task._validate_title.
    rewrite Hfull, (truthy_strip _ Hfull). simpl. split; reflexivity.
Qed.

Lemma task_title_never_blank_witness :
  Str.truthy (Task._title (Task.add_tag "x" 3%Z Sample.task1)) = true
  /\ Task.assign_title "   " 4%Z (Task.add_tag "x" 3%Z Sample.task1)
     = (Raise (ValueError "Task title cannot be empty"),
        Task.add_tag "x" 3%Z Sample.task1).
Proof.
  assert (Hinit : Task.__init__ " Task " "" (Some "u2") MEDIUM None "t1" 0%Z 0%Z
                  = Ok Sample.task1) by reflexivity.
  assert (Hsteps : Task.steps Sample.task1 (Task.add_tag "x" 3%Z Sample.task1)).
  { eapply Task.steps_next; [apply Task.steps_refl |].
    apply (Task.step_add_tag "x" 3%Z). }
  destruct (task_title_never_blank _ _ _ _ _ _ _ _ _ _ Hinit Hsteps)
    as (Htruthy & _ & Hblank & _).
  split; [exact Htruthy | apply Hblank; reflexivity].
Defined.

(** X5.  Every task that the constructor and the methods can produce reads back
    from its record, field for field. *)
Theorem task_built_reads_back :
  forall `{IsoFormat},
    IsoFormat_lawful ->
    forall title description assignee_id priority due_date uuid now1 now2
           (x y : Task.t) uuid' now1' now2',
      Task.__init__ title description assignee_id priority due_date uuid now1 now2
      = Ok x ->
      Task.steps x y ->
      TaskSerial.from_dict (TaskSerial.to_dict y) uuid' now1' now2' = Ok y.
Proof.
  intros HI lawful * Hinit Hsteps.
  apply (task_read_back lawful).
  exact (steps_title_ok _ _ Hsteps (init_title_ok _ _ _ _ _ _ _ _ _ Hinit)).
Qed.

Lemma task_built_reads_back_witness :
  TaskSerial.from_dict (H := Sample.iso)
    (TaskSerial.to_dict (H := Sample.iso)
       (snd (Task.update_status DONE 6%Z Sample.task1))) "fresh" 7%Z 8%Z
  = Ok (snd (Task.update_status DONE 6%Z Sample.task1)).
Proof.
  apply (@task_built_reads_back Sample.iso sample_iso_lawful
           " Task " "" (Some "u2") MEDIUM None "t1" 0%Z 0%Z Sample.task1).
  - reflexivity.
  - eapply Task.steps_next; [apply Task.steps_refl |].
    apply (Task.step_status DONE 6%Z).
Defined.

(** ** Project statistics *)

Lemma status_counts_partition (l : list Task.t) :
  let count s := length (List.filter (fun task => bool_decide (Task._status task = s)) l) in
  (count TODO + count IN_PROGRESS + count REVIEW + count DONE + count CANCELLED
   = length l)%nat.
Proof.
  induction l as [| task l IH]; simpl; [reflexivity |].
  simpl in IH. destruct (Task._status task); simpl; lia.
Qed.

Lemma overdue_not_done (clock : nat -> datetime) (i : nat) (l : list Task.t) :
  (length (Project.filter_timed Task.is_overdue clock i l)
   + length (List.filter (fun task => bool_decide (Task._status task = DONE)) l)
   <= length l)%nat.
Proof.
  revert i. induction l as [| task l IH]; intros i; simpl; [lia |].
  specialize (IH (S i)). unfold Task.is_overdue at 1.
  destruct (Task._due_date task); simpl.
  - destruct (bool_decide (Task._status task = DONE)); simpl; [lia |].
    destruct (_ <? _)%Z; simpl; lia.
  - destruct (bool_decide (Task._status task = DONE)); simpl; lia.
Qed.

Lemma urgent_priority_counted (clock : nat -> datetime) (i : nat) (l : list Task.t) :
  (length (List.filter (fun task => bool_decide (Task._priority task = URGENT)) l)
   <= length (Project.filter_timed Task.is_urgent clock i l) <= length l)%nat.
Proof.
  revert i. induction l as [| task l IH]; intros i; simpl; [lia |].
  specialize (IH (S i)).
  destruct (bool_decide_reflect (Task._priority task = URGENT)) as [Hu | Hu].
  - assert (Hurgent : Task.is_urgent (clock i) task = true)
      by (unfold Task.is_urgent; rewrite (bool_decide_eq_true_2 _ Hu); reflexivity).
    rewrite Hurgent. simpl. lia.
  - destruct (Task.is_urgent (clock i) task); simpl; lia.
Qed.

(** X6.  The statistics of a project are consistent whatever the clock reads:
    the five status counts add up to the total, which is the number of
    tasks; no task counted as overdue is Done; every task of priority
    Urgent is counted as urgent. *)
Theorem project_statistics_consistent :
  forall (clock : nat -> datetime) (p : Project.t),
    exists total todo in_progress review done cancelled overdue urgent,
      Project.get_task_statistics clock p
      = [("total", total); ("todo", todo); ("in_progress", in_progress);
         ("review", review); ("done", done); ("cancelled", cancelled);
         ("overdue", overdue); ("urgent", urgent)]
      /\ total = length (Project._tasks p)
      /\ (todo + in_progress + review + done + cancelled = total)%nat
      /\ (overdue + done <= total)%nat
      /\ (urgent <= total)%nat
      /\ (length (List.filter (fun task => bool_decide (Task._priority task = URGENT))
                    (Project._tasks p)) <= urgent)%nat.
Proof.
  intros clock p. unfold Project.get_task_statistics.
  do 8 eexists. split; [reflexivity |]. split; [reflexivity |].
  split; [apply status_counts_partition |].
  split; [apply overdue_not_done |].
  unfold Project.get_urgent_tasks.
  split; apply urgent_priority_counted.
Qed.

(** ** Project milestones *)

Lemma complete_in_None (milestone_id : string) (now : datetime)
    (l : list ProjectMilestone) :
  Project.complete_in milestone_id now l = None
  <-> forall m, In m l -> ms_id m <> milestone_id.
Proof.
  induction l as [| m l IH]; simpl; [split; [intros _ m [] | reflexivity] |].
  case_bool_decide as Hm.
  - split; [discriminate |]. intros Hall. exfalso. apply (Hall m); auto.
  - destruct (Project.complete_in milestone_id now l) as [r |].
    + split; [discriminate |]. intros Hall.
      assert (Hnone : Some r = None)
        by (apply IH; intros m' Hin; apply Hall; right; exact Hin).
      discriminate.
    + split; [| reflexivity]. intros _ m' [<- | Hin]; [exact Hm |].
      apply (proj1 IH eq_refl). exact Hin.
Qed.

Lemma complete_in_Some (milestone_id : string) (now : datetime)
    (l r : list ProjectMilestone) :
  Project.complete_in milestone_id now l = Some r ->
  exists before m after,
    l = (before ++ m :: after)%list
    /\ ms_id m = milestone_id
    /\ (forall m', In m' before -> ms_id m' <> milestone_id)
    /\ r = (before
            ++ mkProjectMilestone (ms_id m) (ms_title m) (ms_description m)
                 (ms_due_date m) true (Some now) :: after)%list.
Proof.
  revert r. induction l as [| m l IH]; simpl; intros r; [discriminate |].
  case_bool_decide as Hm.
  - intros [= <-]. exists [], m, l. repeat split; auto; intros m' [].
  - destruct (Project.complete_in milestone_id now l) as [r' |]; [| discriminate].
    intros [= <-]. destruct (IH r' eq_refl) as (before & m0 & after & -> & Hid & Hb & ->).
    exists (m :: before), m0, after. repeat split; auto.
    intros m' [<- | Hin]; [exact Hm | apply Hb; exact Hin].
Qed.

(** X7.  [complete_milestone] reports whether a milestone with the given id
    exists.  If none does, it returns False and the project is untouched;
    otherwise the first such milestone, and only that one, is marked
    completed with the clock reading as completion time (also when it was
    completed before), and the update time is refreshed.  A milestone just
    added under a fresh id can be completed. *)
Theorem project_complete_milestone_marks_first :
  forall (p : Project.t) (milestone_id : string) (now1 now2 : datetime),
    let r := Project.complete_milestone milestone_id now1 now2 p in
    (fst r = false <-> forall m, In m (Project._milestones p) -> ms_id m <> milestone_id)
    /\ (fst r = false -> snd r = p)
    /\ (fst r = true ->
        Project._updated_at (snd r) = now2
        /\ Project._tasks (snd r) = Project._tasks p
        /\ exists before m after,
             Project._milestones p = (before ++ m :: after)%list
             /\ ms_id m = milestone_id
             /\ (forall m', In m' before -> ms_id m' <> milestone_id)
             /\ Project._milestones (snd r)
                = (before
                   ++ mkProjectMilestone (ms_id m) (ms_title m) (ms_description m)
                        (ms_due_date m) true (Some now1) :: after)%list)
    /\ (forall title description due_date now,
          fst (Project.complete_milestone milestone_id now1 now2
                 (snd (Project.add_milestone title description due_date
                         milestone_id now p))) = true).
Proof.
  intros p milestone_id now1 now2 r. subst r. unfold Project.complete_milestone.
  split; [| split; [| split]].
  - rewrite <- (complete_in_None milestone_id now1).
    destruct (Project.complete_in _ _ _); simpl; split; congruence.
  - destruct (Project.complete_in _ _ _); simpl; [discriminate | reflexivity].
  - destruct (Project.complete_in _ _ _) as [l |] eqn:E; simpl; [| discriminate].
    intros _. split; [reflexivity |]. split; [reflexivity |].
    exact (complete_in_Some _ _ _ _ E).
  - intros title description due_date now. simpl.
    destruct (Project.complete_in milestone_id now1 _) as [l |] eqn:E; [reflexivity |].
    exfalso. pose proof (proj1 (complete_in_None _ _ _) E) as Hnone.
    apply (Hnone (mkProjectMilestone milestone_id (Str.strip title)
                    (Str.strip description) due_date false None));
      [apply in_or_app; right; left; reflexivity | reflexivity].
Qed.

(** ** The roster of a project *)

Lemma built_roster_NoDup (p : Project.t) :
  Project.built p -> List.NoDup (Project._team_members p).
Proof.
  induction 1 as
    [name description owner_id uuid now1 now2 p Hinit
    | | task now p _ IH | task now p _ IH
    | | milestone_id now1 now2 p _ IH
    | user_id now p _ IH | user_id now p _ IH
    | v now p _ IH | | | l p _ IH Hids]; simpl; try assumption.
  - unfold Project.__init__ in Hinit.
    destruct (Project._validate_name name); [| discriminate].
    injection Hinit as <-. constructor.
  - unfold Project.add_task. destruct (negb _); simpl; exact IH.
  - unfold Project.remove_task. destruct (Project.task_in _ _); simpl; exact IH.
  - unfold Project.complete_milestone.
    destruct (Project.complete_in _ _ _); simpl; exact IH.
  - unfold Project.add_team_member.
    destruct (Str.mem user_id (Project._team_members p)) eqn:Hm; simpl; [exact IH |].
    apply NoDup_snoc; [exact IH | apply mem_false; exact Hm].
  - unfold Project.remove_team_member.
    destruct (Str.mem _ _); simpl; [| exact IH].
    apply remove_first_NoDup; exact IH.
  - unfold Project.assign_name.
    destruct (Project._validate_name v); simpl; exact IH.
Qed.

(** X8.  The roster of a project holds each user id at most once, whatever
    sequence of calls produced the project.  [add_team_member] makes the
    user a member (adding twice is adding once), [remove_team_member] makes
    the user a non-member, and neither changes the membership of anyone
    else. *)
Theorem project_roster_is_a_set :
  forall (p : Project.t),
    Project.built p ->
    List.NoDup (Project._team_members p)
    /\ forall user_id now,
         In user_id (Project._team_members (Project.add_team_member user_id now p))
         /\ ~ In user_id
                (Project._team_members (Project.remove_team_member user_id now p))
         /\ (forall now', Project.add_team_member user_id now'
                            (Project.add_team_member user_id now p)
                          = Project.add_team_member user_id now p)
         /\ (forall other, other <> user_id ->
               (In other (Project._team_members (Project.add_team_member user_id now p))
                <-> In other (Project._team_members p))
               /\ (In other
                     (Project._team_members (Project.remove_team_member user_id now p))
                   <-> In other (Project._team_members p))).
Proof.
  intros p Hb. pose proof (built_roster_NoDup p Hb) as Hnd.
  split; [exact Hnd |]. intros user_id now.
  unfold Project.add_team_member, Project.remove_team_member.
  destruct (Str.mem user_id (Project._team_members p)) eqn:Hm; simpl.
  - apply mem_In in Hm as Hin. rewrite Hm. simpl.
    split; [exact Hin |].
    split; [apply remove_first_NoDup; exact Hnd |].
    split; [reflexivity |].
    intros other Hne. split; [tauto |]. split.
    + apply remove_first_In.
    + apply remove_first_other; exact Hne.
  - apply mem_false in Hm as Hnotin.
    assert (Hnow : Str.mem user_id (Project._team_members p ++ [user_id]) = true)
      by (apply mem_In, in_or_app; right; left; reflexivity).
    rewrite Hnow. simpl.
    split; [apply in_or_app; right; left; reflexivity |].
    split; [exact Hnotin |].
    split; [reflexivity |].
    intros other Hne. split; [| tauto].
    rewrite in_app_iff. simpl. split; [intros [H | [H | []]]; congruence | auto].
Qed.

Lemma project_roster_is_a_set_witness :
  List.NoDup (Project._team_members
                (Project.add_team_member "u2" 2%Z
                   (Project.add_team_member "u2" 1%Z Sample.project0)))
  /\ ~ In "u2" (Project._team_members
                  (Project.remove_team_member "u2" 3%Z
                     (Project.add_team_member "u2" 1%Z Sample.project0))).
Proof.
  assert (Hb0 : Project.built Sample.project0)
    by (apply (Project.built_init "Project" "" None "p1" 0%Z 0%Z); reflexivity).
  split.
  - apply (project_roster_is_a_set _
             (Project.built_add_team_member "u2" 2%Z _
                (Project.built_add_team_member "u2" 1%Z _ Hb0))).
  - apply (project_roster_is_a_set _ (Project.built_add_team_member "u2" 1%Z _ Hb0)).
Defined.

(** ** Progress without completed tasks *)

Lemma zero_ratio_percentage (y : spec_float) :
  match PyFloat.to_int
          (PyFloat.mul_int (SFdiv PyFloat.prec PyFloat.emax (PyFloat.of_int 0) y) 100)
  with
  | Some n => n = 0%Z
  | None => True
  end.
Proof. destruct y as [s | s | | s m e]; vm_compute; auto; destruct s; auto. Qed.

(** X9.  A project none of whose tasks is Done has progress 0, however many
    tasks it has. *)
Theorem project_progress_zero_without_done :
  forall (p : Project.t),
    Project.get_tasks_by_status DONE p = [] ->
    Project.get_progress_percentage p = 0%Z.
Proof.
  intros p Hnone. unfold Project.get_progress_percentage.
  destruct (Project._tasks p) as [| task l] eqn:E; [reflexivity |].
  rewrite Hnone. simpl length at 1. unfold PyFloat.truediv.
  change (Z.of_nat 0) with 0%Z.
  pose proof (zero_ratio_percentage
                (PyFloat.of_int (Z.of_nat (length (task :: l))))) as Hz.
  destruct (PyFloat.to_int _); [exact Hz | reflexivity].
Qed.

Lemma project_progress_zero_without_done_witness :
  Project.get_progress_percentage (Sample.project (Sample.tasks 0 7 0)) = 0%Z.
Proof.
  apply project_progress_zero_without_done. reflexivity.
Defined.

(** ** Team members *)

Lemma is_member_In (user_id : string) (x : Team.t) :
  Team.is_member user_id x = true
  <-> In user_id (map member_user_id (Team._members x)).
Proof.
  unfold Team.is_member. rewrite existsb_exists, in_map_iff.
  unfold Team.has_user_id.
  split; intros (m & H1 & H2); exists m.
  - apply bool_decide_eq_true in H2. auto.
  - split; [exact H2 | apply bool_decide_eq_true; exact H1].
Qed.

Lemma is_member_role (user_id : string) (l : list TeamMember) :
  existsb (Team.has_user_id user_id) l = true
  <-> exists role, Team.get_member_role_in user_id l = Some role.
Proof.
  induction l as [| m l IH]; simpl.
  - split; [discriminate | intros [role H]; discriminate].
  - destruct (Team.has_user_id user_id m); simpl; [| exact IH].
    split; [intros _; eexists; reflexivity | reflexivity].
Qed.

Lemma role_in_app (user_id : string) (l l' : list TeamMember) :
  Team.get_member_role_in user_id (l ++ l')
  = match Team.get_member_role_in user_id l with
    | Some role => Some role
    | None =>
        if existsb (Team.has_user_id user_id) l
        then None else Team.get_member_role_in user_id l'
    end.
Proof.
  induction l as [| m l IH]; simpl; [reflexivity |].
  destruct (Team.has_user_id user_id m); simpl; [reflexivity | exact IH].
Qed.

Lemma pop_ids (user_id : string) (l : list TeamMember) (i : nat) :
  Team.index_of user_id l = Some i ->
  (forall other, other <> user_id ->
     Team.get_member_role_in other (Team.pop i l) = Team.get_member_role_in other l
     /\ existsb (Team.has_user_id other) (Team.pop i l)
        = existsb (Team.has_user_id other) l)
  /\ (members_ok l ->
      members_ok (Team.pop i l)
      /\ existsb (Team.has_user_id user_id) (Team.pop i l) = false).
Proof.
  revert i. induction l as [| m l IH]; simpl; intros i; [discriminate |].
  unfold Team.has_user_id at 1.
  case_bool_decide as Hm.
  - intros [= <-]. simpl. split.
    + intros other Hne. unfold Team.has_user_id.
      rewrite bool_decide_eq_false_2 by congruence. split; reflexivity.
    + intros [Hnd Hall]. simpl in Hnd.
      inversion Hnd as [| ? ? Hnotin Hnd']; subst.
      inversion Hall as [| ? ? Hp Hall']; subst.
      split; [split; assumption |].
      destruct (existsb _ l) eqn:E; [| reflexivity].
      exfalso. apply Hnotin.
      apply existsb_exists in E. destruct E as (m' & Hin & Hm').
      unfold Team.has_user_id in Hm'. apply bool_decide_eq_true in Hm'.
      apply in_map_iff. exists m'. auto.
  - destruct (Team.index_of user_id l) as [j |]; [| discriminate].
    intros [= <-]. destruct (IH j eq_refl) as [IH1 IH2]. simpl. split.
    + intros other Hne. destruct (IH1 other Hne) as [-> ->]. split; reflexivity.
    + intros [Hnd Hall]. simpl in Hnd.
      inversion Hnd as [| ? ? Hnotin Hnd']; subst.
      inversion Hall as [| ? ? Hp Hall']; subst.
      destruct (IH2 (conj Hnd' Hall')) as [[Hnd2 Hall2] Hgone].
      split.
      * split; [| constructor; assumption]. simpl. constructor; [| exact Hnd2].
        intros Hin. apply Hnotin.
        apply in_map_iff in Hin. destruct Hin as (m' & Hid & Hin).
        destruct (bool_decide_reflect (member_user_id m = user_id)) as [He | He];
          [contradiction |].
        destruct (IH1 (member_user_id m) He) as [_ Hex].
        assert (Hp' : existsb (Team.has_user_id (member_user_id m)) (Team.pop j l) = true).
        { apply existsb_exists. exists m'. split; [exact Hin |].
          unfold Team.has_user_id. apply bool_decide_eq_true. exact Hid. }
        rewrite Hex in Hp'. apply existsb_exists in Hp'.
        destruct Hp' as (m2 & Hin2 & Hm2).
        unfold Team.has_user_id in Hm2. apply bool_decide_eq_true in Hm2.
        apply in_map_iff. exists m2. auto.
      * unfold Team.has_user_id at 1.
        rewrite (bool_decide_eq_false_2 _ Hm). simpl. exact Hgone.
Qed.

Lemma promote_in_spec (user_id : string) (new_role : TeamRole) (l : list TeamMember) :
  match Team.promote_in user_id new_role l with
  | None => existsb (Team.has_user_id user_id) l = false
  | Some l' =>
      existsb (Team.has_user_id user_id) l = true
      /\ map member_user_id l' = map member_user_id l
      /\ length l' = length l
      /\ Team.get_member_role_in user_id l' = Some new_role
      /\ (forall permission,
            Team.has_permission_in user_id permission l'
            = Str.mem permission (Team._get_default_permissions new_role))
      /\ (forall other, other <> user_id ->
            Team.get_member_role_in other l' = Team.get_member_role_in other l)
      /\ (members_ok l -> members_ok l')
  end.
Proof.
  induction l as [| m l IH]; simpl; [reflexivity |].
  unfold Team.has_user_id at 1 2. case_bool_decide as Hm; simpl.
  - unfold Team.has_user_id. simpl. rewrite (bool_decide_eq_true_2 _ Hm).
    split; [reflexivity |]. split; [reflexivity |]. split; [reflexivity |].
    split; [reflexivity |]. split; [reflexivity |]. split.
    + intros other Hne.
      rewrite bool_decide_eq_false_2 by congruence. reflexivity.
    + intros [Hnd Hall]. split; [exact Hnd |].
      inversion Hall; subst. constructor; [reflexivity | assumption].
  - assert (Hnot : Team.has_user_id user_id m = false)
      by (unfold Team.has_user_id; apply bool_decide_eq_false_2; exact Hm).
    rewrite Hnot.
    destruct (Team.promote_in user_id new_role l) as [l' |]; [| exact IH].
    destruct IH as (H1 & H2 & H3 & H4 & H5 & H6 & H7). simpl. rewrite Hnot.
    split; [exact H1 |]. split; [rewrite H2; reflexivity |].
    split; [rewrite H3; reflexivity |]. split; [exact H4 |].
    split; [exact H5 |]. split.
    + intros other Hne. destruct (Team.has_user_id other m); [reflexivity | auto].
    + intros [Hnd Hall]. simpl in Hnd.
      inversion Hnd; inversion Hall; subst.
      destruct H7 as [Hnd7 Hall7]; [split; assumption |].
      split; [simpl; rewrite H2; constructor; assumption |].
      constructor; assumption.
Qed.

Lemma add_member_members_ok (user_id : string) (role : TeamRole)
    (now1 now2 : datetime) (x : Team.t) :
  members_ok (Team._members x) ->
  members_ok (Team._members (snd (Team.add_member user_id role now1 now2 x))).
Proof.
  intros [Hnd Hall]. unfold Team.add_member.
  destruct (Team.is_member user_id x) eqn:Hm; simpl; [split; assumption |].
  split.
  - rewrite map_app. simpl. apply NoDup_snoc; [exact Hnd |].
    intros Hin. apply is_member_In in Hin. congruence.
  - apply List.Forall_app. split; [exact Hall |]. constructor; [reflexivity | constructor].
Qed.

Lemma team_built_members_ok (x : Team.t) :
  Team.built x -> members_ok (Team._members x).
Proof.
  induction 1 as
    [name description leader_id uuid now1 now2 x Hinit
    | user_id role now1 now2 x _ IH | user_id now x _ IH
    | user_id new_role now x _ IH
    | project_id now x _ IH | project_id now x _ IH
    | v now x _ IH | v now x _ IH | v now x _ IH].
  - unfold Team.__init__ in Hinit.
    destruct (Team._validate_name name); [| discriminate].
    injection Hinit as <-. split; constructor.
  - apply add_member_members_ok; exact IH.
  - unfold Team.remove_member.
    destruct (Team.index_of user_id (Team._members x)) as [i |] eqn:E; simpl;
      [| exact IH].
    destruct (bool_decide _); simpl; [exact IH |].
    apply (pop_ids _ _ _ E); exact IH.
  - unfold Team.promote_member.
    pose proof (promote_in_spec user_id new_role (Team._members x)) as Hp.
    destruct (Team.promote_in _ _ _); simpl; [| exact IH].
    apply Hp; exact IH.
  - unfold Team.add_project. destruct (negb _); simpl; exact IH.
  - unfold Team.remove_project. destruct (Str.mem _ _); simpl; exact IH.
  - exact IH.
  - unfold Team.assign_name. destruct (Team._validate_name v); simpl; exact IH.
  - exact IH.
Qed.

Lemma permission_by_role (user_id permission : string) (l : list TeamMember) :
  List.Forall
    (fun m => member_permissions m = Team._get_default_permissions (member_role m)) l ->
  Team.has_permission_in user_id permission l
  = match Team.get_member_role_in user_id l with
    | Some role => Str.mem permission (Team._get_default_permissions role)
    | None => false
    end.
Proof.
  induction 1 as [| m l Hm Hl IH]; simpl; [reflexivity |].
  destruct (Team.has_user_id user_id m); [rewrite Hm; reflexivity | exact IH].
Qed.

(** X10.  In every team that the constructor and the methods can produce, a user
    is on the member list at most once, and what a user may do is decided
    by the user's current role: [has_permission] holds exactly for the
    default permissions of that role, and for nobody who is not a
    member. *)
Theorem team_members_unique_and_permitted_by_role :
  forall (x : Team.t),
    Team.built x ->
    List.NoDup (map member_user_id (Team._members x))
    /\ forall user_id permission,
         Team.has_permission user_id permission x
         = match Team.get_member_role user_id x with
           | Some role => Str.mem permission (Team._get_default_permissions role)
           | None => false
           end.
Proof.
  intros x Hb. destruct (team_built_members_ok x Hb) as [Hnd Hall].
  split; [exact Hnd |]. intros user_id permission.
  apply permission_by_role. exact Hall.
Qed.

Lemma team_members_unique_and_permitted_by_role_witness :
  Team.has_permission "u2" "team.manage"
    (snd (Team.promote_member "u2" LEADER 3%Z
            (snd (Team.add_member "u2" MEMBER 1%Z 2%Z (Sample.team (Some "u1") [])))))
  = true.
Proof.
  assert (Hb : Team.built (Sample.team (Some "u1") []))
    by (apply (Team.built_init "Team" "" (Some "u1") "team1" 0%Z 0%Z); reflexivity).
  destruct (team_members_unique_and_permitted_by_role _
              (Team.built_promote_member "u2" LEADER 3%Z _
                 (Team.built_add_member "u2" MEMBER 1%Z 2%Z _ Hb))) as [_ Hperm].
  rewrite Hperm. reflexivity.
Defined.

Lemma role_None_not_member (user_id : string) (l : list TeamMember) :
  Team.get_member_role_in user_id l = None
  <-> existsb (Team.has_user_id user_id) l = false.
Proof.
  pose proof (is_member_role user_id l) as H.
  destruct (existsb _ l), (Team.get_member_role_in user_id l) as [r |];
    split; try congruence; intros _.
  - destruct (proj1 H eq_refl) as [r Hr]. discriminate.
  - assert (Hf : false = true) by (apply H; eexists; reflexivity). discriminate.
Qed.

(** X11.  [add_member] refuses a user who is on the list already, leaving the
    team as it was.  Otherwise the user is enrolled at the end of the list
    with the given role and that role's permissions: the user is then a
    member with that role, the team has one member more, and nobody else's
    membership or role has changed. *)
Theorem team_add_member_enrolls :
  forall (x : Team.t) (user_id : string) (role : TeamRole) (now1 now2 : datetime),
    let r := Team.add_member user_id role now1 now2 x in
    (Team.is_member user_id x = true ->
       r = (Raise (ValueError "User is already a member of this team"), x))
    /\ (Team.is_member user_id x = false ->
        fst r = Ok (mkTeamMember user_id role now1 (Team._get_default_permissions role))
        /\ Team.is_member user_id (snd r) = true
        /\ Team.get_member_role user_id (snd r) = Some role
        /\ Team.get_member_count (snd r) = S (Team.get_member_count x)
        /\ Team._leader_id (snd r) = Team._leader_id x
        /\ forall other, other <> user_id ->
             Team.is_member other (snd r) = Team.is_member other x
             /\ Team.get_member_role other (snd r) = Team.get_member_role other x).
Proof.
  intros x user_id role now1 now2 r. subst r. unfold Team.add_member.
  split; intros Hm; rewrite Hm; [reflexivity |]. simpl.
  unfold Team.is_member, Team.get_member_role, Team.get_member_count in *. simpl.
  assert (Hself : Team.has_user_id user_id
                    (mkTeamMember user_id role now1 (Team._get_default_permissions role))
                  = true)
    by (unfold Team.has_user_id; apply bool_decide_eq_true; reflexivity).
  split; [reflexivity |].
  split; [rewrite existsb_app; simpl; rewrite Hself; apply orb_true_iff; right; reflexivity |].
  split.
  { rewrite role_in_app, (proj2 (role_None_not_member _ _) Hm), Hm. simpl.
    rewrite Hself. reflexivity. }
  split; [rewrite length_app; simpl; lia |].
  split; [reflexivity |].
  intros other Hne.
  assert (Hother : Team.has_user_id other
                     (mkTeamMember user_id role now1 (Team._get_default_permissions role))
                   = false)
    by (unfold Team.has_user_id; apply bool_decide_eq_false; simpl; congruence).
  split.
  - rewrite existsb_app. simpl. rewrite Hother, !orb_false_r. reflexivity.
  - rewrite role_in_app. simpl. rewrite Hother.
    destruct (Team.get_member_role_in other (Team._members x)) eqn:E; [reflexivity |].
    apply role_None_not_member in E. rewrite E. reflexivity.
Qed.

(** X12.  [promote_member] reports whether the user is a member.  For a member it
    writes the new role and that role's permissions on the user's entry and
    changes nothing else: the list keeps its users and its order, and every
    other member keeps the role they had.  For anyone else the team is left
    as it was. *)
Theorem team_promote_member_changes_one_role :
  forall (x : Team.t) (user_id : string) (new_role : TeamRole) (now : datetime),
    let r := Team.promote_member user_id new_role now x in
    fst r = Team.is_member user_id x
    /\ (Team.is_member user_id x = false -> snd r = x)
    /\ (Team.is_member user_id x = true ->
        Team.get_member_role user_id (snd r) = Some new_role
        /\ (forall permission,
              Team.has_permission user_id permission (snd r)
              = Str.mem permission (Team._get_default_permissions new_role))
        /\ map member_user_id (Team._members (snd r))
           = map member_user_id (Team._members x)
        /\ Team._leader_id (snd r) = Team._leader_id x
        /\ forall other, other <> user_id ->
             Team.get_member_role other (snd r) = Team.get_member_role other x).
Proof.
  intros x user_id new_role now r. subst r.
  unfold Team.promote_member, Team.is_member, Team.get_member_role,
    Team.has_permission.
  pose proof (promote_in_spec user_id new_role (Team._members x)) as Hp.
  destruct (Team.promote_in user_id new_role (Team._members x)) as [l |]; simpl.
  - destruct Hp as (H1 & H2 & H3 & H4 & H5 & H6 & _). rewrite H1.
    split; [reflexivity |]. split; [discriminate |]. intros _.
    repeat split; auto.
  - rewrite Hp. split; [reflexivity |]. split; [reflexivity | discriminate].
Qed.

(** X13.  In a team that the constructor and the methods have produced, removing
    a member who is not the recorded leader takes the user off the list for
    good: the user is no member afterwards, and every other user keeps
    membership and role. *)
Theorem team_remove_member_unenrolls :
  forall (x : Team.t) (user_id : string) (now : datetime),
    Team.built x ->
    Team._leader_id x <> Some user_id ->
    let x' := snd (Team.remove_member user_id now x) in
    Team.is_member user_id x' = false
    /\ Team.get_member_role user_id x' = None
    /\ forall other, other <> user_id ->
         Team.is_member other x' = Team.is_member other x
         /\ Team.get_member_role other x' = Team.get_member_role other x.
Proof.
  intros x user_id now Hb Hl x'. subst x'.
  pose proof (team_built_members_ok x Hb) as Hok.
  unfold Team.remove_member, Team.is_member, Team.get_member_role.
  destruct (Team.index_of user_id (Team._members x)) as [i |] eqn:E; simpl.
  - rewrite bool_decide_eq_false_2 by congruence. simpl.
    destruct (pop_ids _ _ _ E) as [Hothers Hgone].
    destruct (Hgone Hok) as [_ Hg].
    split; [exact Hg |]. split; [apply role_None_not_member; exact Hg |].
    intros other Hne. destruct (Hothers other Hne) as [Hr He]. split; assumption.
  - apply index_of_None in E.
    split; [exact E |]. split; [apply role_None_not_member; exact E |].
    intros other _. split; reflexivity.
Qed.

Lemma team_remove_member_unenrolls_witness :
  Team.is_member "u2"
    (snd (Team.remove_member "u2" 4%Z
            (snd (Team.add_member "u2" MEMBER 1%Z 2%Z (Sample.team (Some "u1") [])))))
  = false.
Proof.
  assert (Hb : Team.built (Sample.team (Some "u1") []))
    by (apply (Team.built_init "Team" "" (Some "u1") "team1" 0%Z 0%Z); reflexivity).
  apply (team_remove_member_unenrolls _ "u2" 4%Z
           (Team.built_add_member "u2" MEMBER 1%Z 2%Z _ Hb)).
  discriminate.
Defined.

Lemma role_counts_partition (l : list TeamMember) :
  let count r := length (List.filter (fun m => bool_decide (member_role m = r)) l) in
  (count LEADER + count MEMBER + count CONTRIBUTOR = length l)%nat.
Proof.
  induction l as [| m l IH]; simpl; [reflexivity |].
  simpl in IH. destruct (member_role m); simpl; lia.
Qed.

(** X14.  The statistics of a team are consistent: the three role counts add up
    to the number of members. *)
Theorem team_statistics_consistent :
  forall `{IsoFormat} (x : Team.t),
    exists leaders members contributors,
      get_team_statistics x
      = VDict [("total_members", VInt (Z.of_nat (length (Team._members x))));
               ("total_projects", VInt (Z.of_nat (length (Team._projects x))));
               ("role_distribution",
                VDict [("leader", VInt (Z.of_nat leaders));
                       ("member", VInt (Z.of_nat members));
                       ("contributor", VInt (Z.of_nat contributors))]);
               ("created_at", VStr (isoformat (Team._created_at x)));
               ("last_updated", VStr (isoformat (Team._updated_at x)))]
      /\ (leaders + members + contributors = length (Team._members x))%nat
      /\ leaders = length (Team.get_leaders x).
Proof.
  intros HI x. do 3 eexists. split; [reflexivity |].
  split; [apply role_counts_partition | reflexivity].
Qed.

(** * The states of the service layer *)

Lemma dict_set_inv {V : Type} (P : string -> V -> Prop) (d : PyDict.t V)
    (k : string) (v : V) :
  (forall k' x, PyDict.get k' d = Some x -> P k' x) -> P k v ->
  forall k' x, PyDict.get k' (PyDict.set k v d) = Some x -> P k' x.
Proof.
  intros Hd Hv k' x. destruct (decide (k = k')) as [<- | Hne].
  - rewrite dict_get_set_eq. intros [= <-]. exact Hv.
  - rewrite (dict_get_set_ne _ _ _ _ Hne). apply Hd.
Qed.

Lemma user_save_keeps (u : User.t) (repo : UserRepository.t) :
  (forall k x, PyDict.get k (UserRepository._data repo) = Some x -> user_entry_ok k x) ->
  permissions_match_role u ->
  forall k x, PyDict.get k (UserRepository._data (snd (UserRepository.save u repo)))
              = Some x -> user_entry_ok k x.
Proof.
  intros Hinv Hp. unfold UserRepository.save.
  destruct (User._id u) as [i |] eqn:Hi; simpl.
  - destruct (Str.truthy i) eqn:Ht; simpl.
    + apply dict_set_inv; [exact Hinv |]. split; [exact Hi | split; assumption].
    + apply dict_set_inv; [exact Hinv |].
      split; [reflexivity | split; [reflexivity | exact Hp]].
  - apply dict_set_inv; [exact Hinv |].
    split; [reflexivity | split; [reflexivity | exact Hp]].
Qed.

Lemma update_profile_keeps (kwargs : list (string * string)) (u : User.t) :
  let u' := snd (User.update_profile kwargs u) in
  User._id u' = User._id u /\ User._username u' = User._username u
  /\ User._email u' = User._email u
  /\ User._password_hash u' = User._password_hash u
  /\ User._role u' = User._role u
  /\ User._created_at u' = User._created_at u
  /\ User._permissions u' = User._permissions u.
Proof.
  revert u. induction kwargs as [| [key value] rest IH]; intros u; simpl.
  - repeat split.
  - destruct (User.setattr_profile key value (User._profile u)) as [p | e]; simpl.
    + exact (IH (User.set_profile p u)).
    + repeat split.
Qed.

Lemma change_password_keeps `{Crypto} (old_password new_password salt : string)
    (u : User.t) :
  let u' := snd (User.change_password old_password new_password salt u) in
  User._id u' = User._id u /\ User._role u' = User._role u
  /\ User._permissions u' = User._permissions u.
Proof.
  unfold User.change_password.
  destruct (negb _); [repeat split |].
  destruct (User._hash_password _ _); repeat split.
Qed.

Lemma init_user_fresh `{Crypto} (username email password : string) (role : UserRole)
    (salt : string) (now : datetime) (u : User.t) :
  User.__init__ username email password role salt now = Ok u ->
  User._id u = None /\ User._role u = role /\ permissions_match_role u.
Proof.
  unfold User.__init__.
  destruct (User._validate_username _); [| discriminate].
  destruct (User._validate_email _); [| discriminate].
  destruct (User._hash_password _ _); [| discriminate].
  intros [= <-]. repeat split.
Qed.

(** An object held by the repository, changed in place and saved. *)
Lemma user_changed_keeps (k : string) (u u' : User.t) (repo : UserRepository.t) :
  (forall k x, PyDict.get k (UserRepository._data repo) = Some x -> user_entry_ok k x) ->
  UserRepository.get_by_id k repo = Some u ->
  User._id u' = User._id u -> permissions_match_role u' ->
  (forall k0 x, PyDict.get k0 (UserRepository._data
                                 (UserRepository.write_through k u' repo)) = Some x ->
                user_entry_ok k0 x).
Proof.
  intros Hinv Hg Hid Hp. destruct (Hinv _ _ Hg) as (Hk & Ht & _).
  unfold UserRepository.write_through. simpl.
  apply dict_set_inv; [exact Hinv |].
  split; [congruence | split; assumption].
Qed.

Lemma user_service_keeps `{Crypto} (c : Services.call) (w : Services.world) :
  (forall k x, PyDict.get k (UserRepository._data (Services.users w)) = Some x ->
               user_entry_ok k x) ->
  forall k x, PyDict.get k (UserRepository._data
                              (Services.users (snd (Services.run c w)))) = Some x ->
              user_entry_ok k x.
Proof.
  intros Hinv.
  destruct c; try exact Hinv; unfold Services.run, Services.on_users;
    cbn [snd Services.users].
  - unfold UserService.create_user.
    destruct (UserRepository.get_by_username _ _); [exact Hinv |].
    destruct (UserRepository.get_by_email _ _); [exact Hinv |].
    destruct (User.__init__ _ _ _ _ _ _) as [u |] eqn:Hu; [| exact Hinv].
    destruct (init_user_fresh _ _ _ _ _ _ _ Hu) as (_ & _ & Hp).
    pose proof (user_save_keeps u _ Hinv Hp) as Hs.
    destruct (UserRepository.save u _). exact Hs.
  - unfold UserService.update_user_profile.
    destruct (UserService.get_user _ _) as [u |] eqn:Hu; [| exact Hinv].
    destruct (List.find _ profile_data) as [[key value] |]; [exact Hinv |].
    pose proof (update_profile_keeps profile_data u) as (Hid & _ & _ & _ & Hr & _ & Hp).
    destruct (User.update_profile profile_data u) as [r u1]. simpl in Hid, Hr, Hp.
    assert (Hp1 : permissions_match_role u1).
    { unfold permissions_match_role. rewrite Hp, Hr.
      apply (Hinv _ _ Hu). }
    pose proof (user_changed_keeps _ _ _ _ Hinv Hu Hid Hp1) as H1.
    destruct r; [| exact H1].
    pose proof (user_save_keeps u1 _ H1 Hp1) as Hs.
    destruct (UserRepository.save u1 _). exact Hs.
  - unfold UserService.change_user_password.
    destruct (UserService.get_user _ _) as [u |] eqn:Hu; [| exact Hinv].
    pose proof (change_password_keeps old_password new_password salt u)
      as (Hid & Hr & Hp).
    destruct (User.change_password _ _ _ u) as [r u1]. simpl in Hid, Hr, Hp.
    assert (Hp1 : permissions_match_role u1).
    { unfold permissions_match_role. rewrite Hp, Hr.
      apply (Hinv _ _ Hu). }
    pose proof (user_changed_keeps _ _ _ _ Hinv Hu Hid Hp1) as H1.
    destruct r; [| exact H1].
    pose proof (user_save_keeps u1 _ H1 Hp1) as Hs.
    destruct (UserRepository.save u1 _). exact Hs.
  - unfold UserService.promote_user.
    destruct (UserService.get_user user_id _) as [u |] eqn:Hu; [| exact Hinv].
    destruct (UserService.get_user promoter_id _); [| exact Hinv].
    destruct (negb _); [exact Hinv |].
    destruct (_ && _ && _); [exact Hinv |].
    fold (with_role new_role u).
    assert (Hp1 : permissions_match_role (with_role new_role u)) by reflexivity.
    pose proof (user_changed_keeps _ _ (with_role new_role u) _ Hinv Hu eq_refl Hp1)
      as H1.
    pose proof (user_save_keeps _ _ H1 Hp1) as Hs.
    destruct (UserRepository.save _ _). exact Hs.
  - unfold UserService.deactivate_user.
    destruct (UserService.get_user user_id _) as [u |] eqn:Hu; [| exact Hinv].
    destruct (UserService.get_user deactivator_id _); [| exact Hinv].
    destruct (negb _); [exact Hinv |].
    destruct (_ && _); [exact Hinv |].
    fold (with_role GUEST u).
    assert (Hp1 : permissions_match_role (with_role GUEST u)) by reflexivity.
    pose proof (user_changed_keeps _ _ (with_role GUEST u) _ Hinv Hu eq_refl Hp1)
      as H1.
    pose proof (user_save_keeps _ _ H1 Hp1) as Hs.
    destruct (UserRepository.save _ _). exact Hs.
Qed.

Lemma task_made_step (x y : Task.t) : task_made x -> Task.step x y -> task_made y.
Proof.
  intros (title & description & assignee_id & priority & due_date & uuid & now1
          & now2 & x0 & Hinit & Hsteps) Hstep.
  exists title, description, assignee_id, priority, due_date, uuid, now1, now2, x0.
  split; [exact Hinit | exact (Task.steps_next _ _ _ Hsteps Hstep)].
Qed.

Lemma task_save_keeps (x : Task.t) (repo : TaskRepository.t) :
  (forall k y, PyDict.get k (TaskRepository._data repo) = Some y -> task_entry_ok k y) ->
  task_made x ->
  forall k y, PyDict.get k (TaskRepository._data (snd (TaskRepository.save x repo)))
              = Some y -> task_entry_ok k y.
Proof.
  intros Hinv Hm. unfold TaskRepository.save.
  destruct (Str.truthy (Task._id x)) eqn:Ht; simpl; [| exact Hinv].
  apply dict_set_inv; [exact Hinv |]. split; [reflexivity | split; assumption].
Qed.

Lemma task_changed_keeps (k : string) (x x' : Task.t) (repo : TaskRepository.t) :
  (forall k y, PyDict.get k (TaskRepository._data repo) = Some y -> task_entry_ok k y) ->
  TaskRepository.get_by_id k repo = Some x ->
  Task.step x x' ->
  task_made x'
  /\ (forall k0 y, PyDict.get k0 (TaskRepository._data
                                    (TaskRepository.write_through k x' repo)) = Some y ->
                   task_entry_ok k0 y).
Proof.
  intros Hinv Hg Hstep. destruct (Hinv _ _ Hg) as (Hk & Ht & Hm).
  pose proof (task_made_step _ _ Hm Hstep) as Hm'.
  split; [exact Hm' |].
  unfold TaskRepository.write_through. simpl.
  apply dict_set_inv; [exact Hinv |].
  split; [| split; assumption].
  rewrite <- Hk. apply (step_keeps _ _ Hstep).
Qed.

Lemma task_service_keeps `{Crypto} (c : Services.call) (w : Services.world) :
  (forall k x, PyDict.get k (TaskRepository._data (Services.tasks w)) = Some x ->
               task_entry_ok k x) ->
  forall k x, PyDict.get k (TaskRepository._data
                              (Services.tasks (snd (Services.run c w)))) = Some x ->
              task_entry_ok k x.
Proof.
  intros Hinv.
  destruct c; try exact Hinv; unfold Services.run, Services.on_tasks;
    cbn [snd Services.tasks].
  - unfold TaskService.create_task.
    destruct (TaskService.dangling assignee_id _); [exact Hinv |].
    destruct (TaskService.dangling creator_id _); [exact Hinv |].
    destruct (Task.__init__ _ _ _ _ _ _ _ _) as [x |] eqn:Hx; [| exact Hinv].
    apply task_save_keeps; [exact Hinv |].
    exists title, description, assignee_id, priority, due_date, uuid, now1, now2, x.
    split; [exact Hx | apply Task.steps_refl].
  - unfold TaskService.update_task_status.
    destruct (TaskService.get_task _ _) as [x |] eqn:Hx; [| exact Hinv].
    match goal with |- context [if ?b then _ else _] => destruct b end;
      [exact Hinv |].
    destruct (task_changed_keeps _ _ _ _ Hinv Hx (Task.step_status new_status now x))
      as (Hm & H1).
    destruct (Task.update_status new_status now x) as [r x1]. simpl in Hm, H1.
    destruct r; [| exact H1].
    apply task_save_keeps; assumption.
  - unfold TaskService.assign_task.
    destruct (TaskService.get_task _ _) as [x |] eqn:Hx; [| exact Hinv].
    destruct (UserRepository.get_by_id _ _); [| exact Hinv].
    destruct (negb _); [exact Hinv |].
    destruct (task_changed_keeps _ _ _ _ Hinv Hx
                (Task.step_assignee (Some assignee_id) now x)) as (Hm & H1).
    apply task_save_keeps; assumption.
  - unfold TaskService.add_task_comment.
    destruct (TaskService.get_task _ _) as [x |] eqn:Hx; [| exact Hinv].
    destruct (UserRepository.get_by_id _ _); [| exact Hinv].
    destruct (negb (TaskService._can_comment_on_task _ _ _)); [exact Hinv |].
    destruct (task_changed_keeps _ _ _ _ Hinv Hx
                (Task.step_comment author_id content uuid now1 now2 x)) as (Hm & H1).
    destruct (Task.add_comment author_id content uuid now1 now2 x) as [r x1].
    simpl in Hm, H1.
    destruct r; [| exact H1].
    apply task_save_keeps; assumption.
Qed.

Lemma project_save_keeps (x : Project.t) (repo : ProjectRepository.t) :
  (forall k y, PyDict.get k (ProjectRepository._data repo) = Some y ->
               project_entry_ok k y) ->
  Project.built x ->
  forall k y, PyDict.get k (ProjectRepository._data (snd (ProjectRepository.save x repo)))
              = Some y -> project_entry_ok k y.
Proof.
  intros Hinv Hm. unfold ProjectRepository.save.
  destruct (Str.truthy (Project._id x)) eqn:Ht; simpl; [| exact Hinv].
  apply dict_set_inv; [exact Hinv |]. split; [reflexivity | split; assumption].
Qed.

Lemma project_changed_keeps (k : string) (x x' : Project.t)
    (repo : ProjectRepository.t) :
  (forall k y, PyDict.get k (ProjectRepository._data repo) = Some y ->
               project_entry_ok k y) ->
  ProjectRepository.get_by_id k repo = Some x ->
  Project._id x' = Project._id x ->
  (Project.built x -> Project.built x') ->
  Project.built x'
  /\ (forall k0 y, PyDict.get k0 (ProjectRepository._data
                                    (ProjectRepository.write_through k x' repo))
                   = Some y -> project_entry_ok k0 y).
Proof.
  intros Hinv Hg Hid Hb. destruct (Hinv _ _ Hg) as (Hk & Ht & Hm).
  split; [exact (Hb Hm) |].
  unfold ProjectRepository.write_through. simpl.
  apply dict_set_inv; [exact Hinv |].
  split; [congruence | split; [assumption | exact (Hb Hm)]].
Qed.

Lemma project_modify_keeps (project_id user_id : string)
    (op : Project.t -> Project.t) (users : UserRepository.t)
    (projects : ProjectRepository.t) :
  (forall k y, PyDict.get k (ProjectRepository._data projects) = Some y ->
               project_entry_ok k y) ->
  (forall x, Project._id (op x) = Project._id x) ->
  (forall x, Project.built x -> Project.built (op x)) ->
  forall k y,
    PyDict.get k (ProjectRepository._data
                    (snd (ProjectService.modify project_id user_id op users projects)))
    = Some y -> project_entry_ok k y.
Proof.
  intros Hinv Hid Hb. unfold ProjectService.modify.
  destruct (ProjectService.get_project _ _) as [x |] eqn:Hx; [| exact Hinv].
  destruct (negb _); [exact Hinv |].
  destruct (project_changed_keeps _ _ (op x) _ Hinv Hx (Hid x) (Hb x)) as (Hm & H1).
  apply project_save_keeps; assumption.
Qed.

Lemma project_service_keeps `{Crypto} (c : Services.call) (w : Services.world) :
  (forall k x, PyDict.get k (ProjectRepository._data (Services.projects w)) = Some x ->
               project_entry_ok k x) ->
  forall k x, PyDict.get k (ProjectRepository._data
                              (Services.projects (snd (Services.run c w)))) = Some x ->
              project_entry_ok k x.
Proof.
  intros Hinv.
  destruct c; try exact Hinv; unfold Services.run, Services.on_projects;
    cbn [snd Services.projects].
  - unfold ProjectService.create_project.
    destruct (TaskService.dangling owner_id _); [exact Hinv |].
    destruct (Project.__init__ _ _ _ _ _ _) as [x |] eqn:Hx; [| exact Hinv].
    apply project_save_keeps; [exact Hinv |].
    exact (Project.built_init _ _ _ _ _ _ _ Hx).
  - apply project_modify_keeps; [exact Hinv | |].
    + intros x. apply (project_ops_keep_id x).
    + intros x. apply Project.built_update_status.
  - apply project_modify_keeps; [exact Hinv | |].
    + intros x. apply (project_ops_keep_id x).
    + intros x. apply Project.built_add_task.
  - apply project_modify_keeps; [exact Hinv | |].
    + intros x. apply (project_ops_keep_id x).
    + intros x. apply Project.built_remove_task.
  - unfold ProjectService.add_milestone.
    destruct (ProjectService.get_project _ _) as [x |] eqn:Hx; [| exact Hinv].
    destruct (negb _); [exact Hinv |].
    destruct (project_changed_keeps _ _
                (snd (Project.add_milestone title description due_date uuid now x)) _
                Hinv Hx eq_refl
                (Project.built_add_milestone title description due_date uuid now x))
      as (Hm & H1).
    pose proof (project_save_keeps _ _ H1 Hm) as Hs.
    simpl in Hs |- *.
    destruct (ProjectRepository.save _ _) as [[? | ?] ?]; exact Hs.
  - unfold ProjectService.complete_milestone.
    destruct (ProjectService.get_project _ _) as [x |] eqn:Hx; [| exact Hinv].
    destruct (negb _); [exact Hinv |].
    destruct (project_changed_keeps _ _
                (snd (Project.complete_milestone milestone_id now1 now2 x)) _
                Hinv Hx (proj2 (proj2 (proj2 (proj2 (proj2 (proj2
                                 (project_ops_keep_id x)))))) _ _ _)
                (Project.built_complete_milestone milestone_id now1 now2 x))
      as (Hm & H1).
    destruct (Project.complete_milestone milestone_id now1 now2 x) as [success x1].
    cbn [snd] in Hm, H1.
    destruct success; [| exact H1].
    pose proof (project_save_keeps _ _ H1 Hm) as Hs.
    destruct (ProjectRepository.save _ _) as [[? | ?] ?]; exact Hs.
  - unfold ProjectService.add_team_member.
    destruct (ProjectService.get_project _ _) as [x |] eqn:Hx; [| exact Hinv].
    destruct (UserRepository.get_by_id _ _); [| exact Hinv].
    destruct (negb _); [exact Hinv |].
    destruct (project_changed_keeps _ _ (Project.add_team_member user_id now x) _
                Hinv Hx
                (proj1 (proj2 (proj2 (proj2 (project_ops_keep_id x)))) _ _)
                (Project.built_add_team_member user_id now x)) as (Hm & H1).
    apply project_save_keeps; assumption.
  - apply project_modify_keeps; [exact Hinv | |].
    + intros x. apply (project_ops_keep_id x).
    + intros x. apply Project.built_remove_team_member.
Qed.

Lemma team_ops_keep_id (x : Team.t) :
  (forall u role now1 now2,
      Team._id (snd (Team.add_member u role now1 now2 x)) = Team._id x)
  /\ (forall u now, Team._id (snd (Team.remove_member u now x)) = Team._id x)
  /\ (forall u role now, Team._id (snd (Team.promote_member u role now x)) = Team._id x)
  /\ (forall p now, Team._id (Team.add_project p now x) = Team._id x)
  /\ (forall p now, Team._id (Team.remove_project p now x) = Team._id x)
  /\ (forall v now, Team._id (Team.assign_leader_id v now x) = Team._id x).
Proof.
  split; [intros; unfold Team.add_member; destruct (Team.is_member _ _); reflexivity |].
  split; [intros; unfold Team.remove_member;
          destruct (Team.index_of _ _); [destruct (bool_decide _) |]; reflexivity |].
  split; [intros; unfold Team.promote_member;
          destruct (Team.promote_in _ _ _); reflexivity |].
  split; [intros; unfold Team.add_project; destruct (negb _); reflexivity |].
  split; [intros; unfold Team.remove_project; destruct (Str.mem _ _); reflexivity |].
  reflexivity.
Qed.

Lemma team_save_keeps (x : Team.t) (repo : TeamRepository.t) :
  (forall k y, PyDict.get k (TeamRepository._data repo) = Some y -> team_entry_ok k y) ->
  Team.built x ->
  forall k y, PyDict.get k (TeamRepository._data (snd (TeamRepository.save x repo)))
              = Some y -> team_entry_ok k y.
Proof.
  intros Hinv Hm. unfold TeamRepository.save.
  destruct (Str.truthy (Team._id x)) eqn:Ht; simpl; [| exact Hinv].
  apply dict_set_inv; [exact Hinv |]. split; [reflexivity | split; assumption].
Qed.

Lemma team_changed_keeps (k : string) (x x' : Team.t) (repo : TeamRepository.t) :
  (forall k y, PyDict.get k (TeamRepository._data repo) = Some y -> team_entry_ok k y) ->
  TeamRepository.get_by_id k repo = Some x ->
  Team._id x' = Team._id x ->
  (Team.built x -> Team.built x') ->
  Team.built x'
  /\ (forall k0 y, PyDict.get k0 (TeamRepository._data
                                    (TeamRepository.write_through k x' repo))
                   = Some y -> team_entry_ok k0 y).
Proof.
  intros Hinv Hg Hid Hb. destruct (Hinv _ _ Hg) as (Hk & Ht & Hm).
  split; [exact (Hb Hm) |].
  unfold TeamRepository.write_through. simpl.
  apply dict_set_inv; [exact Hinv |].
  split; [congruence | split; [assumption | exact (Hb Hm)]].
Qed.

Lemma team_service_keeps `{Crypto} (c : Services.call) (w : Services.world) :
  (forall k x, PyDict.get k (TeamRepository._data (Services.teams w)) = Some x ->
               team_entry_ok k x) ->
  forall k x, PyDict.get k (TeamRepository._data
                              (Services.teams (snd (Services.run c w)))) = Some x ->
              team_entry_ok k x.
Proof.
  intros Hinv.
  destruct c; try exact Hinv; unfold Services.run, Services.on_teams;
    cbn [snd Services.teams].
  - unfold TeamService.create_team.
    destruct (TaskService.dangling leader_id _); [exact Hinv |].
    destruct (Team.__init__ _ _ _ _ _ _) as [x |] eqn:Hx; [| exact Hinv].
    pose proof (Team.built_init _ _ _ _ _ _ _ Hx) as Hb.
    destruct leader_id as [l |]; [| apply team_save_keeps; assumption].
    destruct (Str.truthy l); [| apply team_save_keeps; assumption].
    pose proof (Team.built_add_member l LEADER now3 now4 x Hb) as Hb1.
    destruct (Team.add_member l LEADER now3 now4 x) as [[member | e] x1];
      [| exact Hinv].
    apply team_save_keeps; assumption.
  - unfold TeamService.add_team_member.
    destruct (TeamService.get_team _ _) as [x |] eqn:Hx; [| exact Hinv].
    destruct (UserRepository.get_by_id _ _); [| exact Hinv].
    destruct (negb _); [exact Hinv |].
    destruct (team_changed_keeps _ _ (snd (Team.add_member user_id role now1 now2 x)) _
                Hinv Hx (proj1 (team_ops_keep_id x) _ _ _ _)
                (Team.built_add_member user_id role now1 now2 x)) as (Hm & H1).
    destruct (Team.add_member user_id role now1 now2 x) as [r x1].
    cbn [snd] in Hm, H1.
    destruct r; [| exact H1].
    pose proof (team_save_keeps _ _ H1 Hm) as Hs.
    destruct (TeamRepository.save _ _) as [[? | ?] ?]; exact Hs.
  - unfold TeamService.remove_team_member.
    destruct (TeamService.get_team _ _) as [x |] eqn:Hx; [| exact Hinv].
    destruct (negb _); [exact Hinv |].
    destruct (team_changed_keeps _ _ (snd (Team.remove_member user_id now x)) _
                Hinv Hx (proj1 (proj2 (team_ops_keep_id x)) _ _)
                (Team.built_remove_member user_id now x)) as (Hm & H1).
    destruct (Team.remove_member user_id now x) as [r x1].
    cbn [snd] in Hm, H1.
    destruct r as [[|] |]; [| exact H1 | exact H1].
    pose proof (team_save_keeps _ _ H1 Hm) as Hs.
    destruct (TeamRepository.save _ _) as [[? | ?] ?]; exact Hs.
  - unfold TeamService.promote_team_member.
    destruct (TeamService.get_team _ _) as [x |] eqn:Hx; [| exact Hinv].
    destruct (negb _); [exact Hinv |].
    destruct (team_changed_keeps _ _ (snd (Team.promote_member user_id new_role now x)) _
                Hinv Hx (proj1 (proj2 (proj2 (team_ops_keep_id x))) _ _ _)
                (Team.built_promote_member user_id new_role now x)) as (Hm & H1).
    destruct (Team.promote_member user_id new_role now x) as [success x1].
    cbn [snd] in Hm, H1.
    destruct success; [| exact H1].
    pose proof (team_save_keeps _ _ H1 Hm) as Hs.
    destruct (TeamRepository.save _ _) as [[? | ?] ?]; exact Hs.
  - unfold TeamService.change_team_leader.
    destruct (TeamService.get_team _ _) as [x |] eqn:Hx; [| exact Hinv].
    destruct (UserRepository.get_by_id _ _); [| exact Hinv].
    destruct (negb (TeamService._can_manage_team _ _ _)); [exact Hinv |].
    destruct (negb (Team.is_member new_leader_id x)).
    + pose proof (proj1 (team_ops_keep_id x) new_leader_id LEADER now1 now2) as Hid.
      pose proof (Team.built_add_member new_leader_id LEADER now1 now2 x) as Hb.
      destruct (Team.add_member new_leader_id LEADER now1 now2 x) as [r x1].
      cbn [snd] in Hid, Hb.
      destruct r.
      * destruct (team_changed_keeps _ _
                    (Team.assign_leader_id (Some new_leader_id) now3 x1) _
                    Hinv Hx Hid
                    (fun b => Team.built_assign_leader_id _ _ _ (Hb b))) as (Hm & H1).
        apply team_save_keeps; assumption.
      * apply (team_changed_keeps _ _ x1 _ Hinv Hx Hid Hb).
    + pose proof (proj1 (proj2 (proj2 (team_ops_keep_id x))) new_leader_id LEADER now1)
        as Hid.
      pose proof (Team.built_promote_member new_leader_id LEADER now1 x) as Hb.
      destruct (team_changed_keeps _ _
                  (Team.assign_leader_id (Some new_leader_id) now3
                     (snd (Team.promote_member new_leader_id LEADER now1 x))) _
                  Hinv Hx Hid
                  (fun b => Team.built_assign_leader_id _ _ _ (Hb b))) as (Hm & H1).
      apply team_save_keeps; assumption.
  - unfold TeamService.add_project_to_team.
    destruct (TeamService.get_team _ _) as [x |] eqn:Hx; [| exact Hinv].
    destruct (negb _); [exact Hinv |].
    destruct (team_changed_keeps _ _ (Team.add_project project_id now x) _
                Hinv Hx (proj1 (proj2 (proj2 (proj2 (team_ops_keep_id x)))) _ _)
                (Team.built_add_project project_id now x)) as (Hm & H1).
    apply team_save_keeps; assumption.
  - unfold TeamService.remove_project_from_team.
    destruct (TeamService.get_team _ _) as [x |] eqn:Hx; [| exact Hinv].
    destruct (negb _); [exact Hinv |].
    destruct (team_changed_keeps _ _ (Team.remove_project project_id now x) _
                Hinv Hx
                (proj1 (proj2 (proj2 (proj2 (proj2 (team_ops_keep_id x))))) _ _)
                (Team.built_remove_project project_id now x)) as (Hm & H1).
    apply team_save_keeps; assumption.
Qed.

Lemma run_keeps_world_ok `{Crypto} (c : Services.call) (w : Services.world) :
  world_ok w -> world_ok (snd (Services.run c w)).
Proof.
  intros (Hu & Ht & Hp & Hm).
  split; [exact (user_service_keeps c w Hu) |].
  split; [exact (task_service_keeps c w Ht) |].
  split; [exact (project_service_keeps c w Hp) |].
  exact (team_service_keeps c w Hm).
Qed.

Lemma reachable_world_ok `{Crypto} (w : Services.world) : reachable w -> world_ok w.
Proof.
  induction 1 as [| c w Hr IH | w k p l Hr IH Hg Hl].
  - repeat split; simpl in *; discriminate.
  - exact (run_keeps_world_ok c w IH).
  - destruct IH as (Hu & Ht & Hp & Hm).
    split; [exact Hu |]. split; [exact Ht |]. split; [| exact Hm].
    cbn [Services.projects].
    apply (project_changed_keeps k p (Project.set_tasks l p) _ Hp Hg eq_refl).
    intros Hb. exact (Project.built_task_changed l p Hb Hl).
Qed.

(** X15.  In every state the service layer can reach from empty
    repositories, whatever calls were made and whether they returned or
    raised, every user, task, project and team is stored under its own
    non-empty identifier, every user holds the permissions of the user's
    role, and every task, project and team is in a state its constructor and
    methods produce.  In particular the repositories are then as the
    statements about the services above assume them. *)
Theorem service_states_are_well_stored `{Crypto} :
  forall (w : Services.world),
    reachable w ->
    world_ok w
    /\ users_wf (Services.users w)
    /\ tasks_wf (Services.tasks w)
    /\ Services.identified w.
Proof.
  intros w Hr. pose proof (reachable_world_ok w Hr) as Hok.
  split; [exact Hok |]. destruct Hok as (Hu & Ht & Hp & Hm).
  split; [| split; [| split; [| split]]].
  - intros k u Hg. destruct (Hu k u Hg) as (Hid & Hk & _). split; assumption.
  - intros k x Hg. destruct (Ht k x Hg) as (Hid & Hk & _). split; assumption.
  - intros k x Hg. destruct (Ht k x Hg) as (Hid & Hk & _). rewrite Hid. exact Hk.
  - intros k x Hg. destruct (Hp k x Hg) as (Hid & Hk & _). rewrite Hid. exact Hk.
  - intros k x Hg. destruct (Hm k x Hg) as (Hid & Hk & _). rewrite Hid. exact Hk.
Qed.

Lemma service_states_are_well_stored_witness :
  let w := snd (@Services.run Sample.crypto
                  (Services.CreateUser "alice" "alice@example.com" "secret1" ADMIN
                     "5a17" 0%Z) empty_world) in
  @reachable Sample.crypto w
  /\ world_ok w /\ users_wf (Services.users w) /\ tasks_wf (Services.tasks w)
  /\ Services.identified w.
Proof.
  intros w. split.
  - apply reachable_run, reachable_empty.
  - apply (@service_states_are_well_stored Sample.crypto).
    apply reachable_run, reachable_empty.
Defined.

Lemma steps_tags_ok (x y : Task.t) :
  Task.steps x y -> tags_ok (Task._tags x) -> tags_ok (Task._tags y).
Proof.
  induction 1 as [x | x y z _ IH Hstep]; [auto |].
  intros Hx. exact (step_tags_ok _ _ Hstep (IH Hx)).
Qed.

Lemma task_made_ok (x : Task.t) : task_made x -> title_ok x /\ tags_ok (Task._tags x).
Proof.
  intros (title & description & assignee_id & priority & due_date & uuid & now1
          & now2 & x0 & Hinit & Hsteps).
  split.
  - exact (steps_title_ok _ _ Hsteps (init_title_ok _ _ _ _ _ _ _ _ _ Hinit)).
  - apply (steps_tags_ok _ _ Hsteps).
    unfold Task.__init__ in Hinit.
    destruct (Task._validate_title title); [| discriminate].
    injection Hinit as <-. split; constructor.
Qed.

(** X16.  What the entities guarantee holds of everything the services
    store: in every reachable state a stored user has a permission exactly
    when the user's role grants it; a stored task has a validated title and
    a duplicate-free list of normalised tags; a stored project lists no task
    identifier and no team member twice; a stored team has one entry per
    member, each with the permissions of its role. *)
Theorem stored_entities_keep_their_invariants `{Crypto} :
  forall (w : Services.world),
    reachable w ->
    (forall k u, UserRepository.get_by_id k (Services.users w) = Some u ->
                 forall permission,
                   User.has_permission permission u
                   = Str.mem permission (User.permissions_of (User._role u)))
    /\ (forall k x, TaskRepository.get_by_id k (Services.tasks w) = Some x ->
                    title_ok x /\ tags_ok (Task._tags x))
    /\ (forall k p, ProjectRepository.get_by_id k (Services.projects w) = Some p ->
                    List.NoDup (map Task._id (Project._tasks p))
                    /\ List.NoDup (Project._team_members p))
    /\ (forall k x, TeamRepository.get_by_id k (Services.teams w) = Some x ->
                    members_ok (Team._members x)).
Proof.
  intros w Hr. destruct (reachable_world_ok w Hr) as (Hu & Ht & Hp & Hm).
  split; [| split; [| split]].
  - intros k u Hg permission. destruct (Hu k u Hg) as (_ & _ & Hperm).
    unfold User.has_permission. rewrite Hperm. reflexivity.
  - intros k x Hg. destruct (Ht k x Hg) as (_ & _ & Hmade).
    exact (task_made_ok x Hmade).
  - intros k p Hg. destruct (Hp k p Hg) as (_ & _ & Hb).
    split; [exact (built_NoDup p Hb) | exact (built_roster_NoDup p Hb)].
  - intros k x Hg. destruct (Hm k x Hg) as (_ & _ & Hb).
    exact (team_built_members_ok x Hb).
Qed.

Lemma stored_entities_keep_their_invariants_witness :
  let w := snd (@Services.run Sample.crypto
                  (Services.CreateTask "  Write report " "" None HIGH None None
                     "t-1" 0%Z 0%Z) empty_world) in
  @reachable Sample.crypto w
  /\ (forall k x, TaskRepository.get_by_id k (Services.tasks w) = Some x ->
                  title_ok x /\ tags_ok (Task._tags x)).
Proof.
  intros w. split.
  - apply reachable_run, reachable_empty.
  - apply (@stored_entities_keep_their_invariants Sample.crypto).
    apply reachable_run, reachable_empty.
Defined.

(** * Passwords *)

Lemma append_snoc (cur : string) (c : ascii) (s : string) :
  ((cur ++ String c EmptyString) ++ s)%string = (cur ++ String c s)%string.
Proof.
  induction cur as [| c0 cur IH]; [reflexivity |].
  change (String c0 ((cur ++ String c EmptyString) ++ s) = String c0 (cur ++ String c s)).
  f_equal. exact IH.
Qed.

Lemma append_empty (s : string) : (s ++ "")%string = s.
Proof.
  induction s as [| c s IH]; [reflexivity |].
  change (String c (s ++ "") = String c s). f_equal. exact IH.
Qed.

Lemma split_colon_plain (cur s : string) :
  no_colon s = true -> User.split_colon_aux cur s = [(cur ++ s)%string].
Proof.
  revert cur. induction s as [| c s IH]; intros cur; simpl.
  - intros _. rewrite append_empty. reflexivity.
  - unfold no_colon. simpl. case_bool_decide; simpl; [discriminate |].
    intros Hs. rewrite (IH _ Hs), append_snoc. reflexivity.
Qed.

Lemma split_colon_pair (cur a b : string) :
  no_colon a = true -> no_colon b = true ->
  User.split_colon_aux cur (a ++ ":" ++ b) = [(cur ++ a)%string; b].
Proof.
  revert cur. induction a as [| c a IH]; intros cur.
  - intros _ Hb. change (EmptyString ++ ":" ++ b)%string with (String ":"%char b).
    simpl. rewrite (split_colon_plain _ _ Hb), append_empty. reflexivity.
  - change (String c a ++ ":" ++ b)%string with (String c (a ++ ":" ++ b)).
    unfold no_colon. simpl. case_bool_decide; simpl; [discriminate |].
    intros Ha Hb. rewrite (IH _ Ha Hb), append_snoc. reflexivity.
Qed.

Lemma verify_hashed `{Crypto} (password salt h candidate : string) (u : User.t) :
  no_colon salt = true -> no_colon (pbkdf2_hmac_hex password salt) = true ->
  User._hash_password password salt = Ok h ->
  User._password_hash u = h ->
  User.verify_password candidate u
  = bool_decide (pbkdf2_hmac_hex candidate salt = pbkdf2_hmac_hex password salt).
Proof.
  intros Hs Hh. unfold User._hash_password.
  destruct (Str.len password <? 6)%nat; [discriminate |].
  intros [= <-] Hu. unfold User.verify_password, User.split_colon. rewrite Hu.
  rewrite (split_colon_pair _ _ _ Hs Hh). reflexivity.
Qed.

Lemma find_set_new {V : Type} (P : V -> bool) (d : PyDict.t V) (k : string) (v : V) :
  List.find P (PyDict.values d) = None -> P v = true ->
  List.find P (PyDict.values (PyDict.set k v d)) = Some v.
Proof.
  unfold PyDict.values. induction d as [| [k0 v0] d IH]; simpl.
  - intros _ ->. reflexivity.
  - destruct (P v0) eqn:E0; [discriminate |]. intros Hd Hv.
    destruct (bool_decide (k0 = k)); simpl.
    + rewrite Hv. reflexivity.
    + rewrite E0. exact (IH Hd Hv).
Qed.

(** X17.  The password given at creation is the one that opens the
    account.  When [create_user] returns a user, no earlier user bears its
    (normalised) username, and the salt and the digest are free of the
    separator, as hexadecimal text is, then [authenticate_user] with that
    username returns this user for exactly the passwords whose digest under
    the stored salt is the stored one, the given password among them; and
    after a password change that returned, the account verifies the new
    password in the same way. *)
Theorem created_user_authenticates `{Crypto} :
  forall username email password role salt now (repo repo' : UserRepository.t)
         (user : User.t),
    UserService.create_user username email password role salt now repo
    = (Ok user, repo') ->
    UserRepository.get_by_username (User._username user) repo = None ->
    no_colon salt = true ->
    no_colon (pbkdf2_hmac_hex password salt) = true ->
    User._username user = Str.strip (Str.lower username)
    /\ UserService.authenticate_user (User._username user) password repo' = Some user
    /\ (forall candidate,
          UserService.authenticate_user (User._username user) candidate repo'
          = if bool_decide (pbkdf2_hmac_hex candidate salt
                            = pbkdf2_hmac_hex password salt)
            then Some user else None)
    /\ (forall new_password salt' user',
          no_colon salt' = true ->
          no_colon (pbkdf2_hmac_hex new_password salt') = true ->
          User.change_password password new_password salt' user = (Ok true, user') ->
          forall candidate,
            User.verify_password candidate user'
            = bool_decide (pbkdf2_hmac_hex candidate salt'
                           = pbkdf2_hmac_hex new_password salt')).
Proof.
  intros username email password role salt now repo repo' user Hc Hfree Hs Hh.
  unfold UserService.create_user in Hc.
  destruct (UserRepository.get_by_username username repo); [discriminate |].
  destruct (UserRepository.get_by_email email repo); [discriminate |].
  destruct (User.__init__ username email password role salt now) as [u |] eqn:Hu;
    [| discriminate].
  unfold User.__init__ in Hu.
  destruct (User._validate_username username) as [username' |] eqn:Hn;
    [| discriminate].
  destruct (User._validate_email email) as [email' |]; [| discriminate].
  destruct (User._hash_password password salt) as [h |] eqn:Hhash; [| discriminate].
  injection Hu as <-.
  unfold UserRepository.save in Hc. simpl in Hc. injection Hc as <- <-.
  simpl in Hfree |- *.
  assert (Hname : username' = Str.strip (Str.lower username)).
  { unfold User._validate_username in Hn. destruct (_ || _); congruence. }
  assert (Hverify : forall candidate,
             User.verify_password candidate
               (User.set_id (Some ("userrepository_" ++ str_of_nat
                                     (UserRepository._next_id repo))%string)
                  (User.mk None username' email' h role (mkUserProfile "" "" "") now
                     (User.permissions_of role)))
             = bool_decide (pbkdf2_hmac_hex candidate salt
                            = pbkdf2_hmac_hex password salt)).
  { intros candidate. apply (verify_hashed password salt h); auto. }
  assert (Hauth : forall candidate,
             UserService.authenticate_user username' candidate
               (UserRepository.mk
                  (PyDict.set ("userrepository_" ++ str_of_nat
                                 (UserRepository._next_id repo))%string
                     (User.set_id (Some ("userrepository_" ++ str_of_nat
                                           (UserRepository._next_id repo))%string)
                        (User.mk None username' email' h role
                           (mkUserProfile "" "" "") now (User.permissions_of role)))
                     (UserRepository._data repo))
                  (S (UserRepository._next_id repo)))
             = if bool_decide (pbkdf2_hmac_hex candidate salt
                               = pbkdf2_hmac_hex password salt)
               then Some (User.set_id (Some ("userrepository_" ++ str_of_nat
                                           (UserRepository._next_id repo))%string)
                        (User.mk None username' email' h role
                           (mkUserProfile "" "" "") now (User.permissions_of role)))
               else None).
  { intros candidate. unfold UserService.authenticate_user,
      UserRepository.get_by_username. cbn [UserRepository._data].
    rewrite (find_set_new _ _ _ _ Hfree)
      by (apply bool_decide_eq_true_2; reflexivity).
    rewrite Hverify. reflexivity. }
  split; [exact Hname |]. split; [| split].
  - rewrite Hauth, bool_decide_eq_true_2 by reflexivity. reflexivity.
  - exact Hauth.
  - intros new_password salt' user' Hs' Hh' Hchange candidate.
    unfold User.change_password in Hchange.
    destruct (negb _); [discriminate |].
    destruct (User._hash_password new_password salt') as [h' |] eqn:Hhash';
      [| discriminate].
    injection Hchange as <-.
    apply (verify_hashed new_password salt' h'); auto.
Qed.

Lemma created_user_authenticates_witness :
  let r := @UserService.create_user Sample.crypto "Alice " "alice@example.com"
             "secret1" USER "5a17" 0%Z UserRepository.empty in
  exists user,
    fst r = Ok user
    /\ @UserService.authenticate_user Sample.crypto "alice" "secret1" (snd r)
       = Some user.
Proof.
  intros r.
  pose proof (fun user repo' Hc =>
                @created_user_authenticates Sample.crypto "Alice "
                  "alice@example.com" "secret1" USER "5a17" 0%Z
                  UserRepository.empty repo' user Hc) as T.
  fold r in T.
  destruct r as [[user | e] repo'] eqn:E; vm_compute in E; [| discriminate].
  injection E as <- <-.
  eexists. split; [reflexivity |].
  apply (T _ _ eq_refl); reflexivity.
Defined.

(** * Profile updates *)

Lemma update_profile_fields (kwargs : list (string * string)) (u : User.t) :
  List.find (fun kv => negb (Str.mem (fst kv) UserService.valid_fields)) kwargs = None ->
  let field (key : string) (old : string) := default old (kwarg key kwargs) in
  fst (User.update_profile kwargs u) = Ok tt
  /\ User._profile (snd (User.update_profile kwargs u))
     = mkUserProfile (field "first_name" (first_name (User._profile u)))
                     (field "last_name" (last_name (User._profile u)))
                     (field "bio" (bio (User._profile u))).
Proof.
  revert u. induction kwargs as [| [key value] rest IH]; intros u; simpl.
  - intros _. split; [reflexivity |]. destruct (User._profile u); reflexivity.
  - unfold User.setattr_profile.
    destruct (bool_decide_reflect (key = "first_name")) as [-> | H1];
      [| destruct (bool_decide_reflect (key = "last_name")) as [-> | H2];
         [| destruct (bool_decide_reflect (key = "bio")) as [-> | H3]]];
      repeat (first [rewrite bool_decide_eq_true_2 by reflexivity
                    | rewrite bool_decide_eq_false_2 by congruence]);
      simpl; try discriminate;
      intros Hrest;
      match goal with
      | |- context [User.update_profile rest ?u'] =>
          destruct (IH u' Hrest) as [IH1 IH2]
      end;
      (split; [exact IH1 |]); rewrite IH2; simpl;
      destruct (kwarg "first_name" rest), (kwarg "last_name" rest),
        (kwarg "bio" rest); reflexivity.
Qed.

Lemma find_invalid_key (kwargs : list (string * string)) (key value : string) :
  List.find (fun kv => negb (Str.mem (fst kv) UserService.valid_fields)) kwargs
  = Some (key, value) ->
  In (key, value) kwargs /\ ~ In key UserService.valid_fields.
Proof.
  intros Hf. destruct (find_some _ _ Hf) as [Hin Hneg]. split; [exact Hin |].
  simpl in Hneg. apply negb_true_iff in Hneg.
  intros Hk. apply mem_In in Hk. unfold Str.mem in Hk. simpl in Hk. congruence.
Qed.

(** X18.  [update_user_profile] writes the profile and nothing else.  For
    a stored user and keyword arguments whose values are text: if some key
    of the keyword arguments is not one of
    first_name, last_name and bio, the call raises ValueError naming the
    first such key and stores nothing; otherwise it returns the user, who
    is the stored one, with each of the three profile fields set to the
    value last given for it, or left as it was when no value is given, and
    with identifier, username, e-mail address, password hash, role,
    creation time and permissions untouched. *)
Theorem update_user_profile_writes_only_the_profile :
  forall (repo : UserRepository.t) (user_id : string) (user : User.t)
         (profile_data : list (string * string)),
    users_wf repo ->
    UserService.get_user user_id repo = Some user ->
    let invalid :=
      List.find (fun kv => negb (Str.mem (fst kv) UserService.valid_fields))
                profile_data in
    (forall key value,
        invalid = Some (key, value) ->
        ~ In key ["first_name"; "last_name"; "bio"]
        /\ UserService.update_user_profile user_id profile_data repo
           = (Raise (ValueError ("Invalid profile field: " ++ key)), repo))
    /\ (invalid = None ->
        exists user',
          UserService.update_user_profile user_id profile_data repo
          = (Ok user', UserRepository.write_through user_id user' repo)
          /\ UserService.get_user user_id
               (snd (UserService.update_user_profile user_id profile_data repo))
             = Some user'
          /\ User._profile user'
             = mkUserProfile
                 (default (first_name (User._profile user))
                          (kwarg "first_name" profile_data))
                 (default (last_name (User._profile user))
                          (kwarg "last_name" profile_data))
                 (default (bio (User._profile user)) (kwarg "bio" profile_data))
          /\ User.set_profile (User._profile user) user' = user).
Proof.
  intros repo user_id user profile_data Hwf Hu invalid. split.
  - intros key value Hinv. split; [exact (proj2 (find_invalid_key _ _ _ Hinv)) |].
    unfold UserService.update_user_profile. rewrite Hu. fold invalid.
    rewrite Hinv. reflexivity.
  - intros Hvalid.
    destruct (update_profile_fields profile_data user Hvalid) as [Hok Hprofile].
    pose proof (update_profile_keeps profile_data user)
      as (Hid & Hn & He & Hh & Hr & Hc & Hp).
    unfold UserService.update_user_profile. rewrite Hu. fold invalid.
    rewrite Hvalid.
    destruct (User.update_profile profile_data user) as [r user1].
    cbn [fst snd] in *. subst r.
    rewrite (user_save_held _ user _ _ Hwf Hu Hid).
    exists user1. split; [reflexivity |].
    split; [apply dict_get_set_eq |]. split; [exact Hprofile |].
    destruct user1, user. simpl in *. unfold User.set_profile. simpl. congruence.
Qed.

Lemma update_user_profile_writes_only_the_profile_witness :
  (exists user',
     UserService.update_user_profile "u2"
       [("bio", "first"); ("first_name", "Ann"); ("bio", "second")] Sample.one_admin
     = (Ok user', UserRepository.write_through "u2" user' Sample.one_admin)
     /\ User._profile user' = mkUserProfile "Ann" "" "second")
  /\ UserService.update_user_profile "u2"
       [("bio", "x"); ("full_name", "Ann B")] Sample.one_admin
     = (Raise (ValueError "Invalid profile field: full_name"), Sample.one_admin).
Proof.
  assert (Hu : UserService.get_user "u2" Sample.one_admin
               = Some (Sample.user "u2" "bob" USER)) by reflexivity.
  split.
  - destruct (proj2 (update_user_profile_writes_only_the_profile
                       Sample.one_admin "u2" _
                       [("bio", "first"); ("first_name", "Ann"); ("bio", "second")]
                       one_admin_wf Hu) eq_refl)
      as (user' & Hcall & _ & Hprofile & _).
    exists user'. split; [exact Hcall | exact Hprofile].
  - exact (proj2 (proj1 (update_user_profile_writes_only_the_profile
                    Sample.one_admin "u2" _ [("bio", "x"); ("full_name", "Ann B")]
                    one_admin_wf Hu) "full_name" "Ann B" eq_refl)).
Defined.

(** * Generated identifiers *)

Lemma str_of_nat_inj (a b : nat) : str_of_nat a = str_of_nat b -> a = b.
Proof.
  unfold str_of_nat. intros Heq.
  assert (Hu : Nat.to_uint a = Nat.to_uint b).
  { apply (f_equal NilEmpty.uint_of_string) in Heq.
    rewrite !NilEmpty.usu in Heq. congruence. }
  apply (f_equal Nat.of_uint) in Hu. rewrite !Unsigned.of_to in Hu. exact Hu.
Qed.

Lemma generated_id_inj (a b : nat) :
  "userrepository_" ++ str_of_nat a = "userrepository_" ++ str_of_nat b -> a = b.
Proof. intros Heq. apply str_of_nat_inj. exact (String.app_inj _ _ _ Heq). Qed.

(** What a call of the user service leaves in the repository: nothing new,
    or a changed object under a key that was there, or a new object under
    the next generated identifier. *)
Lemma user_call_shape `{Crypto} (c : Services.call) (w : Services.world) :
  users_wf (Services.users w) ->
  let repo := Services.users w in
  let repo' := Services.users (snd (Services.run c w)) in
  repo' = repo
  \/ (exists k u u', UserRepository.get_by_id k repo = Some u
                     /\ repo' = UserRepository.write_through k u' repo)
  \/ (exists u, repo' = UserRepository.mk
                          (PyDict.set ("userrepository_"
                                       ++ str_of_nat (UserRepository._next_id repo)) u
                             (UserRepository._data repo))
                          (S (UserRepository._next_id repo))).
Proof.
  intros Hwf repo repo'. subst repo repo'.
  destruct c; try (left; reflexivity); unfold Services.run, Services.on_users;
    cbn [snd Services.users].
  - unfold UserService.create_user.
    destruct (UserRepository.get_by_username _ _); [left; reflexivity |].
    destruct (UserRepository.get_by_email _ _); [left; reflexivity |].
    destruct (User.__init__ _ _ _ _ _ _) as [u |] eqn:Hu; [| left; reflexivity].
    destruct (init_user_fresh _ _ _ _ _ _ _ Hu) as (Hid & _ & _).
    unfold UserRepository.save. rewrite Hid. simpl.
    right; right. eexists; reflexivity.
  - unfold UserService.update_user_profile.
    destruct (UserService.get_user _ _) as [u |] eqn:Hu; [| left; reflexivity].
    destruct (List.find _ profile_data) as [[key value] |]; [left; reflexivity |].
    pose proof (update_profile_keeps profile_data u) as (Hid & _).
    destruct (User.update_profile profile_data u) as [r u1]. cbn [snd] in Hid.
    right; left. exists user_id, u, u1. split; [exact Hu |].
    destruct r; [| reflexivity].
    rewrite (user_save_held _ u _ _ Hwf Hu Hid). reflexivity.
  - unfold UserService.change_user_password.
    destruct (UserService.get_user _ _) as [u |] eqn:Hu; [| left; reflexivity].
    pose proof (change_password_keeps old_password new_password salt u) as (Hid & _).
    destruct (User.change_password _ _ _ u) as [r u1]. cbn [snd] in Hid.
    right; left. exists user_id, u, u1. split; [exact Hu |].
    destruct r; [| reflexivity].
    rewrite (user_save_held _ u _ _ Hwf Hu Hid). reflexivity.
  - unfold UserService.promote_user.
    destruct (UserService.get_user user_id _) as [u |] eqn:Hu; [| left; reflexivity].
    destruct (UserService.get_user promoter_id _); [| left; reflexivity].
    destruct (negb _); [left; reflexivity |].
    destruct (_ && _ && _); [left; reflexivity |].
    fold (with_role new_role u).
    rewrite (user_save_held _ u _ _ Hwf Hu) by reflexivity.
    right; left. exists user_id, u, (with_role new_role u). split; [exact Hu | reflexivity].
  - unfold UserService.deactivate_user.
    destruct (UserService.get_user user_id _) as [u |] eqn:Hu; [| left; reflexivity].
    destruct (UserService.get_user deactivator_id _); [| left; reflexivity].
    destruct (negb _); [left; reflexivity |].
    destruct (_ && _); [left; reflexivity |].
    fold (with_role GUEST u).
    rewrite (user_save_held _ u _ _ Hwf Hu) by reflexivity.
    right; left. exists user_id, u, (with_role GUEST u). split; [exact Hu | reflexivity].
Qed.

Lemma reachable_users_generated `{Crypto} (w : Services.world) :
  reachable w -> users_generated (Services.users w).
Proof.
  induction 1 as [| c w Hr IH | w k p l Hr IH Hg Hl].
  - intros k u; simpl; discriminate.
  - pose proof (reachable_world_ok w Hr) as (Hu & _).
    assert (Hwf : users_wf (Services.users w)).
    { intros k u Hg. destruct (Hu k u Hg) as (? & ? & _). split; assumption. }
    destruct (user_call_shape c w Hwf) as [-> | [(k & u & u' & Hg & ->) | (u & ->)]].
    + exact IH.
    + unfold UserRepository.write_through. intros k0 u0. cbn.
      destruct (decide (k = k0)) as [<- | Hne].
      * intros _. exact (IH _ _ Hg).
      * rewrite (dict_get_set_ne _ _ _ _ Hne). apply IH.
    + intros k0 u0. cbn.
      destruct (decide (("userrepository_"
                         ++ str_of_nat (UserRepository._next_id (Services.users w)))
                        = k0)) as [<- | Hne].
      * intros _. eexists. split; [| reflexivity]. lia.
      * rewrite (dict_get_set_ne _ _ _ _ Hne). intros Hg.
        destruct (IH _ _ Hg) as (i & Hi & ->). exists i. split; [lia | reflexivity].
  - exact IH.
Qed.

Lemma dict_set_absent_length {V : Type} (d : PyDict.t V) (k : string) (v : V) :
  PyDict.get k d = None ->
  length (PyDict.values (PyDict.set k v d)) = S (length (PyDict.values d)).
Proof.
  unfold PyDict.values. induction d as [| [k0 v0] d IH]; simpl; [reflexivity |].
  destruct (bool_decide (k0 = k)); [discriminate |].
  intros Hg. simpl. rewrite (IH Hg). reflexivity.
Qed.

(** X19.  A new user never takes the place of another.  In every state
    the services can reach, a [create_user] that returns has given the user
    the identifier made of the class name and the counter's value, under
    which nothing was stored; the user is stored under it, the counter has
    moved on by one, there is one more user, and every user stored before is
    still stored under the same identifier. *)
Theorem create_user_assigns_a_fresh_id `{Crypto} :
  forall (w : Services.world) username email password role salt now
         (user : User.t) (repo' : UserRepository.t),
    reachable w ->
    UserService.create_user username email password role salt now (Services.users w)
    = (Ok user, repo') ->
    let new_id :=
      "userrepository_" ++ str_of_nat (UserRepository._next_id (Services.users w)) in
    User._id user = Some new_id
    /\ UserRepository.get_by_id new_id (Services.users w) = None
    /\ UserRepository.get_by_id new_id repo' = Some user
    /\ UserRepository._next_id repo' = S (UserRepository._next_id (Services.users w))
    /\ length (UserRepository.get_all repo')
       = S (length (UserRepository.get_all (Services.users w)))
    /\ (forall k u, UserRepository.get_by_id k (Services.users w) = Some u ->
                    UserRepository.get_by_id k repo' = Some u).
Proof.
  intros w username email password role salt now user repo' Hr Hc new_id.
  pose proof (reachable_users_generated w Hr) as Hgen.
  assert (Hnew : UserRepository.get_by_id new_id (Services.users w) = None).
  { unfold UserRepository.get_by_id.
    destruct (PyDict.get new_id _) as [u |] eqn:Hg; [| reflexivity].
    destruct (Hgen _ _ Hg) as (i & Hi & Heq).
    apply generated_id_inj in Heq. lia. }
  unfold UserService.create_user in Hc.
  destruct (UserRepository.get_by_username _ _); [discriminate |].
  destruct (UserRepository.get_by_email _ _); [discriminate |].
  destruct (User.__init__ _ _ _ _ _ _) as [u |] eqn:Hu; [| discriminate].
  destruct (init_user_fresh _ _ _ _ _ _ _ Hu) as (Hid & _ & _).
  unfold UserRepository.save in Hc. rewrite Hid in Hc. simpl in Hc.
  injection Hc as <- <-. fold new_id.
  split; [reflexivity |]. split; [exact Hnew |].
  split; [apply dict_get_set_eq |]. split; [reflexivity |].
  split; [apply dict_set_absent_length; exact Hnew |].
  intros k u0 Hg. unfold UserRepository.get_by_id in *. cbn.
  rewrite dict_get_set_ne; [exact Hg |]. intros <-. congruence.
Qed.

Lemma create_user_assigns_a_fresh_id_witness :
  let w := snd (@Services.run Sample.crypto
                  (Services.CreateUser "alice" "alice@example.com" "secret1" ADMIN
                     "5a17" 0%Z) empty_world) in
  exists user repo',
    @UserService.create_user Sample.crypto "bob" "bob@example.com" "secret2" USER
      "77" 1%Z (Services.users w) = (Ok user, repo')
    /\ User._id user = Some "userrepository_2"
    /\ UserRepository.get_by_id "userrepository_1" repo'
       = UserRepository.get_by_id "userrepository_1" (Services.users w).
Proof.
  intros w.
  assert (Hr : @reachable Sample.crypto w) by apply reachable_run, reachable_empty.
  destruct (@UserService.create_user Sample.crypto "bob" "bob@example.com" "secret2"
              USER "77" 1%Z (Services.users w)) as [[user | e] repo'] eqn:Hc;
    [| vm_compute in Hc; discriminate].
  destruct (@create_user_assigns_a_fresh_id Sample.crypto w _ _ _ _ _ _ user repo'
              Hr Hc) as (Hid & _ & _ & _ & _ & Hkept).
  exists user, repo'. split; [reflexivity |]. split; [exact Hid |].
  destruct (UserRepository.get_by_id "userrepository_1" (Services.users w))
    as [u |] eqn:Hg; [| vm_compute in Hg; discriminate].
  exact (Hkept _ _ Hg).
Defined.

(** * Who may change a project *)

Lemma can_modify_project_spec (users : UserRepository.t) (actor_id : string)
    (actor : User.t) (project : Project.t) :
  UserRepository.get_by_id actor_id users = Some actor ->
  ProjectService._can_modify_project actor_id project users = true
  <-> (User.is_admin actor = true \/ Project._owner_id project = Some actor_id
       \/ In actor_id (Project._team_members project)).
Proof.
  intros Ha. unfold ProjectService._can_modify_project. rewrite Ha.
  destruct (User.is_admin actor); [tauto |].
  case_bool_decide; [tauto |].
  destruct (Str.mem actor_id (Project._team_members project)) eqn:Hm.
  - apply mem_In in Hm. tauto.
  - apply mem_false in Hm. split; [discriminate |].
    intros [? | [? | ?]]; [discriminate | contradiction | contradiction].
Qed.

Lemma project_save_held (k : string) (x x' : Project.t) (repo : ProjectRepository.t) :
  ProjectRepository.get_by_id k repo = Some x ->
  Project._id x = k -> Str.truthy k = true ->
  Project._id x' = Project._id x ->
  ProjectRepository.save x' (ProjectRepository.write_through k x' repo)
  = (Ok x', ProjectRepository.write_through k x' repo).
Proof.
  intros Hg Hk Ht Hid.
  unfold ProjectRepository.save. rewrite Hid, Hk, Ht. simpl.
  unfold ProjectRepository.write_through. simpl.
  rewrite dict_set_set. reflexivity.
Qed.

(** X20.  The project policy.  For a project stored under its identifier
    and an acting user in the user repository, [_can_modify_project] allows
    exactly an Admin, the project's owner and the users on the project's
    roster, and a user who is not stored is never allowed.  A call of
    [update_project_status], [add_task_to_project], [remove_task_from_project],
    [add_milestone], [complete_milestone], [remove_team_member] or (for a
    stored user to add) [add_team_member] that is not allowed raises
    PermissionError and changes nothing.  Allowed, a status update goes
    through; and a user whom an allowed actor adds to the roster is stored
    on it and is allowed from then on. *)
Theorem project_authorisation :
  forall (users : UserRepository.t) (projects : ProjectRepository.t)
         (project_id actor_id : string) (project : Project.t) (actor : User.t),
    ProjectService.get_project project_id projects = Some project ->
    Project._id project = project_id -> Str.truthy project_id = true ->
    UserRepository.get_by_id actor_id users = Some actor ->
    let allowed :=
      User.is_admin actor = true \/ Project._owner_id project = Some actor_id
      \/ In actor_id (Project._team_members project) in
    (ProjectService._can_modify_project actor_id project users = true <-> allowed)
    /\ (forall stranger any_project,
          UserRepository.get_by_id stranger users = None ->
          ProjectService._can_modify_project stranger any_project users = false)
    /\ (~ allowed ->
        (forall new_status now,
            ProjectService.update_project_status project_id new_status actor_id now
              users projects = (Raise ProjectService.denied, projects))
        /\ (forall task now,
              ProjectService.add_task_to_project project_id task actor_id now
                users projects = (Raise ProjectService.denied, projects))
        /\ (forall task now,
              ProjectService.remove_task_from_project project_id task actor_id now
                users projects = (Raise ProjectService.denied, projects))
        /\ (forall title description due_date uuid now,
              ProjectService.add_milestone project_id title description due_date
                actor_id uuid now users projects
              = (Raise ProjectService.denied, projects))
        /\ (forall milestone_id now1 now2,
              ProjectService.complete_milestone project_id milestone_id actor_id
                now1 now2 users projects = (Raise ProjectService.denied, projects))
        /\ (forall user_id now,
              ProjectService.remove_team_member project_id user_id actor_id now
                users projects = (Raise ProjectService.denied, projects))
        /\ (forall user_id user now,
              UserRepository.get_by_id user_id users = Some user ->
              ProjectService.add_team_member project_id user_id actor_id now
                users projects = (Raise ProjectService.denied, projects)))
    /\ (allowed ->
        (forall new_status now,
            exists project',
              ProjectService.update_project_status project_id new_status actor_id now
                users projects
              = (Ok project',
                 ProjectRepository.write_through project_id project' projects)
              /\ Project._status project' = new_status)
        /\ (forall user_id user now,
              UserRepository.get_by_id user_id users = Some user ->
              exists project',
                ProjectService.add_team_member project_id user_id actor_id now
                  users projects
                = (Ok project',
                   ProjectRepository.write_through project_id project' projects)
                /\ In user_id (Project._team_members project')
                /\ ProjectService._can_modify_project user_id project' users = true)).
Proof.
  intros users projects project_id actor_id project actor Hp Hid Ht Ha allowed.
  pose proof (can_modify_project_spec users actor_id actor project Ha) as Hspec.
  fold allowed in Hspec.
  split; [exact Hspec |]. split; [| split].
  - intros stranger any_project Hs. unfold ProjectService._can_modify_project.
    rewrite Hs. reflexivity.
  - intros Hno.
    assert (Hcan : ProjectService._can_modify_project actor_id project users = false).
    { destruct (ProjectService._can_modify_project actor_id project users) eqn:E;
        [exfalso; apply Hno, Hspec; reflexivity | reflexivity]. }
    assert (Hmod : forall op, ProjectService.modify project_id actor_id op users projects
                              = (Raise ProjectService.denied, projects)).
    { intros op. unfold ProjectService.modify. rewrite Hp, Hcan. reflexivity. }
    split; [intros; apply Hmod |]. split; [intros; apply Hmod |].
    split; [intros; apply Hmod |].
    split; [intros; unfold ProjectService.add_milestone; rewrite Hp, Hcan; reflexivity |].
    split; [intros; unfold ProjectService.complete_milestone; rewrite Hp, Hcan;
            reflexivity |].
    split; [intros; apply Hmod |].
    intros user_id user now Hu. unfold ProjectService.add_team_member.
    rewrite Hp, Hu, Hcan. reflexivity.
  - intros Hyes. apply Hspec in Hyes. split.
    + intros new_status now. eexists.
      unfold ProjectService.update_project_status, ProjectService.modify.
      rewrite Hp, Hyes. simpl.
      rewrite (project_save_held _ project _ _ Hp Hid Ht) by reflexivity.
      split; reflexivity.
    + intros user_id user now Hu.
      exists (Project.add_team_member user_id now project).
      unfold ProjectService.add_team_member. rewrite Hp, Hu, Hyes. simpl.
      rewrite (project_save_held _ project _ _ Hp Hid Ht)
        by apply (project_ops_keep_id project).
      split; [reflexivity |].
      assert (Hin : In user_id
                      (Project._team_members (Project.add_team_member user_id now project))).
      { unfold Project.add_team_member.
        destruct (Str.mem user_id (Project._team_members project)) eqn:Hm; simpl.
        - apply mem_In. exact Hm.
        - apply in_or_app. right. left. reflexivity. }
      split; [exact Hin |].
      apply (can_modify_project_spec users user_id user _ Hu). right; right. exact Hin.
Qed.

Lemma project_authorisation_witness :
  let projects := ProjectRepository.mk [("p1", Sample.project0)] 1 in
  ProjectService.update_project_status "p1" COMPLETED "u2" 5%Z Sample.one_admin projects
  = (Raise ProjectService.denied, projects)
  /\ exists project',
       ProjectService.add_team_member "p1" "u2" "u1" 5%Z Sample.one_admin projects
       = (Ok project', ProjectRepository.write_through "p1" project' projects)
       /\ In "u2" (Project._team_members project')
       /\ ProjectService._can_modify_project "u2" project' Sample.one_admin = true.
Proof.
  intros projects. split.
  - refine (proj1 (proj1 (proj2 (proj2
              (project_authorisation Sample.one_admin projects "p1" "u2"
                 Sample.project0 (Sample.user "u2" "bob" USER)
                 eq_refl eq_refl eq_refl eq_refl))) _) COMPLETED 5%Z).
    intros [Hadmin | [Howner | Hin]];
      [vm_compute in Hadmin; discriminate | discriminate | contradiction].
  - refine (proj2 (proj2 (proj2 (proj2
              (project_authorisation Sample.one_admin projects "p1" "u1"
                 Sample.project0 (Sample.user "u1" "alice" ADMIN)
                 eq_refl eq_refl eq_refl eq_refl))) _) "u2" _ 5%Z eq_refl).
    left. reflexivity.
Defined.

(** * Who may manage a team *)









(** * Task queries *)

Lemma priority_counts_partition (l : list Task.t) :
  let count p :=
    length (List.filter (fun task => bool_decide (Task._priority task = p)) l) in
  (count LOW + count MEDIUM + count HIGH + count URGENT = length l)%nat.
Proof.
  induction l as [| task l IH]; simpl; [reflexivity |].
  simpl in IH. destruct (Task._priority task); simpl; lia.
Qed.

Lemma filter_filter_status (u : string) (s : TaskStatus) (l : list Task.t) :
  List.filter (fun task => bool_decide (Task._status task = s))
    (List.filter (fun task => bool_decide (Task._assignee_id task = Some u)) l)
  = List.filter (fun task => true && bool_decide (Task._assignee_id task = Some u)
                             && bool_decide (Task._status task = s)) l.
Proof.
  induction l as [| task l IH]; simpl; [reflexivity |].
  destruct (bool_decide (Task._assignee_id task = Some u)); simpl.
  - destruct (bool_decide (Task._status task = s)); rewrite IH; reflexivity.
  - exact IH.
Qed.

(** X24.  The statistics of a user's tasks agree with the list of the
    user's tasks.  For a stored user, [get_user_tasks] without a status
    returns exactly the stored tasks assigned to the user, and with
    [include_assigned] off it returns no task at all.  In the statistics
    taken for that user the total is the length of that list, the count
    under each status is the length of the list [get_user_tasks] returns for
    that status, the counts by status and the counts by priority each add up
    to the total, and neither the overdue nor the urgent count exceeds it,
    whatever the clock reads. *)
Theorem user_task_statistics_agree_with_user_tasks :
  forall (users : UserRepository.t) (tasks : TaskRepository.t)
         (user_id : string) (user : User.t) (clock : nat -> datetime),
    UserRepository.get_by_id user_id users = Some user ->
    Str.truthy user_id = true ->
    let stats := TaskQueries.get_task_statistics (Some user_id) clock tasks in
    (forall status,
        TaskQueries.get_user_tasks user_id status false users tasks = Ok [])
    /\ (exists mine,
          TaskQueries.get_user_tasks user_id None true users tasks = Ok mine
          /\ (forall x, In x mine
                        <-> In x (TaskRepository.get_all tasks)
                            /\ Task._assignee_id x = Some user_id)
          /\ TaskQueries.total stats = length mine)
    /\ (forall s,
          exists l,
            TaskQueries.get_user_tasks user_id (Some s) true users tasks = Ok l
            /\ (forall x, In x l -> Task._status x = s)
            /\ In (TaskSerial.status_value s, length l) (TaskQueries.by_status stats))
    /\ list_sum (map snd (TaskQueries.by_status stats)) = TaskQueries.total stats
    /\ list_sum (map snd (TaskQueries.by_priority stats)) = TaskQueries.total stats
    /\ (TaskQueries.overdue stats <= TaskQueries.total stats)%nat
    /\ (TaskQueries.urgent stats <= TaskQueries.total stats)%nat.
Proof.
  intros users tasks user_id user clock Hu Ht stats.
  unfold TaskQueries.get_user_tasks. rewrite Hu.
  subst stats. unfold TaskQueries.get_task_statistics, TaskQueries.assigned_to.
  rewrite Ht. cbn [TaskQueries.total TaskQueries.by_status TaskQueries.by_priority
                   TaskQueries.overdue TaskQueries.urgent].
  set (all := TaskRepository.get_all tasks).
  set (mine := List.filter (fun task => bool_decide (Task._assignee_id task = Some user_id))
                           all).
  split; [| split; [| split; [| split; [| split; [| split]]]]].
  - intros status. f_equal. clearbody all. clear mine.
    induction all as [| x l IH]; [reflexivity | exact IH].
  - exists mine. split.
    + f_equal. subst mine. apply filter_ext. intros x.
      rewrite andb_true_r. reflexivity.
    + split; [| reflexivity].
      intros x. subst mine. rewrite filter_In.
      rewrite bool_decide_eq_true. reflexivity.
  - intros s. eexists. split; [reflexivity |]. split.
    + intros x Hx. apply filter_In in Hx. destruct Hx as [_ Hx].
      apply andb_true_iff in Hx. destruct Hx as [_ Hx].
      apply bool_decide_eq_true in Hx. exact Hx.
    + fold all. rewrite <- filter_filter_status. fold mine.
      destruct s; simpl; auto 6.
  - simpl. pose proof (status_counts_partition mine) as Hs. simpl in Hs. lia.
  - simpl. pose proof (priority_counts_partition mine) as Hs. simpl in Hs. lia.
  - pose proof (overdue_not_done clock 0 mine). lia.
  - apply urgent_priority_counted.
Qed.

Lemma user_task_statistics_agree_with_user_tasks_witness :
  TaskQueries.get_user_tasks "u2" None true Sample.one_admin Sample.one_task
  = Ok [Sample.task1]
  /\ TaskQueries.total
       (TaskQueries.get_task_statistics (Some "u2") (fun _ => 0%Z) Sample.one_task)
     = 1%nat
  /\ TaskQueries.get_user_tasks "u2" None false Sample.one_admin Sample.one_task
     = Ok [].
Proof.
  pose proof (user_task_statistics_agree_with_user_tasks Sample.one_admin
                Sample.one_task "u2" (Sample.user "u2" "bob" USER) (fun _ => 0%Z)
                eq_refl eq_refl) as (Hnone & (mine & Hmine & _ & Htotal) & _).
  split; [reflexivity |]. split; [| exact (Hnone None)].
  rewrite Htotal. injection Hmine as <-. reflexivity.
Defined.

(** * Looking tasks up by tag *)

Lemma lstrip_length (l : list ascii) :
  Str.lstrip_list l = l \/ (length (Str.lstrip_list l) < length l)%nat.
Proof.
  induction l as [| c l IH]; simpl; [left; reflexivity |].
  destruct (Str.is_space c); [| left; reflexivity].
  right. destruct IH as [-> | IH]; lia.
Qed.

Lemma strip_list_length (l : list ascii) :
  Str.strip_list l = l \/ (length (Str.strip_list l) < length l)%nat.
Proof.
  unfold Str.strip_list.
  destruct (lstrip_length l) as [-> | H1].
  - destruct (lstrip_length (rev l)) as [-> | H2].
    + left. apply rev_involutive.
    + right. rewrite length_rev. rewrite length_rev in H2. exact H2.
  - right. rewrite length_rev.
    destruct (lstrip_length (rev (Str.lstrip_list l))) as [-> | H2].
    + rewrite length_rev. exact H1.
    + rewrite length_rev in H2. lia.
Qed.

Lemma lower_length (s : string) : String.length (Str.lower s) = String.length s.
Proof. induction s as [| c s IH]; simpl; [reflexivity | rewrite IH; reflexivity]. Qed.

Lemma length_of_list (l : list ascii) :
  String.length (string_of_list_ascii l) = length l.
Proof. induction l as [| c l IH]; simpl; [reflexivity | rewrite IH; reflexivity]. Qed.

(** Text that [strip] changes gets shorter. *)
Lemma strip_length (s : string) :
  Str.strip s = s \/ (String.length (Str.strip s) < String.length s)%nat.
Proof.
  unfold Str.strip.
  destruct (strip_list_length (list_ascii_of_string s)) as [-> | H].
  - left. apply string_of_list_ascii_of_string.
  - right. rewrite length_of_list.
    rewrite <- (string_of_list_ascii_of_string s) at 2.
    rewrite length_of_list. exact H.
Qed.

Lemma tag_normal_fixed (t : string) :
  tag_normal t -> Str.lower t = t /\ Str.strip t = t.
Proof.
  intros [_ Hn]. split.
  - rewrite <- Hn at 1. rewrite lower_idem. exact Hn.
  - rewrite <- Hn at 1. rewrite strip_lower, strip_idem. exact Hn.
Qed.

Lemma normal_tags_lower (l : list string) :
  List.Forall tag_normal l -> map Str.lower l = l.
Proof.
  induction 1 as [| t l Ht _ IH]; simpl; [reflexivity |].
  rewrite IH, (proj1 (tag_normal_fixed t Ht)). reflexivity.
Qed.

Lemma add_tag_In (tag : string) (now : datetime) (x : Task.t) :
  Str.truthy (Str.lower (Str.strip tag)) = true ->
  In (Str.lower (Str.strip tag)) (Task._tags (Task.add_tag tag now x)).
Proof.
  intros Ht. unfold Task.add_tag. rewrite Ht. simpl.
  destruct (Str.mem (Str.lower (Str.strip tag)) (Task._tags x)) eqn:Hm; simpl.
  - apply mem_In. exact Hm.
  - apply in_or_app. right. left. reflexivity.
Qed.

(** X25.  Looking tasks up by tag.  In a repository whose tasks carry
    tags as [add_tag] stores them, [get_tasks_with_tag] returns exactly the
    stored tasks that have the lowered query among their tags.  The query is
    lowered but not stripped, while [add_tag] does both: a stored task that
    was tagged through [add_tag] is found under the stripped tag, in any
    capitalisation, and is not found under a tag that has white space
    at either end, although [add_tag] was given that very text. *)
Theorem tag_query_is_lowered_not_stripped :
  forall (repo : TaskRepository.t),
    (forall x, In x (TaskRepository.get_all repo) -> tags_ok (Task._tags x)) ->
    (forall tag x,
        In x (TaskRepository.get_tasks_with_tag tag repo)
        <-> In x (TaskRepository.get_all repo) /\ In (Str.lower tag) (Task._tags x))
    /\ (forall tag now x,
          In (Task.add_tag tag now x) (TaskRepository.get_all repo) ->
          Str.truthy (Str.lower (Str.strip tag)) = true ->
          In (Task.add_tag tag now x)
             (TaskRepository.get_tasks_with_tag (Str.strip tag) repo)
          /\ In (Task.add_tag tag now x)
                (TaskRepository.get_tasks_with_tag (Str.lower (Str.strip tag)) repo)
          /\ (Str.strip tag <> tag ->
              ~ In (Task.add_tag tag now x)
                   (TaskRepository.get_tasks_with_tag tag repo))).
Proof.
  intros repo Hok.
  assert (Hquery : forall tag x,
             In x (TaskRepository.get_tasks_with_tag tag repo)
             <-> In x (TaskRepository.get_all repo)
                 /\ In (Str.lower tag) (Task._tags x)).
  { intros tag x. unfold TaskRepository.get_tasks_with_tag.
    fold (TaskRepository.get_all repo). rewrite filter_In. split.
    - intros [Hin Hm]. split; [exact Hin |].
      rewrite (normal_tags_lower _ (proj2 (Hok x Hin))) in Hm.
      apply mem_In. exact Hm.
    - intros [Hin Hm]. split; [exact Hin |].
      rewrite (normal_tags_lower _ (proj2 (Hok x Hin))).
      apply mem_In. exact Hm. }
  split; [exact Hquery |].
  intros tag now x Hin Ht.
  pose proof (add_tag_In tag now x Ht) as Htag.
  split; [| split].
  - apply Hquery. split; [exact Hin | exact Htag].
  - apply Hquery. split; [exact Hin |]. rewrite lower_idem. exact Htag.
  - intros Hne Hfound. apply Hquery in Hfound. destruct Hfound as [_ Hfound].
    destruct (Hok _ Hin) as [_ Hall].
    rewrite List.Forall_forall in Hall.
    destruct (tag_normal_fixed _ (Hall _ Hfound)) as [_ Hstrip].
    rewrite strip_lower in Hstrip.
    apply (f_equal String.length) in Hstrip. rewrite !lower_length in Hstrip.
    destruct (strip_length tag) as [Heq | Hlt]; [contradiction | lia].
Qed.

Lemma tag_query_is_lowered_not_stripped_witness :
  let x := Task.add_tag " Bug " 1%Z Sample.task1 in
  let repo := TaskRepository.mk [("t1", x)] 1 in
  In x (TaskRepository.get_tasks_with_tag "BUG" repo)
  /\ ~ In x (TaskRepository.get_tasks_with_tag " Bug " repo).
Proof.
  intros x repo.
  assert (Hok : forall y, In y (TaskRepository.get_all repo) -> tags_ok (Task._tags y)).
  { intros y [<- | []]. apply add_tag_tags_ok. split; constructor. }
  destruct (tag_query_is_lowered_not_stripped repo Hok) as [Hquery Hadd].
  split.
  - apply Hquery. split; [left; reflexivity |]. left. reflexivity.
  - apply (Hadd " Bug " 1%Z Sample.task1); [left; reflexivity | reflexivity |].
    discriminate.
Defined.

(** * Patterns and the words they denote *)

Lemma nullable_spec (r : Re.regex) : Re.nullable r = true <-> Re.matches r [].
Proof.
  induction r as [| | p | r1 IH1 r2 IH2 | r1 IH1 r2 IH2 | r IH]; simpl.
  - split; [discriminate | intros Hm; inversion Hm].
  - split; [intros _; constructor | reflexivity].
  - split; [discriminate | intros Hm; inversion Hm].
  - rewrite andb_true_iff, IH1, IH2. split.
    + intros [H1 H2]. exact (Re.matches_seq _ _ [] [] H1 H2).
    + intros Hm. inversion Hm as [| | ? ? s1 s2 H1 H2 | | | |]; subst.
      match goal with Heq : (_ ++ _)%list = [] |- _ =>
        apply app_eq_nil in Heq; destruct Heq as [-> ->] end.
      split; assumption.
  - rewrite orb_true_iff, IH1, IH2. split.
    + intros [H1 | H2]; [apply Re.matches_alt_l | apply Re.matches_alt_r]; assumption.
    + intros Hm. inversion Hm; subst; [left | right]; assumption.
  - split; [intros _; constructor | reflexivity].
Qed.

Lemma star_cons (r : Re.regex) (c : ascii) (s : list ascii) :
  Re.matches (Re.Star r) (c :: s) ->
  exists s1 s2, s = (s1 ++ s2)%list /\ Re.matches r (c :: s1)
                /\ Re.matches (Re.Star r) s2.
Proof.
  intros Hm. remember (Re.Star r) as r' eqn:Hr. remember (c :: s) as w eqn:Hw.
  revert s Hw.
  induction Hm as [| p c0 Hp | r1 r2 s1 s2 _ _ _ _ | r1 r2 s0 _ _ | r1 r2 s0 _ _
                  | r0 | r0 s1 s2 H1 _ H2 IH2]; intros s Hw; try discriminate.
  injection Hr as ->.
  destruct s1 as [| c1 s1]; simpl in Hw.
  - apply IH2; [reflexivity | exact Hw].
  - injection Hw as <- <-. exists s1, s2. split; [reflexivity |]. split; assumption.
Qed.

Lemma deriv_spec (r : Re.regex) (c : ascii) (s : list ascii) :
  Re.matches (Re.deriv c r) s <-> Re.matches r (c :: s).
Proof.
  revert s.
  induction r as [| | p | r1 IH1 r2 IH2 | r1 IH1 r2 IH2 | r IH]; intros s; simpl.
  - split; intros Hm; inversion Hm.
  - split; intros Hm; inversion Hm.
  - destruct (p c) eqn:Hp.
    + split; intros Hm; inversion Hm; subst; constructor. exact Hp.
    + split; intros Hm; inversion Hm; subst. congruence.
  - assert (Hseq : Re.matches (Re.Seq (Re.deriv c r1) r2) s
                   -> Re.matches (Re.Seq r1 r2) (c :: s)).
    { intros Hm. inversion Hm as [| | ? ? s1 s2 H1 H2 | | | |]; subst.
      apply IH1 in H1. exact (Re.matches_seq _ _ (c :: s1) s2 H1 H2). }
    assert (Hback : Re.matches (Re.Seq r1 r2) (c :: s) ->
                    Re.matches (Re.Seq (Re.deriv c r1) r2) s
                    \/ (Re.matches r1 [] /\ Re.matches (Re.deriv c r2) s)).
    { intros Hm. inversion Hm as [| | ? ? s1 s2 H1 H2 | | | |]; subst.
      match goal with Heq : (_ ++ _)%list = _ :: _ |- _ => rename Heq into Hw end.
      destruct s1 as [| c1 s1]; simpl in Hw.
      - subst s2. right. split; [exact H1 | apply IH2; exact H2].
      - injection Hw as -> <-. left. apply Re.matches_seq; [apply IH1 |]; assumption. }
    destruct (Re.nullable r1) eqn:Hn.
    + split.
      * intros Hm. inversion Hm; subst; [apply Hseq; assumption |].
        apply nullable_spec in Hn.
        match goal with H : Re.matches (Re.deriv c r2) s |- _ => apply IH2 in H;
          exact (Re.matches_seq _ _ [] (c :: s) Hn H) end.
      * intros Hm. destruct (Hback Hm) as [H | [_ H]];
          [apply Re.matches_alt_l | apply Re.matches_alt_r]; exact H.
    + split; [exact Hseq |].
      intros Hm. destruct (Hback Hm) as [H | [H _]]; [exact H |].
      apply nullable_spec in H. congruence.
  - split; intros Hm; inversion Hm; subst;
      [apply Re.matches_alt_l, IH1 | apply Re.matches_alt_r, IH2
      | apply Re.matches_alt_l, IH1 | apply Re.matches_alt_r, IH2]; assumption.
  - split.
    + intros Hm. inversion Hm as [| | ? ? s1 s2 H1 H2 | | | |]; subst.
      apply IH in H1. exact (Re.matches_star_app _ (c :: s1) s2 H1 H2).
    + intros Hm. destruct (star_cons _ _ _ Hm) as (s1 & s2 & -> & H1 & H2).
      apply Re.matches_seq; [apply IH |]; assumption.
Qed.

Lemma fullmatch_spec (r : Re.regex) (s : string) :
  Re.fullmatch r s = true <-> Re.matches r (list_ascii_of_string s).
Proof.
  revert r. induction s as [| c s IH]; intros r; simpl.
  - apply nullable_spec.
  - rewrite IH. apply deriv_spec.
Qed.

Lemma matches_map (f : ascii -> ascii) (r : Re.regex) (s : list ascii) :
  Re.closed_under f r -> Re.matches r s -> Re.matches r (map f s).
Proof.
  intros Hc Hm. induction Hm as [| p c Hp | r1 r2 s1 s2 _ IH1 _ IH2 | r1 r2 s _ IH
                               | r1 r2 s _ IH | r | r s1 s2 _ IH1 _ IH2]; simpl in *.
  - constructor.
  - constructor. apply Hc. exact Hp.
  - rewrite map_app. destruct Hc as [Hc1 Hc2]. apply Re.matches_seq; auto.
  - apply Re.matches_alt_l. apply IH, Hc.
  - apply Re.matches_alt_r. apply IH, Hc.
  - constructor.
  - rewrite map_app. apply Re.matches_star_app; auto.
Qed.

Lemma matches_accepts (r : Re.regex) (s : list ascii) :
  Re.matches r s -> List.Forall (fun c => Re.accepts r c = true) s.
Proof.
  intros Hm. induction Hm as [| p c Hp | r1 r2 s1 s2 _ IH1 _ IH2 | r1 r2 s _ IH
                             | r1 r2 s _ IH | r | r s1 s2 _ IH1 _ IH2]; simpl in *.
  - constructor.
  - constructor; [exact Hp | constructor].
  - apply List.Forall_app. split; [eapply List.Forall_impl; [| exact IH1]
                                  | eapply List.Forall_impl; [| exact IH2]];
      simpl; intros c Hc; rewrite Hc; [reflexivity | apply orb_true_r].
  - eapply List.Forall_impl; [| exact IH]. simpl. intros c Hc. rewrite Hc. reflexivity.
  - eapply List.Forall_impl; [| exact IH]. simpl. intros c Hc. rewrite Hc.
    apply orb_true_r.
  - constructor.
  - apply List.Forall_app. split; assumption.
Qed.

(** * Validation ahead of creation *)

Lemma email_classes_lower : Re.closed_under Str.lower_ascii User.EMAIL_REGEX.
Proof.
  cbv [User.EMAIL_REGEX Re.Plus Re.closed_under].
  repeat split; intros [[] [] [] [] [] [] [] []]; vm_compute; intros Hc;
    solve [reflexivity | discriminate Hc].
Qed.

Lemma email_classes_no_space (c : ascii) :
  Re.accepts User.EMAIL_REGEX c = true -> Str.is_space c = false.
Proof.
  destruct c as [[] [] [] [] [] [] [] []]; vm_compute; intros Hc;
    solve [reflexivity | discriminate Hc].
Qed.

Lemma strip_list_no_space (l : list ascii) :
  List.Forall (fun c => Str.is_space c = false) l -> Str.strip_list l = l.
Proof.
  intros Hl. unfold Str.strip_list.
  assert (Hfix : forall l', List.Forall (fun c => Str.is_space c = false) l' ->
                            Str.lstrip_list l' = l').
  { intros l' Hl'. apply lstrip_fixed. destruct Hl'; [exact I | assumption]. }
  rewrite (Hfix l Hl), (Hfix (rev l)) by (apply List.Forall_rev; exact Hl).
  apply rev_involutive.
Qed.

Lemma strip_list_newline (l : list ascii) :
  List.Forall (fun c => Str.is_space c = false) l ->
  Str.strip_list (l ++ ["010"%char]) = l.
Proof.
  intros Hl. unfold Str.strip_list.
  assert (Hfix : forall l', List.Forall (fun c => Str.is_space c = false) l' ->
                            Str.lstrip_list l' = l').
  { intros l' Hl'. apply lstrip_fixed. destruct Hl'; [exact I | assumption]. }
  assert (H1 : rev (Str.lstrip_list (l ++ ["010"%char])) = "010"%char :: rev l
               \/ l = []).
  { destruct l as [| c l]; [right; reflexivity | left].
    rewrite lstrip_fixed by (inversion Hl; assumption).
    rewrite rev_app_distr. reflexivity. }
  destruct H1 as [-> | ->]; [| reflexivity].
  simpl. rewrite (Hfix (rev l)) by (apply List.Forall_rev; exact Hl).
  apply rev_involutive.
Qed.

Lemma chop_newline_spec (s s' : string) :
  Re.chop_newline s = Some s' ->
  list_ascii_of_string s = (list_ascii_of_string s' ++ ["010"%char])%list.
Proof.
  revert s'. induction s as [| c s IH]; intros s'; simpl; [discriminate |].
  destruct s as [| c0 s0].
  - case_bool_decide; [| discriminate]. intros [= <-]. subst c. reflexivity.
  - destruct (Re.chop_newline (String c0 s0)) as [r |]; [| discriminate].
    intros [= <-]. simpl. f_equal. exact (IH r eq_refl).
Qed.

Lemma email_matches_normalised (r : Re.regex) (s : string) :
  Re.closed_under Str.lower_ascii r ->
  (forall c, Re.accepts r c = true -> Str.is_space c = false) ->
  Re.match_anchored r s = true ->
  Re.match_anchored r (Str.lower (Str.strip s)) = true.
Proof.
  intros Hclosed Hspace Hm.
  assert (Hkey : forall w : string,
             Re.fullmatch r w = true ->
             Str.strip_list (list_ascii_of_string s) = list_ascii_of_string w ->
             Re.match_anchored r (Str.lower (Str.strip s)) = true).
  { intros w Hw Hs. unfold Re.match_anchored, Str.strip. rewrite Hs.
    rewrite string_of_list_ascii_of_string.
    apply orb_true_iff. left. apply fullmatch_spec. rewrite lower_as_map.
    apply matches_map; [exact Hclosed |]. apply fullmatch_spec. exact Hw. }
  assert (Hnospace : forall w : string,
             Re.fullmatch r w = true ->
             List.Forall (fun c => Str.is_space c = false) (list_ascii_of_string w)).
  { intros w Hw. apply fullmatch_spec, matches_accepts in Hw.
    eapply List.Forall_impl; [| exact Hw]. exact Hspace. }
  unfold Re.match_anchored in Hm. apply orb_true_iff in Hm.
  destruct Hm as [Hm | Hm].
  - apply (Hkey s Hm). apply strip_list_no_space, Hnospace, Hm.
  - destruct (Re.chop_newline s) as [s' |] eqn:Hchop; [| discriminate].
    apply (Hkey s' Hm). rewrite (chop_newline_spec _ _ Hchop).
    apply strip_list_newline, Hnospace, Hm.
Qed.

(** X26.  What [validate_user_data] accepts, [create_user] accepts.  If
    the validation of a username, an e-mail address and a password reports
    no error, then [create_user] with the same three texts returns a user,
    whose username and address are the normalised texts.  In the other
    direction a successful creation means that the validation has no
    complaint about the username or the password, and about the address at
    most that its format is invalid: the validation tests the address as
    given, the constructor after stripping it. *)
Theorem validated_user_data_is_accepted `{Crypto} :
  forall (repo : UserRepository.t) (username email password : string)
         (role : UserRole) (salt : string) (now : datetime),
    (UserService.validate_user_data (Some username) (Some email) (Some password) repo
     = [] ->
     exists user repo',
       UserService.create_user username email password role salt now repo
       = (Ok user, repo')
       /\ User._username user = Str.strip (Str.lower username)
       /\ User._email user = Str.lower (Str.strip email)
       /\ User._role user = role)
    /\ (forall user repo',
          UserService.create_user username email password role salt now repo
          = (Ok user, repo') ->
          UserService.validate_user_data (Some username) None (Some password) repo = []
          /\ (UserService.validate_user_data (Some username) (Some email)
                (Some password) repo = []
              \/ UserService.validate_user_data (Some username) (Some email)
                   (Some password) repo = [("email", ["Invalid email format"])])).
Proof.
  intros repo username email password role salt now. split.
  - unfold UserService.validate_user_data, UserService.create_user.
    destruct (negb (Str.truthy username) || (Str.len username <? 3)%nat) eqn:Hu;
      [discriminate |].
    destruct (UserRepository.get_by_username username repo); [discriminate |].
    destruct (negb (Str.truthy email)
              || negb (Re.match_anchored User.EMAIL_REGEX email)) eqn:He;
      [discriminate |].
    destruct (UserRepository.get_by_email email repo); [discriminate |].
    destruct (negb (Str.truthy password) || (Str.len password <? 6)%nat) eqn:Hp;
      [discriminate |].
    intros _.
    apply orb_false_iff in He. destruct He as [_ He]. apply negb_false_iff in He.
    apply orb_false_iff in Hp. destruct Hp as [_ Hp].
    pose proof (email_matches_normalised _ _ email_classes_lower
                  email_classes_no_space He) as He'.
    unfold User.__init__, User._validate_username, User._validate_email,
      User._hash_password.
    rewrite Hu, He', Hp. simpl.
    eexists _, _. split; [reflexivity |]. repeat split.
  - intros user repo'. unfold UserService.validate_user_data, UserService.create_user.
    destruct (UserRepository.get_by_username username repo); [discriminate |].
    destruct (UserRepository.get_by_email email repo); [discriminate |].
    unfold User.__init__, User._validate_username, User._hash_password.
    destruct (negb (Str.truthy username) || (Str.len username <? 3)%nat);
      [discriminate |].
    destruct (User._validate_email email); [| discriminate].
    destruct (Str.len password <? 6)%nat eqn:Hp; [discriminate |].
    intros _.
    assert (Htruthy : Str.truthy password = true).
    { destruct password; [discriminate Hp | reflexivity]. }
    rewrite Htruthy. simpl.
    split; [reflexivity |].
    destruct (negb (Str.truthy email)
              || negb (Re.match_anchored User.EMAIL_REGEX email));
      [right | left]; reflexivity.
Qed.

Lemma validated_user_data_is_accepted_witness :
  exists user repo',
    @UserService.create_user Sample.crypto "CAROL" "Carol@Example.com" "secret3" USER
      "5a17" 0%Z Sample.one_admin = (Ok user, repo')
    /\ User._username user = "carol"
    /\ User._email user = "carol@example.com".
Proof.
  destruct (proj1 (@validated_user_data_is_accepted Sample.crypto Sample.one_admin
                     "CAROL" "Carol@Example.com" "secret3" USER "5a17" 0%Z) eq_refl)
    as (user & repo' & Hc & Hu & He & _).
  exists user, repo'. split; [exact Hc |]. split; [rewrite Hu | rewrite He]; reflexivity.
Defined.

(** * Deleting from a repository *)

Lemma dict_get_keys {V : Type} (d : PyDict.t V) (k : string) :
  PyDict.get k d = None <-> ~ In k (PyDict.keys d).
Proof.
  unfold PyDict.keys. induction d as [| [k0 v0] d IH]; simpl; [tauto |].
  case_bool_decide; [split; [discriminate | tauto] |].
  rewrite IH. tauto.
Qed.

Lemma dict_set_keys {V : Type} (d : PyDict.t V) (k : string) (v : V) :
  PyDict.keys (PyDict.set k v d)
  = if Str.mem k (PyDict.keys d) then PyDict.keys d
    else (PyDict.keys d ++ [k])%list.
Proof.
  unfold PyDict.keys, Str.mem. induction d as [| [k0 v0] d IH]; simpl; [reflexivity |].
  case_bool_decide; simpl.
  - subst k0. reflexivity.
  - rewrite IH. destruct (existsb _ _); reflexivity.
Qed.

Lemma dict_delete_spec {V : Type} (d : PyDict.t V) (k : string) :
  List.NoDup (PyDict.keys d) ->
  PyDict.get k (PyDict.delete k d) = None
  /\ (forall k', k' <> k -> PyDict.get k' (PyDict.delete k d) = PyDict.get k' d)
  /\ List.NoDup (PyDict.keys (PyDict.delete k d))
  /\ (forall k', In k' (PyDict.keys (PyDict.delete k d)) -> In k' (PyDict.keys d))
  /\ (forall v, PyDict.get k d = Some v ->
                S (length (PyDict.delete k d)) = length d).
Proof.
  unfold PyDict.keys. induction d as [| [k0 v0] d IH]; simpl; intros Hnd.
  - repeat split; auto; try constructor. discriminate.
  - inversion Hnd as [| ? ? Hnotin Hnd']; subst.
    destruct (IH Hnd') as (Hget & Hother & Hnd'' & Hsub & Hlen).
    case_bool_decide; simpl.
    + subst k0. split; [apply dict_get_keys; exact Hnotin |].
      split; [intros k' Hne; rewrite bool_decide_eq_false_2 by congruence; reflexivity |].
      split; [exact Hnd' |]. split; [auto |]. reflexivity.
    + rewrite bool_decide_eq_false_2 by assumption.
      split; [exact Hget |].
      split; [intros k' Hne; case_bool_decide; [reflexivity | apply Hother; exact Hne] |].
      split; [constructor; [intros Hin; apply Hnotin, Hsub, Hin | exact Hnd''] |].
      split; [intros k' [-> | Hin]; [left; reflexivity | right; apply Hsub, Hin] |].
      intros v Hv. rewrite (Hlen v Hv). reflexivity.
Qed.

(** X27.  Deleting from the task repository.  The keys of a dictionary
    being distinct, which [save] keeps, [delete] reports whether the
    identifier was stored; afterwards nothing is stored under it, every other
    identifier holds what it held, the count has gone down by one if
    something was deleted and the repository is untouched if not; the
    counter of generated identifiers is never set back. *)
Theorem task_repository_delete_removes_one_entry :
  forall (repo : TaskRepository.t) (task_id : string),
    List.NoDup (PyDict.keys (TaskRepository._data repo)) ->
    let deleted := fst (TaskRepository.delete task_id repo) in
    let repo' := snd (TaskRepository.delete task_id repo) in
    deleted = TaskRepository.exists_ task_id repo
    /\ TaskRepository.get_by_id task_id repo' = None
    /\ TaskRepository.exists_ task_id repo' = false
    /\ (forall other, other <> task_id ->
          TaskRepository.get_by_id other repo' = TaskRepository.get_by_id other repo)
    /\ (TaskRepository.count repo' + (if deleted then 1 else 0)
        = TaskRepository.count repo)%nat
    /\ (deleted = false -> repo' = repo)
    /\ TaskRepository._next_id repo' = TaskRepository._next_id repo
    /\ List.NoDup (PyDict.keys (TaskRepository._data repo'))
    /\ (forall task,
          List.NoDup (PyDict.keys (TaskRepository._data
                                     (snd (TaskRepository.save task repo))))).
Proof.
  intros repo task_id Hnd deleted repo'. subst deleted repo'.
  destruct (dict_delete_spec (TaskRepository._data repo) task_id Hnd)
    as (Hget & Hother & Hnd' & _ & Hlen).
  assert (Hsave : forall task,
             List.NoDup (PyDict.keys (TaskRepository._data
                                        (snd (TaskRepository.save task repo))))).
  { intros task. unfold TaskRepository.save.
    destruct (negb (Str.truthy (Task._id task))); simpl; [exact Hnd |].
    rewrite dict_set_keys.
    destruct (Str.mem _ _) eqn:Hm; [exact Hnd |].
    apply NoDup_snoc; [exact Hnd | apply mem_false; exact Hm]. }
  unfold TaskRepository.delete, TaskRepository.exists_, TaskRepository.get_by_id,
    TaskRepository.count.
  destruct (PyDict.get task_id (TaskRepository._data repo)) as [x |] eqn:Hx; simpl.
  - rewrite Hget.
    split; [reflexivity |]. split; [reflexivity |]. split; [reflexivity |].
    split; [exact Hother |]. split; [rewrite <- (Hlen x eq_refl); lia |].
    split; [discriminate |]. split; [reflexivity |]. split; [exact Hnd' | exact Hsave].
  - rewrite Hx.
    split; [reflexivity |]. split; [reflexivity |]. split; [reflexivity |].
    split; [reflexivity |]. split; [lia |].
    split; [reflexivity |]. split; [reflexivity |]. split; [exact Hnd | exact Hsave].
Qed.

Lemma task_repository_delete_removes_one_entry_witness :
  TaskRepository.delete "t1" Sample.one_task = (true, TaskRepository.mk [] 1)
  /\ TaskRepository.count (snd (TaskRepository.delete "t1" Sample.one_task)) = 0%nat
  /\ snd (TaskRepository.delete "t9" Sample.one_task) = Sample.one_task.
Proof.
  assert (Hnd : List.NoDup (PyDict.keys (TaskRepository._data Sample.one_task))).
  { simpl. constructor; [simpl; tauto | constructor]. }
  split; [reflexivity |]. split; [reflexivity |].
  apply (task_repository_delete_removes_one_entry Sample.one_task "t9" Hnd).
  reflexivity.
Defined.
